(** * VPa05_PDF_maker: the invoice document pipeline

    A shallow embedding of [pdf_generator.py] (class [PDFGenerator]) and
    [schet_generator.py] (class [SchetGenerator]): dataset loading,
    invoice-key discovery and filtering, placeholder rendering, PDF backend
    selection, the invoice counter, the creation of a new invoice, the
    console menus and the interactive [PDFGenerator.run].

    Python text is a list of bytes (UTF-8, as the sources are written);
    values are a tagged type; code that may raise returns an [outcome];
    code that prints, reads the clock or touches files threads a [World]. *)

From Stdlib Require Import List Bool Arith ZArith NArith Lia Ascii Sorted Permutation.
From Stdlib Require String DecimalString DecimalPos DecimalZ.
Import ListNotations String.StringSyntax.

Set Implicit Arguments.

(** ** Python text *)

Module PyStr.

(** A Python [str], kept as its UTF-8 bytes.  Substring search, equality
    and ordering of valid UTF-8 agree with the same operations on code
    points. *)
Definition str := list ascii.

Definition lit (s : String.string) : str := String.list_ascii_of_string s.

Definition str_eqb (a b : str) : bool :=
  if list_eq_dec ascii_dec a b then true else false.

(** [s.startswith(p)] *)
Fixpoint prefixb (p s : str) : bool :=
  match p, s with
  | [], _ => true
  | _ :: _, [] => false
  | a :: p', b :: s' => if ascii_dec a b then prefixb p' s' else false
  end.

(** [p in s] *)
Fixpoint contains (p s : str) : bool :=
  prefixb p s ||
  match s with
  | [] => false
  | _ :: s' => contains p s'
  end.

(** [s.lower()] on the letters the sources match against: ASCII [A-Z] and
    the Cyrillic capitals U+0400..U+042F (two UTF-8 bytes, lead byte 0xD0);
    every other byte sequence is passed through. *)
Fixpoint lower (s : str) : str :=
  match s with
  | [] => []
  | a :: t =>
      let n := N_of_ascii a in
      if ((65 <=? n) && (n <=? 90))%N then ascii_of_N (n + 32) :: lower t
      else if (n =? 208)%N then
        match t with
        | [] => [a]
        | b :: t' =>
            let m := N_of_ascii b in
            if ((128 <=? m) && (m <=? 143))%N
            then ascii_of_N 209 :: ascii_of_N (m + 16) :: lower t'
            else if ((144 <=? m) && (m <=? 159))%N
            then a :: ascii_of_N (m + 32) :: lower t'
            else if ((160 <=? m) && (m <=? 175))%N
            then ascii_of_N 209 :: ascii_of_N (m - 32) :: lower t'
            else a :: b :: lower t'
        end
      else a :: lower t
  end.

(** [s.replace(old, new)]: leftmost, non-overlapping occurrences.  [skip]
    counts the bytes of a match that are still to be dropped. *)
Fixpoint replace_from (old new : str) (skip : nat) (s : str) : str :=
  match s with
  | [] => []
  | c :: s' =>
      match skip with
      | S k => replace_from old new k s'
      | O =>
          if prefixb old s
          then new ++ replace_from old new (length old - 1) s'
          else c :: replace_from old new 0 s'
      end
  end.

Definition replace (s old new : str) : str :=
  match old with
  | [] => new ++ flat_map (fun c => c :: new) s
  | _ :: _ => replace_from old new 0 s
  end.

(** Ordering of text, byte by byte. *)
Fixpoint str_compare (a b : str) : comparison :=
  match a, b with
  | [], [] => Eq
  | [], _ :: _ => Lt
  | _ :: _, [] => Gt
  | x :: a', y :: b' =>
      match N.compare (N_of_ascii x) (N_of_ascii y) with
      | Eq => str_compare a' b'
      | c => c
      end
  end.

(** [sorted(list(set(l)))] for a list of text: the distinct elements in
    increasing order. *)
Fixpoint insert_sorted (x : str) (l : list str) : list str :=
  match l with
  | [] => [x]
  | y :: t =>
      match str_compare x y with
      | Lt => x :: y :: t
      | Eq => y :: t
      | Gt => y :: insert_sorted x t
      end
  end.

Definition sorted_set (l : list str) : list str :=
  fold_right insert_sorted [] l.

(** [str(n)] for an [int]. *)
Definition str_of_Z (z : Z) : str :=
  lit (DecimalString.NilZero.string_of_int (Z.to_int z)).

(** [s.zfill(w)] for a string of digits. *)
Definition zfill (w : nat) (s : str) : str :=
  repeat "0"%char (w - length s) ++ s.

(** [f"{z:03d}"]: at least three characters, the sign first. *)
Definition format_03d (z : Z) : str :=
  if (z <? 0)%Z
  then "-"%char :: zfill 2 (str_of_Z (Z.abs z))
  else zfill 3 (str_of_Z z).

End PyStr.

Export PyStr.
Coercion lit : String.string >-> str.
Arguments lit : simpl never.
Open Scope string_scope.
Open Scope list_scope.

(** The double quote character. *)
Definition dquote : ascii := "034"%char.

(** Concatenation of text, [a + b]. *)
Notation "a +++ b" := (@app ascii (a : str) (b : str))
  (at level 60, right associativity).

(** ** Python values, exceptions and the host environment *)

(** The exception classes the sources distinguish or provoke.  Only
    subclasses of [Exception] are modelled: [except Exception] does not
    catch [KeyboardInterrupt] or [SystemExit]. *)
Inductive exn_class :=
| UnicodeDecodeError | TypeError | ValueError | AttributeError | KeyError
| OtherException.

Record exn := mk_exn { exn_kind : exn_class; exn_text : str }.

Inductive outcome (A : Type) :=
| Ok (a : A)
| Raise (e : exn).
Arguments Ok {A} a.
Arguments Raise {A} e.

Definition bind {A B} (m : outcome A) (k : A -> outcome B) : outcome B :=
  match m with
  | Ok a => k a
  | Raise e => Raise e
  end.

Notation "x <- m ;; k" := (bind m (fun x => k))
  (at level 61, m at next level, right associativity).

Definition is_unicode_error (e : exn) : bool :=
  match exn_kind e with
  | UnicodeDecodeError => true
  | _ => false
  end.

(** Python's [float] is not modelled bit by bit: its values and the
    operations the sources apply to them are an interface. *)
Class FloatModel := {
  pyfloat : Type;
  float_of_Z : Z -> pyfloat;
  float_add : pyfloat -> pyfloat -> pyfloat;
  float_mul : pyfloat -> pyfloat -> pyfloat;
  float_str : pyfloat -> str
}.

Section Values.
Context {FM : FloatModel}.

(** A value as [json.load], [pandas] cells and the callers produce them.
    A [dict] keeps its insertion order; its keys are distinct. *)
#[warnings="-register-all"] Inductive pyval :=
| PNone
| PBool (b : bool)
| PInt (z : Z)
| PFloat (f : pyfloat)
| PStr (s : str)
| PList (l : list pyval)
| PDict (d : list (str * pyval)).

Definition record := list (str * pyval).

(** [d[k]] for a key known to be present, [d.get(k, default)] otherwise. *)
Fixpoint dict_find (d : record) (k : str) : option pyval :=
  match d with
  | [] => None
  | (k', v) :: d' => if str_eqb k' k then Some v else dict_find d' k
  end.

Definition dict_get (d : record) (k : str) (default : pyval) : pyval :=
  match dict_find d k with
  | Some v => v
  | None => default
  end.

Definition keys (d : record) : list str := map fst d.

(** [pandas.DataFrame]: the column labels and the rows, each row holding
    one cell per column.  Labels are distinct ([read_csv] renames
    duplicates). *)
Record DataFrame := mk_frame {
  columns : list str;
  rows : list (list pyval)
}.

Fixpoint position (c : str) (cols : list str) : nat :=
  match cols with
  | [] => 0
  | c' :: cols' => if str_eqb c' c then 0 else S (position c cols')
  end.

(** [row[c]] for a label [c] of the frame. *)
Definition cell (df : DataFrame) (c : str) (row : list pyval) : pyval :=
  nth (position c (columns df)) row PNone.

(** [df[c]] as the list of its cells. *)
Definition column (df : DataFrame) (c : str) : list pyval :=
  map (cell df c) (rows df).

(** [c in df.columns] *)
Definition has_column (df : DataFrame) (c : str) : bool :=
  existsb (str_eqb c) (columns df).

(** [df.empty]: no rows or no columns. *)
Definition frame_empty (df : DataFrame) : bool :=
  match columns df, rows df with
  | _ :: _, _ :: _ => false
  | _, _ => true
  end.

(** [pd.DataFrame()] *)
Definition empty_frame : DataFrame := mk_frame [] [].

(** [row.get(c, default)] on a row of the frame. *)
Definition row_get (df : DataFrame) (row : list pyval) (c : str)
    (default : pyval) : pyval :=
  if has_column df c then cell df c row else default.

(** The [data: Any] argument of [PDFGenerator]: a frame from a CSV file or
    a value from a JSON file. *)
Inductive anydata :=
| Frame (df : DataFrame)
| Value (v : pyval).

(** What a PDF on disk was produced from; [Unfinished] is the file a
    backend had begun when it raised. *)
Inductive pdf_source :=
| FromHtml (html : str)
| FromData (data : anydata) (invoice_id : str)
| Unfinished.

(** The mutable surroundings of a run: what was printed, the counter file
    [invoice_counter.json] (absent, or present with what [json.load] makes
    of it), whether it can be opened for writing, how often the clock was
    read, and the PDF files written so far, the last one first. *)
Record World := mk_world {
  stdout : list str;
  counter_file : option (outcome pyval);
  counter_writable : bool;
  clock_reads : nat;
  pdf_files : list (str * pdf_source)
}.

(** [datetime.now()]: one more reading of the clock. *)
Definition tick (w : World) : World :=
  mk_world (stdout w) (counter_file w) (counter_writable w)
           (S (clock_reads w)) (pdf_files w).

(** [print(msg)] *)
Definition say (msg : str) (w : World) : World :=
  mk_world (stdout w ++ [msg]) (counter_file w) (counter_writable w)
           (clock_reads w) (pdf_files w).

(** What the program reaches outside itself: libraries, files, clock. *)
Class Host := {
  (** [repr] of a list or a dict *)
  py_repr : pyval -> str;
  (** [pd.read_csv(path, encoding=enc)], and with [errors='ignore'] when
      the flag is set *)
  pd_read_csv : str -> str -> bool -> outcome DataFrame;
  (** [open(path, 'r', encoding='utf-8')] followed by [json.load] *)
  json_load : str -> outcome pyval;
  (** [open(path, 'r', encoding='utf-8')] followed by [f.read()] *)
  read_text : str -> outcome str;
  (** [data.iloc[0]] and the rows of [data.iterrows()]: the cells of one
      row as pandas hands them out, in one Series of the common dtype of
      the columns, so that a whole number is read as a float when the
      columns are whole numbers and floats *)
  row_series : DataFrame -> list pyval -> list pyval;
  (** [df.to_html(index=False, classes='items-table', escape=False)] *)
  to_html : DataFrame -> str;
  (** [pd.DataFrame(records).to_html(...)] for a list from JSON *)
  records_to_html : list pyval -> outcome str;
  (** [sorted(series.unique())] on the raw cells *)
  sorted_unique : list pyval -> outcome (list pyval);
  (** [series.sum()] *)
  series_sum : list pyval -> outcome pyval;
  (** [f"{v:,.2f}"] *)
  format_money : pyval -> outcome str;
  (** [datetime.now().strftime('%Y-%m-%d')] at the n-th reading of the clock *)
  now_date : nat -> str;
  (** [datetime.now().strftime('%Y%m%d%H%M')] at the n-th reading *)
  now_stamp : nat -> str;
  (** [(datetime.strptime(s, '%Y-%m-%d') + timedelta(days=10)).strftime('%Y-%m-%d')] *)
  plus_ten_days : str -> outcome str;
  (** the two import flags set when the module is loaded *)
  WEASYPRINT_AVAILABLE : bool;
  REPORTLAB_AVAILABLE : bool;
  (** [weasyprint.HTML(string=html).write_pdf(path)] *)
  weasyprint_write_pdf : str -> str -> outcome unit;
  (** the body of [_generate_pdf_reportlab]: font registration, the story
      and [doc.build]; it gives the lines printed on the way and whether
      an exception ended it *)
  reportlab_build : anydata -> str -> str -> list str * outcome unit;
  (** the same body in [SchetGenerator], which lays out other columns *)
  schet_reportlab_build : DataFrame -> str -> str -> list str * outcome unit;
  (** whether the backend call that raised the exception had begun the
      file at the path: the code removes nothing when a backend fails *)
  leaves_file : str -> exn -> bool;
  (** [output_path.absolute()] *)
  absolute : str -> str;
  (** [sorted(templates_dir.glob('*.html'))] *)
  get_template_files : list str;
  (** [open_pdf(path)]: the viewer is started, failures are printed *)
  open_pdf : str -> World -> World
}.

Context {H : Host}.

(** [str(v)] *)
Definition py_str (v : pyval) : str :=
  match v with
  | PNone => "None"
  | PBool true => "True"
  | PBool false => "False"
  | PInt z => str_of_Z z
  | PFloat f => float_str f
  | PStr s => s
  | PList _ | PDict _ => py_repr v
  end.

(** [series == s] for a [str] [s], cell by cell: a cell that is not text
    is never equal to text. *)
Definition eq_text (v : pyval) (s : str) : bool :=
  match v with
  | PStr t => str_eqb t s
  | _ => false
  end.

(** [int(v)] for the values Python multiplies and adds as integers. *)
Definition as_int (v : pyval) : option Z :=
  match v with
  | PInt z => Some z
  | PBool b => Some (if b then 1 else 0)%Z
  | _ => None
  end.

Definition type_error : exn :=
  mk_exn TypeError "unsupported operand type(s)".

(** [a * b]: a product of numbers, or a sequence repeated. *)
Definition py_mul (a b : pyval) : outcome pyval :=
  match a, b with
  | PFloat x, PFloat y => Ok (PFloat (float_mul x y))
  | PFloat x, _ =>
      match as_int b with
      | Some z => Ok (PFloat (float_mul x (float_of_Z z)))
      | None => Raise type_error
      end
  | _, PFloat y =>
      match as_int a with
      | Some z => Ok (PFloat (float_mul (float_of_Z z) y))
      | None => Raise type_error
      end
  | PStr s, _ =>
      match as_int b with
      | Some n => Ok (PStr (concat (repeat s (Z.to_nat n))))
      | None => Raise type_error
      end
  | _, PStr s =>
      match as_int a with
      | Some n => Ok (PStr (concat (repeat s (Z.to_nat n))))
      | None => Raise type_error
      end
  | PList l, _ =>
      match as_int b with
      | Some n => Ok (PList (concat (repeat l (Z.to_nat n))))
      | None => Raise type_error
      end
  | _, PList l =>
      match as_int a with
      | Some n => Ok (PList (concat (repeat l (Z.to_nat n))))
      | None => Raise type_error
      end
  | _, _ =>
      match as_int a, as_int b with
      | Some x, Some y => Ok (PInt (x * y))
      | _, _ => Raise type_error
      end
  end.

(** [counter += 1] *)
Definition py_add_one (v : pyval) : outcome pyval :=
  match v with
  | PFloat f => Ok (PFloat (float_add f (float_of_Z 1)))
  | _ =>
      match as_int v with
      | Some z => Ok (PInt (z + 1))
      | None => Raise type_error
      end
  end.

(** [pd.DataFrame(records)] for records that all carry the same keys in
    the same order. *)
Definition frame_of_records (l : list record) : DataFrame :=
  match l with
  | [] => empty_frame
  | r :: _ => mk_frame (keys r) (map (map snd) l)
  end.

End Values.

(** ** [pdf_generator.py]: class [PDFGenerator] *)

Module PDFGenerator.
Section Definitions.
Context {FM : FloatModel} {H : Host}.

(** [self.css_styles] *)
Definition css_styles : str := "
        @page {
            size: A4;
            margin: 2cm;
        }
        
        body {
            font-family: 'DejaVu Sans', 'Roboto', Arial, sans-serif;
            font-size: 12px;
            line-height: 1.4;
            color: #333;
        }
        
        .header {
            text-align: center;
            margin-bottom: 30px;
            border-bottom: 2px solid #333;
            padding-bottom: 20px;
        }
        
        .invoice-info {
            margin-bottom: 20px;
        }
        
        .items-table {
            width: 100%;
            border-collapse: collapse;
            margin-top: 20px;
        }
        
        .items-table th,
        .items-table td {
            border: 1px solid #ddd;
            padding: 8px;
            text-align: left;
        }
        
        .items-table th {
            background-color: #f5f5f5;
            font-weight: bold;
        }
        
        .total {
            text-align: right;
            font-weight: bold;
            font-size: 14px;
            margin-top: 20px;
        }
        ".

(** The test both methods apply to a column label or a dict key:
    ['invoice' in col.lower() or 'id' in col.lower()]. *)
Definition is_invoice_key (k : str) : bool :=
  contains "invoice" (lower k) || contains "id" (lower k).

(** The body of the loop over a JSON list in [get_available_invoices]. *)
Definition invoice_of_item (item : pyval) : list str :=
  match item with
  | PDict d =>
      match find is_invoice_key (keys d) with
      | Some key => [py_str (dict_get d key PNone)]
      | None => []
      end
  | _ => []
  end.

(** [get_available_invoices].  For a frame, [astype(str)] is taken cell
    by cell as [str] of the cell: that is what it gives for every cell that
    is not missing.  What it makes of a missing cell depends on pandas (the
    text [nan], or a missing value that [sorted] cannot compare with text),
    so the statements about the listing of a frame are made for key
    columns without a missing cell. *)
Definition get_available_invoices (data : anydata) : list str :=
  sorted_set
    match data with
    | Frame df =>
        match filter is_invoice_key (columns df) with
        | c :: _ => map py_str (column df c)
        | [] => []
        end
    | Value (PList items) => flat_map invoice_of_item items
    | Value _ => []
    end.

(** The body of the loop over a JSON list in [filter_data_by_invoice]. *)
Definition keep_item (invoice_id : str) (item : pyval) : list pyval :=
  match item with
  | PDict d =>
      match find is_invoice_key (keys d) with
      | Some key =>
          if str_eqb (py_str (dict_get d key PNone)) invoice_id
          then [item] else []
      | None => []
      end
  | _ => []
  end.

Definition filter_data_by_invoice (data : anydata) (invoice_id : str)
    : anydata :=
  match data with
  | Frame df =>
      match filter is_invoice_key (columns df) with
      | c :: _ =>
          Frame (mk_frame (columns df)
                   (filter (fun r => str_eqb (py_str (cell df c r)) invoice_id)
                      (rows df)))
      | [] => data
      end
  | Value (PList items) => Value (PList (flat_map (keep_item invoice_id) items))
  | Value _ => data
  end.

(** [read_csv_file]: the loop over the encodings and the last attempt. *)
Fixpoint try_encodings (file_path : str) (encodings : list str)
    : outcome (DataFrame * str) :=
  match encodings with
  | [] =>
      df <- pd_read_csv file_path "utf-8" true ;;
      Ok (df, lit "⚠ CSV файл прочитан с игнорированием ошибок кодировки")
  | encoding :: rest =>
      match pd_read_csv file_path encoding false with
      | Ok df => Ok (df, "✓ CSV файл прочитан с кодировкой: " +++ encoding)
      | Raise e =>
          if is_unicode_error e then try_encodings file_path rest
          else Raise e
      end
  end.

Definition read_csv_file (file_path : str) (w : World) : DataFrame * World :=
  match try_encodings file_path ["utf-8" : str; "cp1251" : str; "latin1" : str] with
  | Ok (df, msg) => (df, say msg w)
  | Raise e =>
      (empty_frame, say ("❌ Ошибка при чтении CSV файла: " +++ exn_text e) w)
  end.

Definition read_json_file (file_path : str) (w : World)
    : list pyval * World :=
  match json_load file_path with
  | Ok data =>
      (match data with
       | PList l => l
       | _ => [data]
       end, say "✓ JSON файл успешно прочитан" w)
  | Raise e => ([], say ("❌ Ошибка при чтении JSON файла: " +++ exn_text e) w)
  end.

(** [f'{{{{{name}}}}}'] *)
Definition placeholder (name : str) : str := "{{" +++ name +++ "}}".

(** The [try] block of [render_template], after the template was read. *)
Definition render_content (template_content : str) (data : anydata)
    (invoice_id : str) : outcome str :=
  let html_content := replace template_content "{{invoice_id}}" invoice_id in
  let html_content := replace html_content "{{css_styles}}" css_styles in
  match data with
  | Frame df =>
      if negb (frame_empty df) then
        let html_content := replace html_content "{{data_table}}" (to_html df) in
        Ok (fold_left
              (fun html col =>
                 if contains (placeholder col) html && (0 <? length (rows df))
                 then replace html (placeholder col)
                        (py_str (cell df col (row_series df (hd [] (rows df)))))
                 else html)
              (columns df) html_content)
      else Ok html_content
  | Value (PList ((first :: _) as items)) =>
      table_html <- records_to_html items ;;
      let html_content := replace html_content "{{data_table}}" table_html in
      match first with
      | PDict d =>
          Ok (fold_left
                (fun html kv => replace html (placeholder (fst kv)) (py_str (snd kv)))
                d html_content)
      | _ => Raise (mk_exn AttributeError "object has no attribute 'items'")
      end
  | Value _ => Ok html_content
  end.

Definition render_template (template_path : str) (data : anydata)
    (invoice_id : str) (w : World) : str * World :=
  match (template_content <- read_text template_path ;;
         render_content template_content data invoice_id) with
  | Ok html_content => (html_content, w)
  | Raise e => (lit "", say ("❌ Ошибка при рендеринге шаблона: " +++ exn_text e) w)
  end.

Definition add_pdf (path : str) (src : pdf_source) (w : World) : World :=
  mk_world (stdout w) (counter_file w) (counter_writable w) (clock_reads w)
           ((path, src) :: pdf_files w).

(** What a backend that raised [e] leaves at [path]: the code has no
    clean-up, so the file it had begun, if any, stays. *)
Definition left_behind (path : str) (e : exn) (w : World) : World :=
  if leaves_file path e then add_pdf path Unfinished w else w.

Definition _generate_pdf_weasyprint (html_content output_path : str)
    (w : World) : bool * World :=
  match weasyprint_write_pdf html_content output_path with
  | Ok _ =>
      (true, say ("✓ PDF успешно создан с WeasyPrint: " +++ output_path)
               (add_pdf output_path (FromHtml html_content) w))
  | Raise e =>
      (false, say ("❌ Ошибка при генерации PDF с WeasyPrint: " +++ exn_text e)
                (left_behind output_path e w))
  end.

Definition _generate_pdf_reportlab (data : anydata) (invoice_id output_path : str)
    (w : World) : bool * World :=
  let (printed, built) := reportlab_build data invoice_id output_path in
  let w := fold_left (fun w line => say line w) printed w in
  match built with
  | Ok _ =>
      (true, say ("✓ PDF успешно создан с ReportLab: " +++ output_path)
               (add_pdf output_path (FromData data invoice_id) w))
  | Raise e =>
      (false, say ("❌ Ошибка при генерации PDF с ReportLab: " +++ exn_text e)
                (left_behind output_path e w))
  end.

Definition no_backend_messages : list str :=
  [ lit "❌ Нет доступных библиотек для генерации PDF!";
    lit "Установите одну из библиотек:";
    lit "  pip install weasyprint";
    lit "  pip install reportlab" ].

Definition generate_pdf (html_content output_path : str) (data : anydata)
    (invoice_id : str) (w : World) : bool * World :=
  if WEASYPRINT_AVAILABLE then _generate_pdf_weasyprint html_content output_path w
  else if REPORTLAB_AVAILABLE then _generate_pdf_reportlab data invoice_id output_path w
  else (false, fold_left (fun w line => say line w) no_backend_messages w).

End Definitions.
End PDFGenerator.

(** ** [schet_generator.py]: class [SchetGenerator] *)

Module SchetGenerator.
Section Definitions.
Context {FM : FloatModel} {H : Host}.

(** [self.css_styles] *)
Definition css_styles : str := "
        @page {
            size: A4;
            margin: 2cm;
        }
        
        body {
            font-family: 'DejaVu Sans', 'Roboto', Arial, sans-serif;
            font-size: 12px;
            line-height: 1.4;
            color: #333;
        }
        ".

Definition set_counter_file (c : option (outcome pyval)) (w : World) : World :=
  mk_world (stdout w) c (counter_writable w) (clock_reads w) (pdf_files w).

(** The [try] block of [get_next_invoice_number]: the world it leaves
    behind and the number, or the exception that ended it. *)
Definition next_number_try (w : World) : World * outcome str :=
  let read :=
    match counter_file w with
    | None => Ok (PInt 0)
    | Some loaded =>
        data <- loaded ;;
        match data with
        | PDict d => Ok (dict_get d "counter" (PInt 0))
        | _ => Raise (mk_exn AttributeError "object has no attribute 'get'")
        end
    end in
  match (counter <- read ;; py_add_one counter) with
  | Raise e => (w, Raise e)
  | Ok counter =>
      if counter_writable w then
        let w := set_counter_file (Some (Ok (PDict [(lit "counter", counter)]))) w in
        (w, match counter with
            | PInt z => Ok ("СЧ-" +++ format_03d z)
            | _ => Raise (mk_exn ValueError "Unknown format code 'd'")
            end)
      else (w, Raise (mk_exn OtherException "cannot open invoice_counter.json"))
  end.

Definition get_next_invoice_number (w : World) : str * World :=
  match next_number_try w with
  | (w, Ok number) => (number, w)
  | (w, Raise e) =>
      let w := say ("⚠ Ошибка при работе со счетчиком: " +++ exn_text e) w in
      ("СЧ-" +++ now_stamp (clock_reads w), tick w)
  end.

(** The same text as [PDFGenerator.read_csv_file]. *)
Definition read_csv_file : str -> World -> DataFrame * World :=
  PDFGenerator.read_csv_file.

(** The test of the last branch: ['счет' in col.lower() or 'invoice' in
    col.lower()]. *)
Definition is_invoice_column (col : str) : bool :=
  contains "счет" (lower col) || contains "invoice" (lower col).

Definition get_available_invoices (data : DataFrame) : outcome (list pyval) :=
  if has_column data "номер_счета" then sorted_unique (column data "номер_счета")
  else if has_column data "invoice_id" then sorted_unique (column data "invoice_id")
  else
    match filter is_invoice_column (columns data) with
    | c :: _ => sorted_unique (column data c)
    | [] => Ok []
    end.

(** [data[data[c] == invoice_number]] *)
Definition select_rows (data : DataFrame) (c invoice_number : str) : DataFrame :=
  mk_frame (columns data)
           (filter (fun r => eq_text (cell data c r) invoice_number) (rows data)).

Definition filter_data_by_invoice (data : DataFrame) (invoice_number : str)
    : DataFrame :=
  if has_column data "номер_счета" then select_rows data "номер_счета" invoice_number
  else if has_column data "invoice_id" then select_rows data "invoice_id" invoice_number
  else
    match filter is_invoice_column (columns data) with
    | c :: _ => select_rows data c invoice_number
    | [] => data
    end.

Definition calculate_totals (data : DataFrame) : outcome record :=
  if negb (frame_empty data) then
    total <-
      (if has_column data "общая_сумма" then series_sum (column data "общая_сумма")
       else if has_column data "total" then series_sum (column data "total")
       else Ok (PInt 0)) ;;
    let totals :=
      [ (lit "общая_сумма", total);
        (lit "количество_позиций", PInt (Z.of_nat (length (rows data)))) ] in
    if has_column data "статус" then
      match cell data "статус" (hd [] (rows data)) with
      | PStr status =>
          Ok (totals ++
              [ (lit "статус", PStr status);
                (lit "статус_класс",
                 PStr (if contains "оплачен" (lower status)
                       then lit "status-paid" else lit "status-pending")) ])
      | _ => Raise (mk_exn AttributeError "object has no attribute 'lower'")
      end
    else
      Ok (totals ++
          [ (lit "статус", PStr "Ожидает оплаты");
            (lit "статус_класс", PStr "status-pending") ])
  else Ok [].

(** [first_row.get(c, default)], where [first_row] is [data.iloc[0]] or,
    for an empty frame, the empty dict. *)
Definition first_row_get (data : DataFrame) (c : str) (default : pyval) : pyval :=
  if frame_empty data then default
  else row_get data (row_series data (hd [] (rows data))) c default.

(** One line of [table_data] for the row numbered [i], read from the
    Series that [iterrows] yields for it. *)
Definition table_line (data : DataFrame) (i : nat) (row : list pyval)
    : outcome (list str) :=
  let row := row_series data row in
  price <- format_money (row_get data row "цена_за_единицу" (PInt 0)) ;;
  total <- format_money (row_get data row "общая_сумма" (PInt 0)) ;;
  Ok [ str_of_Z (Z.of_nat i);
       py_str (row_get data row "товар" (PStr ""));
       py_str (row_get data row "количество" (PStr ""));
       price; total ].

Fixpoint table_lines (data : DataFrame) (i : nat) (rs : list (list pyval))
    : outcome (list (list str)) :=
  match rs with
  | [] => Ok []
  | row :: rest =>
      line <- table_line data i row ;;
      lines <- table_lines data (S i) rest ;;
      Ok (line :: lines)
  end.

Definition table_header : list str :=
  [ lit "№"; lit "Товар"; lit "Количество"; lit "Цена за ед."; lit "Сумма" ].

(** The HTML table built from [table_data]. *)
Definition table_markup (lines : list (list str)) : str :=
  "<table class=" +++ dquote :: "items-table" +++ dquote :: ">"
  +++ "<thead><tr>"
  +++ concat (map (fun header => "<th>" +++ header +++ "</th>") table_header)
  +++ "</tr></thead>"
  +++ "<tbody>"
  +++ concat (map (fun row =>
                     "<tr>" +++ concat (map (fun cell => "<td>" +++ cell +++ "</td>") row)
                     +++ "</tr>") lines)
  +++ "</tbody>"
  +++ "</table>".

(** A [replace] whose new text must be a [str]. *)
Definition replace_with (html old : str) (v : pyval) : outcome str :=
  match v with
  | PStr s => Ok (replace html old s)
  | _ => Raise (mk_exn TypeError "replace() argument 2 must be str")
  end.

(** The [try] block of [render_template] after the template was read; [n]
    is the number of clock readings before it; the result comes with the
    number after it. *)
Definition render_content (template_content : str) (data : DataFrame)
    (invoice_number : str) (n : nat) : nat * outcome str :=
  match calculate_totals data with
  | Raise e => (n, Raise e)
  | Ok totals =>
      let html_content := replace template_content "{{номер_счета}}" invoice_number in
      let html_content :=
        replace html_content "{{дата}}"
                (py_str (first_row_get data "дата" (PStr (now_date n)))) in
      let html_content :=
        replace html_content "{{клиент}}"
                (py_str (first_row_get data "клиент" (PStr "Не указан"))) in
      let html_content := replace html_content "{{css_styles}}" css_styles in
      let '(n, html_content) :=
        match plus_ten_days (py_str (first_row_get data "дата" (PStr (now_date (S n))))) with
        | Ok due_date => (S (S n), replace html_content "{{срок_оплаты}}" due_date)
        | Raise _ =>
            (S (S (S n)), replace html_content "{{срок_оплаты}}" (now_date (S (S n))))
        end in
      (n,
       html_content <- replace_with html_content "{{статус}}"
                         (dict_get totals "статус" (PStr "Ожидает оплаты")) ;;
       html_content <- replace_with html_content "{{статус_класс}}"
                         (dict_get totals "статус_класс" (PStr "status-pending")) ;;
       total <- format_money (dict_get totals "общая_сумма" (PInt 0)) ;;
       let html_content := replace html_content "{{общая_сумма}}" total in
       if negb (frame_empty data) then
         lines <- table_lines data 1 (rows data) ;;
         Ok (replace html_content "{{data_table}}" (table_markup lines))
       else
         Ok (replace html_content "{{data_table}}" "<p>Данные не найдены</p>"))
  end.

Definition set_clock (n : nat) (w : World) : World :=
  mk_world (stdout w) (counter_file w) (counter_writable w) n (pdf_files w).

Definition render_template (template_path : str) (data : DataFrame)
    (invoice_number : str) (w : World) : str * World :=
  match read_text template_path with
  | Raise e => (lit "", say ("❌ Ошибка при рендеринге шаблона: " +++ exn_text e) w)
  | Ok template_content =>
      match render_content template_content data invoice_number (clock_reads w) with
      | (n, Ok html_content) => (html_content, set_clock n w)
      | (n, Raise e) =>
          (lit "", say ("❌ Ошибка при рендеринге шаблона: " +++ exn_text e)
                     (set_clock n w))
      end
  end.

Definition _generate_pdf_weasyprint : str -> str -> World -> bool * World :=
  PDFGenerator._generate_pdf_weasyprint.

Definition _generate_pdf_reportlab (data : DataFrame) (invoice_number output_path : str)
    (w : World) : bool * World :=
  let (printed, built) := schet_reportlab_build data invoice_number output_path in
  let w := fold_left (fun w line => say line w) printed w in
  match built with
  | Ok _ =>
      (true, say ("✓ PDF успешно создан с ReportLab: " +++ output_path)
               (PDFGenerator.add_pdf output_path (FromData (Frame data) invoice_number) w))
  | Raise e =>
      (false, say ("❌ Ошибка при генерации PDF с ReportLab: " +++ exn_text e)
                (PDFGenerator.left_behind output_path e w))
  end.

Definition generate_pdf (html_content output_path : str) (data : DataFrame)
    (invoice_number : str) (w : World) : bool * World :=
  if WEASYPRINT_AVAILABLE then _generate_pdf_weasyprint html_content output_path w
  else if REPORTLAB_AVAILABLE then _generate_pdf_reportlab data invoice_number output_path w
  else (false, fold_left (fun w line => say line w) PDFGenerator.no_backend_messages w).

(** The dict appended for one item of [generate_new_invoice]; [today] is
    the date read from the clock for this item. *)
Definition invoice_row (invoice_number customer_name today : str) (item : pyval)
    : outcome record :=
  match item with
  | PDict d =>
      total <- py_mul (dict_get d "количество" (PInt 1))
                      (dict_get d "цена_за_единицу" (PInt 0)) ;;
      Ok [ (lit "номер_счета", PStr invoice_number);
           (lit "дата", PStr today);
           (lit "клиент", PStr customer_name);
           (lit "товар", dict_get d "товар" (PStr ""));
           (lit "количество", dict_get d "количество" (PInt 1));
           (lit "цена_за_единицу", dict_get d "цена_за_единицу" (PInt 0));
           (lit "общая_сумма", total);
           (lit "статус", PStr "Ожидает оплаты") ]
  | _ => Raise (mk_exn AttributeError "object has no attribute 'get'")
  end.

(** The loop of [generate_new_invoice] that fills [invoice_data]. *)
Fixpoint invoice_rows (invoice_number customer_name : str) (items : list pyval)
    (w : World) : outcome (list record) * World :=
  match items with
  | [] => (Ok [], w)
  | item :: rest =>
      let today := now_date (clock_reads w) in
      let w := tick w in
      match invoice_row invoice_number customer_name today item with
      | Raise e => (Raise e, w)
      | Ok row =>
          let (more, w) := invoice_rows invoice_number customer_name rest w in
          (rows <- more ;; Ok (row :: rows), w)
      end
  end.

(** [generate_new_invoice] up to [invoice_data]: the number drawn from the
    counter, then the loop. *)
Definition new_invoice_data (customer_name : str) (items : list pyval)
    (w : World) : str * outcome (list record) * World :=
  let (invoice_number, w) := get_next_invoice_number w in
  let (invoice_data, w) := invoice_rows invoice_number customer_name items w in
  (invoice_number, invoice_data, w).

(** [generate_new_invoice]: [Ok None] is the [None] it returns on failure,
    [Raise] an exception it lets through. *)
Definition generate_new_invoice (customer_name : str) (items : list pyval)
    (w : World) : outcome (option str) * World :=
  match new_invoice_data customer_name items w with
  | (_, Raise e, w) => (Raise e, w)
  | (invoice_number, Ok invoice_data, w) =>
      let data := frame_of_records invoice_data in
      match get_template_files with
      | [] => (Ok None, say "❌ Не найдены HTML шаблоны!" w)
      | template :: _ =>
          let (html_content, w) := render_template template data invoice_number w in
          match html_content with
          | [] => (Ok None, say "❌ Не удалось сгенерировать HTML контент!" w)
          | _ :: _ =>
              let output_filename := "novyi_schet_" +++ invoice_number +++ ".pdf" in
              let output_path := "output/" +++ output_filename in
              let w := say ("
📄 Генерируем новый счет: " +++ output_filename) w in
              match generate_pdf html_content output_path data invoice_number w with
              | (true, w) =>
                  let w := say "
✅ Новый счет успешно создан!" w in
                  let w := say ("📁 Путь: " +++ absolute output_path) w in
                  let w := say ("📋 Номер счета: " +++ invoice_number) w in
                  let w := say "
🔍 Открываем PDF..." w in
                  (Ok (Some invoice_number), open_pdf output_path w)
              | (false, w) =>
                  (Ok None, say "
❌ Ошибка при создании нового счета!" w)
              end
          end
      end
  end.

End Definitions.
End SchetGenerator.

(** ** Vocabulary of the statements *)

(** [p] occurs in [s]. *)
Definition occurs (p s : str) : Prop := exists a b, s = a ++ p ++ b.

(** How [s.replace(old, new)] cuts [s]: text free of [old], then [old],
    and so on; the result has [new] at each cut. *)
Inductive pieces (old new : str) : str -> str -> Prop :=
| pieces_end (p : str) :
    ~ occurs old p -> pieces old new p p
| pieces_cut (p s r : str) :
    ~ occurs old p -> pieces old new s r ->
    pieces old new (p ++ old ++ s) (p ++ new ++ r).

(** A non-empty end of [a] is a beginning of [b]. *)
Definition overlaps (a b : str) : bool :=
  existsb (fun k => prefixb (skipn k a) b) (seq 0 (length a)).

(** Putting [v] into a text cannot complete an occurrence of [tok]: [v] is
    not empty, [tok] does not occur in [v], [v] does not occur in [tok],
    and neither overlaps an end of the other. *)
Definition safe (tok v : str) : bool :=
  negb (str_eqb v []) && negb (contains tok v) && negb (contains v tok) &&
  negb (overlaps tok v) && negb (overlaps v tok).

Definition safe_for (reserved : list str) (v : str) : bool :=
  forallb (fun tok => safe tok v) reserved.

(** Replacements applied one after the other, each a pair of the text to
    find and the text to put. *)
Definition substitute_all (subs : list (str * str)) (template : str) : str :=
  fold_left (fun html sub => replace html (fst sub) (snd sub)) subs template.

(** The reserved placeholders of the two classes. *)
Definition reserved_pdf : list str :=
  [lit "{{invoice_id}}"; lit "{{css_styles}}"; lit "{{data_table}}"].

Definition reserved_schet : list str :=
  [lit "{{номер_счета}}"; lit "{{css_styles}}"; lit "{{data_table}}"].

(** Every value of a run of replacements is safe for the reserved
    placeholders. *)
Definition all_safe (reserved : list str) (subs : list (str * str)) : bool :=
  forallb (fun sub => safe_for reserved (snd sub)) subs.

(** The replacements of a run that put their value in: those whose text
    to find occurs when their turn comes.  The others change nothing. *)
Fixpoint put_in (subs : list (str * str)) (template : str) : list (str * str) :=
  match subs with
  | [] => []
  | sub :: rest =>
      if contains (fst sub) template
      then sub :: put_in rest (replace template (fst sub) (snd sub))
      else put_in rest template
  end.

Section Vocabulary.
Context {FM : FloatModel} {H : Host}.

(** The key [PDFGenerator] reads in one item of a JSON list: the first key
    of that dict that passes the test, with the dict it belongs to. *)
Definition record_key (item : pyval) : option (record * str) :=
  match item with
  | PDict d => option_map (pair d) (find PDFGenerator.is_invoice_key (keys d))
  | _ => None
  end.

(** The column [SchetGenerator] reads: the label [номер_счета] when the
    frame has it, else [invoice_id] when the frame has it, else the first
    label that passes the test. *)
Definition key_column (data : DataFrame) : option str :=
  if has_column data "номер_счета" then Some (lit "номер_счета")
  else if has_column data "invoice_id" then Some (lit "invoice_id")
  else find SchetGenerator.is_invoice_column (columns data).

(** The encodings [read_csv_file] tries, in order. *)
Definition encodings : list str := [lit "utf-8"; lit "cp1251"; lit "latin1"].

(** The attempts of [read_csv_file] over [encs] end with the exception
    [e]: an attempt raises [e], which is not a decode error, after every
    earlier attempt raised a decode error; or every attempt raises a decode
    error and the last call, with [errors='ignore'], raises [e]. *)
Fixpoint attempts_end_with (file_path : str) (encs : list str) (e : exn) : Prop :=
  match encs with
  | [] => pd_read_csv file_path "utf-8" true = Raise e
  | enc :: rest =>
      (pd_read_csv file_path enc false = Raise e /\ is_unicode_error e = false) \/
      (exists e0, pd_read_csv file_path enc false = Raise e0 /\
                  is_unicode_error e0 = true /\
                  attempts_end_with file_path rest e)
  end.

(** The lines the loaders print on failure. *)
Definition csv_failure (e : exn) : str :=
  "❌ Ошибка при чтении CSV файла: " +++ exn_text e.

Definition json_failure (e : exn) : str :=
  "❌ Ошибка при чтении JSON файла: " +++ exn_text e.

(** What the counter file holds after [json.dump({'counter': n}, f)]. *)
Definition stored (n : Z) : option (outcome pyval) :=
  Some (Ok (PDict [(lit "counter", PInt n)])).

(** The record [generate_new_invoice] builds from [item] when the number
    is [invoice_number], the customer [customer_name] and the clock shows
    [today]: the quantity defaults to 1, the unit price to 0, and the line
    total is their product. *)
Definition row_for (invoice_number customer_name today : str) (item : pyval)
    (row : record) : Prop :=
  exists (d : record) (total : pyval),
    item = PDict d /\
    py_mul (dict_get d "количество" (PInt 1))
           (dict_get d "цена_за_единицу" (PInt 0)) = Ok total /\
    dict_find row "номер_счета" = Some (PStr invoice_number) /\
    dict_find row "дата" = Some (PStr today) /\
    dict_find row "клиент" = Some (PStr customer_name) /\
    dict_find row "товар" = Some (dict_get d "товар" (PStr "")) /\
    dict_find row "количество" = Some (dict_get d "количество" (PInt 1)) /\
    dict_find row "цена_за_единицу" = Some (dict_get d "цена_за_единицу" (PInt 0)) /\
    dict_find row "общая_сумма" = Some total /\
    dict_find row "статус" = Some (PStr "Ожидает оплаты").

(** An item [generate_new_invoice] can turn into a record: a dict whose
    quantity and unit price can be multiplied. *)
Definition priced (item : pyval) : Prop :=
  exists (d : record) (total : pyval),
    item = PDict d /\
    py_mul (dict_get d "количество" (PInt 1))
           (dict_get d "цена_за_единицу" (PInt 0)) = Ok total.

(** The text of a value that is text. *)
Definition text_of (v : pyval) : str :=
  match v with
  | PStr s => s
  | _ => []
  end.

(** What [PDFGenerator.render_template] substitutes for a non-empty frame:
    the three reserved placeholders, then one placeholder per column with
    the cell of the first row as [data.iloc[0]] holds it. *)
Definition frame_substitutions (df : DataFrame) (invoice_id : str)
    : list (str * str) :=
  [ (lit "{{invoice_id}}", invoice_id);
    (lit "{{css_styles}}", PDFGenerator.css_styles);
    (lit "{{data_table}}", to_html df) ] ++
  map (fun col => (PDFGenerator.placeholder col,
                   py_str (cell df col (row_series df (hd [] (rows df))))))
      (columns df).

(** The same for a JSON list whose first record is [d] and whose table
    is [table_html]. *)
Definition record_substitutions (table_html : str) (d : record) (invoice_id : str)
    : list (str * str) :=
  [ (lit "{{invoice_id}}", invoice_id);
    (lit "{{css_styles}}", PDFGenerator.css_styles);
    (lit "{{data_table}}", table_html) ] ++
  map (fun kv => (PDFGenerator.placeholder (fst kv), py_str (snd kv))) d.

(** What [SchetGenerator.render_template] substitutes for a non-empty
    frame, when the clock was read [n] times before, the totals are
    [totals], the formatted grand total is [total] and the lines of the
    table are [lines]. *)
Definition schet_substitutions (data : DataFrame) (invoice_number : str) (n : nat)
    (totals : record) (total : str) (lines : list (list str)) : list (str * str) :=
  [ (lit "{{номер_счета}}", invoice_number);
    (lit "{{дата}}",
     py_str (SchetGenerator.first_row_get data "дата" (PStr (now_date n))));
    (lit "{{клиент}}",
     py_str (SchetGenerator.first_row_get data "клиент" (PStr "Не указан")));
    (lit "{{css_styles}}", SchetGenerator.css_styles);
    (lit "{{срок_оплаты}}",
     match plus_ten_days
             (py_str (SchetGenerator.first_row_get data "дата" (PStr (now_date (S n))))) with
     | Ok due_date => due_date
     | Raise _ => now_date (S (S n))
     end);
    (lit "{{статус}}", text_of (dict_get totals "статус" (PStr "Ожидает оплаты")));
    (lit "{{статус_класс}}", text_of (dict_get totals "статус_класс" (PStr "status-pending")));
    (lit "{{общая_сумма}}", total);
    (lit "{{data_table}}", SchetGenerator.table_markup lines) ].

End Vocabulary.

(** ** Sample environments for the examples *)

Module Sample.

(** The floats of the examples: a whole number held as a float, written
    with [.0], or NaN. *)
Definition floats : FloatModel :=
  {| pyfloat := option Z;
     float_of_Z := fun z => Some z;
     float_add := fun a b =>
       match a, b with
       | Some x, Some y => Some (x + y)%Z
       | _, _ => None
       end;
     float_mul := fun a b =>
       match a, b with
       | Some x, Some y => Some (x * y)%Z
       | _, _ => None
       end;
     float_str := fun a =>
       match a with
       | Some x => str_of_Z x +++ ".0"
       | None => lit "nan"
       end |}.

Definition nan : @pyfloat floats := None.

Definition is_whole (v : @pyval floats) : bool :=
  match v with
  | PInt _ => true
  | _ => false
  end.

Definition is_float (v : @pyval floats) : bool :=
  match v with
  | PFloat _ => true
  | _ => false
  end.

(** The row as pandas hands it out: when every column holds whole numbers
    only or floats only and one of them holds floats, the common dtype is
    float and the whole numbers of the row are read as floats; otherwise
    the cells are read as the columns hold them. *)
Definition series_of (df : @DataFrame floats) (row : list (@pyval floats))
    : list (@pyval floats) :=
  let cols := map (column df) (columns df) in
  if forallb (fun col => forallb is_whole col || forallb is_float col) cols
     && existsb (forallb is_float) cols
  then map (fun v => match v with
                     | PInt z => PFloat (float_of_Z z)
                     | _ => v
                     end) row
  else row.

Definition missing : exn := mk_exn OtherException "No such file or directory".

(** [f"{z:,.2f}"] for a whole number: the digits in groups of three. *)
Fixpoint commas (reversed_digits : str) (k : nat) : str :=
  match reversed_digits with
  | [] => []
  | c :: rest =>
      if (k =? 3)%nat then ","%char :: c :: commas rest 1
      else c :: commas rest (S k)
  end.

Definition money (z : Z) : str :=
  (if (z <? 0)%Z then lit "-" else lit "") +++
  rev (commas (rev (str_of_Z (Z.abs z))) 0) +++ ".00".

(** [series.sum()] for a column of numbers: missing floats are skipped, and
    the sum is a float as soon as the column holds one. *)
Fixpoint sum_cells (cells : list (@pyval floats)) (whole : bool) (acc : Z)
    : outcome (@pyval floats) :=
  match cells with
  | [] => Ok (if whole then PInt acc else PFloat (float_of_Z acc))
  | PInt z :: rest => sum_cells rest whole (acc + z)
  | PBool b :: rest => sum_cells rest whole (acc + (if b then 1 else 0))
  | PFloat (Some z) :: rest => sum_cells rest false (acc + z)
  | PFloat None :: rest => sum_cells rest false acc
  | _ :: _ => Raise (mk_exn TypeError "unsupported operand type(s) for +")
  end.

(** A host given by what its files hold, which PDF libraries it has, what
    the clock shows, what WeasyPrint does and whether a backend that fails
    leaves a file; sums and amounts are those of whole numbers, and the
    remaining library calls are stand-ins that succeed. *)
Definition workshop (csv : str -> str -> bool -> outcome (@DataFrame floats))
    (json : str -> outcome (@pyval floats)) (text : str -> outcome str)
    (weasyprint reportlab : bool) (today : nat -> str)
    (write_pdf : str -> str -> outcome unit) (left : bool) : @Host floats :=
  {| py_repr := fun _ => lit "[...]";
     pd_read_csv := csv;
     json_load := json;
     read_text := text;
     row_series := series_of;
     to_html := fun _ => lit "<table></table>";
     records_to_html := fun _ => Ok (lit "<table></table>");
     sorted_unique := fun l => Ok l;
     series_sum := fun cells => sum_cells cells true 0;
     format_money := fun v =>
       match v with
       | PInt z => Ok (money z)
       | PBool b => Ok (money (if b then 1 else 0))
       | PFloat (Some z) => Ok (money z)
       | PFloat None => Ok (lit "nan")
       | PStr _ => Raise (mk_exn ValueError "Unknown format code 'f' for object of type 'str'")
       | _ => Raise (mk_exn TypeError "unsupported format string")
       end;
     now_date := today;
     now_stamp := fun _ => lit "202401011200";
     plus_ten_days := fun _ => Ok (lit "2024-01-11");
     WEASYPRINT_AVAILABLE := weasyprint;
     REPORTLAB_AVAILABLE := reportlab;
     weasyprint_write_pdf := write_pdf;
     reportlab_build := fun _ _ _ => ([], Ok tt);
     schet_reportlab_build := fun _ _ _ => ([], Ok tt);
     leaves_file := fun _ _ => left;
     absolute := fun p => "/srv/" +++ p;
     get_template_files := [lit "templates/schet.html"];
     open_pdf := fun _ w => w |}.

(** The same with a WeasyPrint that succeeds. *)
Definition host (csv : str -> str -> bool -> outcome (@DataFrame floats))
    (json : str -> outcome (@pyval floats)) (text : str -> outcome str)
    (weasyprint reportlab : bool) (today : nat -> str) : @Host floats :=
  workshop csv json text weasyprint reportlab today (fun _ _ => Ok tt) false.

(** No data files, one template holding [content], both PDF libraries. *)
Definition plain (content : str) : @Host floats :=
  host (fun _ _ _ => Raise missing) (fun _ => Raise missing)
       (fun _ => Ok content) true true (fun _ => lit "2024-01-01").

Definition world0 : @World floats := mk_world [] None true 0 [].

(** Two records that list the same two keys in opposite order. *)
Definition mixed_records : list (@pyval floats) :=
  [ PDict [(lit "id", PInt 1); (lit "invoice", PStr "A")];
    PDict [(lit "invoice", PStr "B"); (lit "id", PInt 2)] ].

(** A record and a frame without any key that passes the test. *)
Definition nameless_records : list (@pyval floats) :=
  [ PDict [(lit "name", PStr "x")] ].

Definition nameless_frame : @DataFrame floats :=
  mk_frame [lit "name"; lit "total"] [[PStr "x"; PInt 100]].

(** A frame as [read_csv] gives it for a column of whole numbers. *)
Definition numbered_frame : @DataFrame floats :=
  mk_frame [lit "номер_счета"; lit "товар"] [[PInt 7; PStr "Принтер"]].

(** Scenario A of the specification. *)
Definition scenario_a : @DataFrame floats :=
  mk_frame [lit "invoice_id"; lit "customer"; lit "item"; lit "total"]
           [ [PStr "INV-1"; PStr "Anna"; PStr "Pen"; PInt 10];
             [PStr "INV-1"; PStr "Anna"; PStr "Ink"; PInt 5] ].

Definition decode_error : exn :=
  mk_exn UnicodeDecodeError "'utf-8' codec can't decode byte 0xd1".

(** A CSV file written in cp1251: [utf-8] fails to decode it, [cp1251]
    reads it.  The JSON file holds one object. *)
Definition cp1251_host : @Host floats :=
  host (fun _ enc _ =>
          if str_eqb enc "utf-8" then Raise decode_error else Ok scenario_a)
       (fun _ => Ok (PDict [(lit "id", PInt 7); (lit "total", PInt 100)]))
       (fun _ => Raise missing) true true (fun _ => lit "2024-01-01").

(** No file can be read. *)
Definition empty_host (weasyprint reportlab : bool) : @Host floats :=
  host (fun _ _ _ => Raise missing) (fun _ => Raise missing)
       (fun _ => Raise missing) weasyprint reportlab (fun _ => lit "2024-01-01").

(** The items of [demo_schet.py]. *)
Definition demo_items : list (@pyval floats) :=
  [ PDict [(lit "товар", PStr "Принтер HP LaserJet");
           (lit "количество", PInt 1); (lit "цена_за_единицу", PInt 25000)];
    PDict [(lit "товар", PStr "Картридж для принтера");
           (lit "количество", PInt 3); (lit "цена_за_единицу", PInt 3000)] ].

(** Midnight passes between the first and the second reading of the clock. *)
Definition midnight_host : @Host floats :=
  host (fun _ _ _ => Raise missing) (fun _ => Raise missing)
       (fun _ => Raise missing) true true
       (fun n => match n with O => lit "2024-01-01" | S _ => lit "2024-01-02" end).

Definition world_with_counter (n : Z) : @World floats :=
  mk_world [] (stored n) true 0 [].

(** Scenario B of the specification. *)
Definition scenario_b : list (@pyval floats) :=
  [ PDict [(lit "id", PInt 7); (lit "total", PInt 100)] ].

Definition invoice_template : str :=
  "<style>{{css_styles}}</style><h1>{{invoice_id}}</h1>{{data_table}}".

Definition schet_template : str :=
  "<style>{{css_styles}}</style><h1>{{номер_счета}}</h1>{{data_table}}".

End Sample.

(** ** Further vocabulary *)

(** Text in strictly increasing order. *)
Definition ascending (l : list str) : Prop :=
  Sorted (fun a b => str_compare a b = Lt) l.

(** The whole number written in decimal digits, with an optional minus
    sign and any number of leading zeros. *)
Definition read_number (s : str) : option Z :=
  option_map Z.of_int
    (DecimalString.NilEmpty.int_of_string (String.string_of_list_ascii s)).

Section MoreVocabulary.
Context {FM : FloatModel} {H : Host}.

(** [len(data)] for the datasets the pipeline handles. *)
Definition data_len (data : anydata) : nat :=
  match data with
  | Frame df => length (rows df)
  | Value (PList items) => length items
  | Value _ => 0
  end.

(** A missing cell: [None], or the float NaN, the one float that [str]
    writes as [nan]. *)
Definition missing_cell (v : pyval) : bool :=
  match v with
  | PNone => true
  | PFloat f => str_eqb (float_str f) "nan"
  | _ => false
  end.

(** No cell of the key column of a frame is missing.  [astype(str)] turns
    every other cell into its text; what it makes of a missing one depends
    on the version of pandas (the text [nan], or a missing value that
    [sorted] cannot compare with text). *)
Definition no_missing_key (data : anydata) : bool :=
  match data with
  | Frame df =>
      match find PDFGenerator.is_invoice_key (columns df) with
      | Some c => forallb (fun v => negb (missing_cell v)) (column df c)
      | None => true
      end
  | Value _ => true
  end.

(** [id] is the text of the key of a row or of a record: of a row under
    the first label that passes the test, of a record under its own first
    key that passes. *)
Definition held_under_key (data : anydata) (id : str) : bool :=
  match data with
  | Frame df =>
      match find PDFGenerator.is_invoice_key (columns df) with
      | Some c => existsb (fun row => str_eqb (py_str (cell df c row)) id) (rows df)
      | None => false
      end
  | Value (PList items) =>
      existsb (fun item =>
                 match record_key item with
                 | Some (d, k) => str_eqb (py_str (dict_get d k PNone)) id
                 | None => false
                 end) items
  | Value _ => false
  end.

(** The counter a call of [get_next_invoice_number] starts from: 0 without
    a counter file, the whole number stored under [counter] in a readable
    one. *)
Definition counter_value (w : World) : option Z :=
  match counter_file w with
  | None => Some 0%Z
  | Some (Ok (PDict d)) =>
      match dict_get d "counter" (PInt 0) with
      | PInt n => Some n
      | _ => None
      end
  | Some _ => None
  end.

(** [k] calls of [get_next_invoice_number] one after the other, as the
    loop of [demo_automatic_counter] makes them: the numbers in the order
    they were returned. *)
Fixpoint draw (k : nat) (w : World) : list str * World :=
  match k with
  | O => ([], w)
  | S k' =>
      let (number, w) := SchetGenerator.get_next_invoice_number w in
      let (numbers, w) := draw k' w in
      (number :: numbers, w)
  end.

(** The counter file cannot serve a call: it cannot be read or parsed, it
    does not hold an object, what it holds under [counter] cannot be
    incremented, or it cannot be opened for writing. *)
Definition counter_unusable (w : World) : Prop :=
  match counter_file w with
  | None => counter_writable w = false
  | Some (Raise _) => True
  | Some (Ok (PDict d)) =>
      (exists e, py_add_one (dict_get d "counter" (PInt 0)) = Raise e) \/
      counter_writable w = false
  | Some (Ok _) => True
  end.

(** What [SchetGenerator.render_template] substitutes for an empty frame:
    the defaults, and a paragraph in place of the table. *)
Definition empty_schet_substitutions (invoice_number : str) (n : nat) (total : str)
    : list (str * str) :=
  [ (lit "{{номер_счета}}", invoice_number);
    (lit "{{дата}}", now_date n);
    (lit "{{клиент}}", lit "Не указан");
    (lit "{{css_styles}}", SchetGenerator.css_styles);
    (lit "{{срок_оплаты}}",
     match plus_ten_days (now_date (S n)) with
     | Ok due_date => due_date
     | Raise _ => now_date (S (S n))
     end);
    (lit "{{статус}}", lit "Ожидает оплаты");
    (lit "{{статус_класс}}", lit "status-pending");
    (lit "{{общая_сумма}}", total);
    (lit "{{data_table}}", lit "<p>Данные не найдены</p>") ].

(** The line both [render_template] methods print when they fail. *)
Definition render_failure (e : exn) : str :=
  "❌ Ошибка при рендеринге шаблона: " +++ exn_text e.

(** The CSS class [calculate_totals] gives a status text. *)
Definition status_class (status : str) : str :=
  if contains "оплачен" (lower status) then lit "status-paid" else lit "status-pending".

(** The path [generate_new_invoice] writes the PDF of [invoice_number] to. *)
Definition new_invoice_path (invoice_number : str) : str :=
  "output/" +++ "novyi_schet_" +++ invoice_number +++ ".pdf".

(** Two worlds with the same counter file and the same PDF files. *)
Definition same_files (w w' : World) : Prop :=
  counter_file w' = counter_file w /\
  counter_writable w' = counter_writable w /\
  pdf_files w' = pdf_files w.

(** The PDF files of [w'] are those of [w], or those and one file begun
    at [path] by a backend that raised and left it unfinished. *)
Definition no_pdf_finished (path : str) (w w' : World) : Prop :=
  pdf_files w' = pdf_files w \/
  (pdf_files w' = (path, Unfinished) :: pdf_files w /\
   (WEASYPRINT_AVAILABLE = true \/ REPORTLAB_AVAILABLE = true) /\
   exists e, leaves_file path e = true).

(** From [w] to [w'] nothing was done to the files but, at most, one file
    begun at [path] and left unfinished. *)
Definition at_most_unfinished (path : str) (w w' : World) : Prop :=
  counter_file w' = counter_file w /\
  counter_writable w' = counter_writable w /\
  no_pdf_finished path w w'.

(** The keys of a record of a new invoice, in order. *)
Definition invoice_keys : list str :=
  [ lit "номер_счета"; lit "дата"; lit "клиент"; lit "товар"; lit "количество";
    lit "цена_за_единицу"; lit "общая_сумма"; lit "статус" ].

End MoreVocabulary.

(** ** The console: the menus and [PDFGenerator.run] *)

(** What one call of [input] meets at the keyboard: a line, or Ctrl-C. *)
Inductive keystroke :=
| Line (text : str)
| Interrupt.

(** How a menu ends: [return items[choice_num - 1]], [return None],
    [sys.exit(0)], or an exception that leaves the method. *)
Inductive choice (A : Type) :=
| Picked (item : A)
| Nothing
| Exit0
| Uncaught (e : exn).

Arguments Picked {A} item.
Arguments Nothing {A}.
Arguments Exit0 {A}.
Arguments Uncaught {A} e.

(** [input] at the end of the input raises [EOFError]. *)
Definition end_of_input : exn := mk_exn OtherException "EOF when reading a line".

Definition index_error : exn := mk_exn OtherException "list index out of range".

(** What the menus and [run] ask of paths and of [int]. *)
Class Terminal := {
  (** [int(text.strip())]; [None] when [int] raises [ValueError] *)
  int_of_choice : str -> option Z;
  (** [path.name], [path.suffix], [path.stem] *)
  path_name : str -> str;
  path_suffix : str -> str;
  path_stem : str -> str;
  (** [self.output_dir / name] as text *)
  in_output_dir : str -> str;
  (** [sorted(data_dir.glob('*.csv') + data_dir.glob('*.json'))] *)
  get_data_files : list str
}.

Module Menus.
Section Definitions.
Context {FM : FloatModel} {H : Host} {T : Terminal}.

(** [1 <= choice_num <= len(items)] *)
Definition in_range {A} (items : list A) (choice_num : Z) : bool :=
  (1 <=? choice_num)%Z && (choice_num <=? Z.of_nat (length items))%Z.

Definition not_a_number : str := "❌ Пожалуйста, введите корректное число".

Definition out_of_range {A} (items : list A) : str :=
  "❌ Пожалуйста, введите число от 1 до " +++ str_of_Z (Z.of_nat (length items)).

Definition goodbye : str := "
👋 Программа завершена пользователем".

(** The [while True] loop of both menus.  Each turn reads one entry of the
    keyboard; the prompt that [input] writes is recorded as one more entry
    of [stdout]. *)
Fixpoint ask {A} (prompt : str) (items : list A) (keys : list keystroke)
    (w : World) : choice A * list keystroke * World :=
  match keys with
  | [] => (Uncaught end_of_input, [], say prompt w)
  | Interrupt :: keys => (Exit0, keys, say goodbye (say prompt w))
  | Line text :: keys =>
      let w := say prompt w in
      match int_of_choice text with
      | Some choice_num =>
          if in_range items choice_num then
            match nth_error items (Z.to_nat (choice_num - 1)) with
            | Some item => (Picked item, keys, w)
            | None => (Uncaught index_error, keys, w)
            end
          else ask prompt items keys (say (out_of_range items) w)
      | None => ask prompt items keys (say not_a_number w)
      end
  end.

(** The lines of [for i, item in enumerate(items, 1): print(f"{i}. ...")]. *)
Definition numbered {A} (show : A -> str) (items : list A) : list str :=
  map (fun entry => str_of_Z (Z.of_nat (fst entry)) +++ ". " +++ show (snd entry))
      (combine (seq 1 (length items)) items).

(** A menu after its first test: the heading, the list between two rules,
    then the loop. *)
Definition menu {A} (heading prompt : str) (show : A -> str) (items : list A)
    (keys : list keystroke) (w : World) : choice A * list keystroke * World :=
  let w := say heading w in
  let w := say (repeat "-"%char 50) w in
  let w := fold_left (fun w line => say line w) (numbered show items) w in
  let w := say (repeat "-"%char 50) w in
  ask (prompt +++ str_of_Z (Z.of_nat (length items)) +++ "): ") items keys w.

(** [display_menu], the same text in both classes. *)
Definition display_menu (items : list str) (title : str)
    (keys : list keystroke) (w : World) : choice str * list keystroke * World :=
  match items with
  | [] => (Nothing, keys, say ("❌ " +++ title +++ " не найдены!") w)
  | _ :: _ =>
      menu ("
📋 " +++ title +++ ":") "Выберите номер (1-" path_name items keys w
  end.

(** [display_invoice_menu]: the two classes differ in the heading. *)
Definition invoice_menu {A} (heading : str) (show : A -> str) (invoices : list A)
    (keys : list keystroke) (w : World) : choice A * list keystroke * World :=
  match invoices with
  | [] => (Nothing, keys, say "❌ Доступные счета не найдены!" w)
  | _ :: _ => menu heading "Выберите номер счета (1-" show invoices keys w
  end.

End Definitions.
End Menus.

Module SchetGeneratorMenu.
Section Definitions.
Context {FM : FloatModel} {H : Host} {T : Terminal}.

(** [SchetGenerator.display_invoice_menu] on what [get_available_invoices]
    returns: the cells of the column as they are. *)
Definition display_invoice_menu
    : list pyval -> list keystroke -> World -> choice pyval * list keystroke * World :=
  Menus.invoice_menu "
📄 Доступные счета:" py_str.

End Definitions.
End SchetGeneratorMenu.

Module PDFGeneratorRun.
Section Definitions.
Context {FM : FloatModel} {H : Host} {T : Terminal}.

(** [PDFGenerator.display_invoice_menu] *)
Definition display_invoice_menu
    : list str -> list keystroke -> World -> choice str * list keystroke * World :=
  Menus.invoice_menu "
📄 Доступные счета (invoice_id):" (fun invoice => invoice).

(** The [return] statements of [run], in the order of the text, and its
    two last branches. *)
Inductive return_point :=
| NoDataFiles
| NoTemplates
| NoDataFileChosen
| NoTemplateChosen
| UnsupportedFormat
| EmptyData
| NoInvoiceChosen
| NoInvoiceData
| NoHtml
| PdfCreated
| PdfFailed.

(** How [run] ends: at one of its returns, in [sys.exit(0)], or in an
    exception that [main] will report. *)
Inductive ending :=
| Return (at_point : return_point)
| SystemExit
| Raised (e : exn).

(** The [if/elif/else] of [run] on the suffix of the data file. *)
Definition read_data_file (selected_data_file : str) (w : World)
    : option (anydata * World) :=
  if str_eqb (lower (path_suffix selected_data_file)) ".csv" then
    let (data, w) := PDFGenerator.read_csv_file selected_data_file w in
    Some (Frame data, w)
  else if str_eqb (lower (path_suffix selected_data_file)) ".json" then
    let (data, w) := PDFGenerator.read_json_file selected_data_file w in
    Some (Value (PList data), w)
  else None.

(** [run] after both menus have returned a path. *)
Definition run_selected (selected_data_file selected_template : str)
    (keys : list keystroke) (w : World) : ending * list keystroke * World :=
  let w := say ("
📖 Читаем данные из: " +++ path_name selected_data_file) w in
  match read_data_file selected_data_file w with
  | None => (Return UnsupportedFormat, keys, say "❌ Неподдерживаемый формат файла!" w)
  | Some (data, w) =>
      if (data_len data =? 0)%nat then
        (Return EmptyData, keys, say "❌ Файл данных пуст или не удалось прочитать!" w)
      else
        let invoices := PDFGenerator.get_available_invoices data in
        match display_invoice_menu invoices keys w with
        | (Exit0, keys, w) => (SystemExit, keys, w)
        | (Uncaught e, keys, w) => (Raised e, keys, w)
        | (Nothing, keys, w) => (Return NoInvoiceChosen, keys, w)
        | (Picked [], keys, w) => (Return NoInvoiceChosen, keys, w)
        | (Picked ((_ :: _) as selected_invoice), keys, w) =>
            let filtered_data :=
              PDFGenerator.filter_data_by_invoice data selected_invoice in
            if (data_len filtered_data =? 0)%nat then
              (Return NoInvoiceData, keys,
               say "❌ Данные для выбранного счета не найдены!" w)
            else
              let w := say ("
🎨 Рендерим шаблон: " +++ path_name selected_template) w in
              let (html_content, w) :=
                PDFGenerator.render_template selected_template filtered_data
                  selected_invoice w in
              match html_content with
              | [] => (Return NoHtml, keys,
                       say "❌ Не удалось сгенерировать HTML контент!" w)
              | _ :: _ =>
                  let output_filename :=
                    "invoice_" +++ selected_invoice +++ "_" +++
                    path_stem selected_template +++ ".pdf" in
                  let output_path := in_output_dir output_filename in
                  let w := say ("
📄 Генерируем PDF: " +++ output_filename) w in
                  match PDFGenerator.generate_pdf html_content output_path
                          filtered_data selected_invoice w with
                  | (true, w) =>
                      let w := say "
✅ PDF успешно создан!" w in
                      let w := say ("📁 Путь: " +++ absolute output_path) w in
                      let w := say "
🔍 Открываем PDF..." w in
                      (Return PdfCreated, keys, open_pdf output_path w)
                  | (false, w) =>
                      (Return PdfFailed, keys, say "
❌ Ошибка при создании PDF!" w)
                  end
              end
        end
  end.

Definition run (keys : list keystroke) (w : World)
    : ending * list keystroke * World :=
  let w := say "🚀 PDF Generator - Генератор PDF документов" w in
  let w := say (repeat "="%char 60) w in
  let data_files := get_data_files in
  let template_files := get_template_files in
  let w := say ("
📁 Найдено файлов данных: " +++ str_of_Z (Z.of_nat (length data_files))) w in
  let w := fold_left (fun w file => say ("   • " +++ path_name file) w) data_files w in
  let w := say ("
📄 Найдено HTML шаблонов: " +++ str_of_Z (Z.of_nat (length template_files))) w in
  let w := fold_left (fun w file => say ("   • " +++ path_name file) w) template_files w in
  match data_files with
  | [] =>
      let w := say "
❌ Не найдено файлов данных в директории 'data'!" w in
      (Return NoDataFiles, keys,
       say "   Добавьте CSV или JSON файлы в директорию 'data' и запустите программу снова." w)
  | _ :: _ =>
      match template_files with
      | [] =>
          let w := say "
❌ Не найдено HTML шаблонов в директории 'templates'!" w in
          (Return NoTemplates, keys,
           say "   Добавьте HTML шаблоны в директорию 'templates' и запустите программу снова." w)
      | _ :: _ =>
          match Menus.display_menu data_files "Файлы данных" keys w with
          | (Exit0, keys, w) => (SystemExit, keys, w)
          | (Uncaught e, keys, w) => (Raised e, keys, w)
          | (Nothing, keys, w) => (Return NoDataFileChosen, keys, w)
          | (Picked selected_data_file, keys, w) =>
              match Menus.display_menu template_files "HTML шаблоны" keys w with
              | (Exit0, keys, w) => (SystemExit, keys, w)
              | (Uncaught e, keys, w) => (Raised e, keys, w)
              | (Nothing, keys, w) => (Return NoTemplateChosen, keys, w)
              | (Picked selected_template, keys, w) =>
                  run_selected selected_data_file selected_template keys w
              end
          end
      end
  end.

End Definitions.
End PDFGeneratorRun.

(** ** Vocabulary of the console *)

Section ConsoleVocabulary.
Context {FM : FloatModel} {H : Host} {T : Terminal}.

(** The lines printed one after the other. *)
Definition say_all (lines : list str) (w : World) : World :=
  fold_left (fun w line => say line w) lines w.

(** A line that a menu over [items] does not accept: no number, or a
    number outside [1 .. len(items)]. *)
Definition rejected {A} (items : list A) (text : str) : bool :=
  match int_of_choice text with
  | Some choice_num => negb (Menus.in_range items choice_num)
  | None => true
  end.

(** What the menu answers to a line it rejects. *)
Definition complaint {A} (items : list A) (text : str) : str :=
  match int_of_choice text with
  | Some _ => Menus.out_of_range items
  | None => Menus.not_a_number
  end.

(** What the loop of a menu writes for the lines it rejects: the prompt
    before each, the complaint after. *)
Definition retries {A} (prompt : str) (items : list A) (skipped : list str)
    : list str :=
  flat_map (fun text => [prompt; complaint items text]) skipped.

(** The prompt of [display_menu]. *)
Definition file_prompt (items : list str) : str :=
  "Выберите номер (1-" +++ str_of_Z (Z.of_nat (length items)) +++ "): ".

(** What [display_menu] prints before it asks. *)
Definition file_screen (items : list str) (title : str) : list str :=
  [ "
📋 " +++ title +++ ":"; repeat "-"%char 50 ] ++
  Menus.numbered path_name items ++ [ repeat "-"%char 50 ].

(** The path [run] writes the PDF of [invoice] with [template] to. *)
Definition run_path (invoice template : str) : str :=
  in_output_dir ("invoice_" +++ invoice +++ "_" +++ path_stem template +++ ".pdf").

End ConsoleVocabulary.

Section ConsoleAnswers.
Context {FM : FloatModel} {H : Host} {T : Terminal}.

(** What can be said of the end of a menu over [items] that started with
    the keyboard [keys] in the world [w]: it only printed, it read the
    keyboard from the front, an item it returns is one of [items], it
    returns [None] exactly for no items and then reads nothing, and the
    only exception that leaves it is the end of the input. *)
Definition fair_answer {A} (items : list A) (keys : list keystroke) (w : World)
    (r : choice A * list keystroke * World) : Prop :=
  let '(c, keys', w') := r in
  same_files w w' /\
  (exists consumed, keys = consumed ++ keys') /\
  match c with
  | Picked item => In item items
  | Nothing => items = [] /\ keys' = keys
  | Exit0 => items <> []
  | Uncaught e => e = end_of_input
  end.

(** What is known of a run that ended by creating the PDF: the data file
    and the template are among those found, the invoice is listed in the
    data of the file and is not the empty text, and before the viewer was
    started one PDF had been added, at the path of the invoice and the
    template, made from the data filtered by the invoice. *)
Definition created_from (w w' : World) : Prop :=
  exists (data_file template invoice : str) (data : anydata)
         (w1 w2 w3 w'' : World) (src : pdf_source),
    In data_file get_data_files /\
    In template get_template_files /\
    PDFGeneratorRun.read_data_file data_file w1 = Some (data, w2) /\
    In invoice (PDFGenerator.get_available_invoices data) /\
    invoice <> [] /\
    w' = open_pdf (run_path invoice template) w'' /\
    counter_file w'' = counter_file w /\
    pdf_files w'' = (run_path invoice template, src) :: pdf_files w /\
    let filtered := PDFGenerator.filter_data_by_invoice data invoice in
    (src = FromData filtered invoice \/
     src = FromHtml (fst (PDFGenerator.render_template template filtered invoice w3))).

(** How a run can end, and what it has done by then. *)
Definition run_outcome (w : World) (r : PDFGeneratorRun.ending * list keystroke * World)
    : Prop :=
  let '(e, _, w') := r in
  match e with
  | PDFGeneratorRun.Return PDFGeneratorRun.PdfCreated => created_from w w'
  | PDFGeneratorRun.Return PDFGeneratorRun.NoDataFiles =>
      get_data_files = [] /\ same_files w w'
  | PDFGeneratorRun.Return PDFGeneratorRun.NoTemplates =>
      get_template_files = [] /\ same_files w w'
  | PDFGeneratorRun.Return PDFGeneratorRun.NoDataFileChosen
  | PDFGeneratorRun.Return PDFGeneratorRun.NoTemplateChosen
  | PDFGeneratorRun.Return PDFGeneratorRun.NoInvoiceData => False
  | PDFGeneratorRun.Return PDFGeneratorRun.PdfFailed =>
      exists invoice template, at_most_unfinished (run_path invoice template) w w'
  | PDFGeneratorRun.Raised e => e = end_of_input /\ same_files w w'
  | _ => same_files w w'
  end.

End ConsoleAnswers.

(** ** A sample console *)

Module SampleConsole.
Import Sample.

Definition ends_with (suffix s : str) : bool := prefixb (rev suffix) (rev s).

(** A terminal over the given data files: [int] reads plain decimal
    digits, a path is its own name and stem, and its suffix is [.csv] or
    [.json] when it ends so. *)
Definition terminal (data_files : list str) : Terminal :=
  {| int_of_choice := read_number;
     path_name := fun p => p;
     path_suffix := fun p =>
       if ends_with ".csv" p then lit ".csv"
       else if ends_with ".json" p then lit ".json" else lit "";
     path_stem := fun p => p;
     in_output_dir := fun name => "output/" +++ name;
     get_data_files := data_files |}.

(** A host whose CSV files all hold scenario A and whose template is
    [invoice_template]. *)
Definition office : @Host floats :=
  host (fun _ _ _ => Ok scenario_a) (fun _ => Raise missing)
       (fun _ => Ok invoice_template) true true (fun _ => lit "2024-01-01").

(** A host whose JSON files all hold one record with an empty identifier. *)
Definition unnamed_office : @Host floats :=
  host (fun _ _ _ => Raise missing)
       (fun _ => Ok (PList [PDict [(lit "id", PStr ""); (lit "total", PInt 100)]]))
       (fun _ => Ok invoice_template) true true (fun _ => lit "2024-01-01").

(** A host like [office] whose WeasyPrint raises while it writes and
    leaves what it had written. *)
Definition crashing_office : @Host floats :=
  workshop (fun _ _ _ => Ok scenario_a) (fun _ => Raise missing)
           (fun _ => Ok invoice_template) true true (fun _ => lit "2024-01-01")
           (fun _ _ => Raise (mk_exn OtherException "No space left on device")) true.

(** A frame of whole numbers and floats, one float missing. *)
Definition numeric_frame : @DataFrame floats :=
  mk_frame [lit "id"; lit "total"] [[PInt 7; PFloat nan]].

(** A frame whose key column has a missing cell. *)
Definition gapped_frame : @DataFrame floats :=
  mk_frame [lit "invoice_id"; lit "item"]
           [[PStr "B"; PStr "Pen"]; [PFloat nan; PStr "Ink"]; [PStr "A"; PStr "Cap"]].

(** A counter file that holds the float 2.0. *)
Definition world_with_float_counter : @World floats :=
  mk_world [] (Some (Ok (PDict [(lit "counter", PFloat (float_of_Z 2))])))
           true 0 [].

(** A counter file that is not valid JSON. *)
Definition world_with_broken_counter : @World floats :=
  mk_world [] (Some (Raise (mk_exn ValueError "Expecting value: line 1 column 1 (char 0)")))
           true 0 [].

(** An empty frame that still has its columns. *)
Definition no_rows : @DataFrame floats :=
  mk_frame [lit "номер_счета"; lit "товар"] [].

(** Two lines of one paid invoice. *)
Definition paid_frame : @DataFrame floats :=
  mk_frame [lit "номер_счета"; lit "общая_сумма"; lit "статус"]
           [ [PStr "СЧ-001"; PInt 100; PStr "Оплачен"];
             [PStr "СЧ-001"; PInt 50; PStr "Оплачен"] ].

End SampleConsole.

(** * Properties *)

Unset Implicit Arguments.

(** ** Text *)

Module StrFacts.

Lemma str_eqb_eq (a b : str) : str_eqb a b = true <-> a = b.
Proof.
  unfold str_eqb. destruct (list_eq_dec ascii_dec a b); split; congruence.
Qed.

Lemma str_eqb_refl (a : str) : str_eqb a a = true.
Proof. now apply str_eqb_eq. Qed.

Lemma str_eqb_neq (a b : str) : str_eqb a b = false <-> a <> b.
Proof.
  unfold str_eqb. destruct (list_eq_dec ascii_dec a b); split; congruence.
Qed.

Lemma N_of_ascii_inj (x y : ascii) : N_of_ascii x = N_of_ascii y -> x = y.
Proof.
  intros E. rewrite <- (ascii_N_embedding x), <- (ascii_N_embedding y).
  now rewrite E.
Qed.

Lemma str_compare_refl (a : str) : str_compare a a = Eq.
Proof.
  induction a as [|x a IH]; simpl; [reflexivity|].
  now rewrite N.compare_refl.
Qed.

Lemma str_compare_eq (a b : str) : str_compare a b = Eq -> a = b.
Proof.
  revert b. induction a as [|x a IH]; intros [|y b]; simpl; try discriminate.
  - reflexivity.
  - destruct (N.compare (N_of_ascii x) (N_of_ascii y)) eqn:E; try discriminate.
    intros E'. apply N.compare_eq in E. apply N_of_ascii_inj in E.
    f_equal; auto.
Qed.

Lemma In_insert_sorted (x y : str) (l : list str) :
  In y (insert_sorted x l) <-> y = x \/ In y l.
Proof.
  induction l as [|z l IH]; simpl.
  - intuition.
  - destruct (str_compare x z) eqn:E; simpl.
    + apply str_compare_eq in E. subst. intuition.
    + intuition.
    + rewrite IH. intuition.
Qed.

(** The sorted set has exactly the elements of the list. *)
Lemma In_sorted_set (y : str) (l : list str) :
  In y (sorted_set l) <-> In y l.
Proof.
  induction l as [|x l IH]; simpl; [tauto|].
  rewrite In_insert_sorted, IH. intuition.
Qed.

(** A list that repeats one text collapses to that text. *)
Lemma sorted_set_constant (a : str) (l : list str) :
  (forall x, In x l -> x = a) ->
  sorted_set l = match l with [] => [] | _ :: _ => [a] end.
Proof.
  induction l as [|x l IH]; intros Hl; [reflexivity|].
  simpl. rewrite IH by (intros; apply Hl; now right).
  rewrite (Hl x) by now left.
  destruct l; simpl; [reflexivity|]. now rewrite str_compare_refl.
Qed.

Lemma prefixb_spec (p s : str) : prefixb p s = true <-> exists t, s = p ++ t.
Proof.
  revert s. induction p as [|a p IH]; intros s; simpl.
  - split; [now exists s|reflexivity].
  - destruct s as [|b s].
    + split; [discriminate|intros [t E]; discriminate].
    + destruct (ascii_dec a b) as [->|N].
      * rewrite IH. split; intros [t E]; exists t; congruence.
      * split; [discriminate|intros [t E]; congruence].
Qed.

Lemma contains_spec (p s : str) : contains p s = true <-> occurs p s.
Proof.
  induction s as [|c s IH]; simpl.
  - rewrite orb_false_r, prefixb_spec. split.
    + intros [t E]. now exists [], t.
    + intros [a [b E]]. destruct a; [now exists b|discriminate].
  - rewrite orb_true_iff, IH, prefixb_spec. split.
    + intros [[t E]|[a [b E]]].
      * now exists [], t.
      * exists (c :: a), b. simpl. now rewrite E.
    + intros [[|x a] [b E]].
      * left. now exists b.
      * right. exists a, b. simpl in E. congruence.
Qed.

Lemma occurs_dec (p s : str) : {occurs p s} + {~ occurs p s}.
Proof.
  destruct (contains p s) eqn:E.
  - left. now apply contains_spec.
  - right. intros O. apply contains_spec in O. congruence.
Qed.

Lemma occurs_app_l (p a b : str) : occurs p a -> occurs p (a ++ b).
Proof.
  intros [u [v E]]. exists u, (v ++ b). rewrite E. now rewrite <- !app_assoc.
Qed.

Lemma occurs_app_r (p a b : str) : occurs p b -> occurs p (a ++ b).
Proof.
  intros [u [v E]]. exists (a ++ u), v. rewrite E. now rewrite <- !app_assoc.
Qed.

End StrFacts.

(** ** Replacement *)

Module ReplaceFacts.
Import StrFacts.

Lemma occurs_nil (p : str) : p <> [] -> ~ occurs p [].
Proof.
  intros Hp [a [b E]]. symmetry in E.
  apply app_eq_nil in E. destruct E as [_ E].
  apply app_eq_nil in E. destruct E as [E _]. contradiction.
Qed.

Lemma occurs_cons (p s : str) (c : ascii) :
  occurs p (c :: s) -> prefixb p (c :: s) = true \/ occurs p s.
Proof.
  intros [[|x a] [b E]].
  - left. apply prefixb_spec. now exists b.
  - right. exists a, b. simpl in E. congruence.
Qed.

Lemma replace_from_skip (old new : str) (s : str) :
  forall k, replace_from old new k s = replace_from old new 0 (skipn k s).
Proof.
  induction s as [|c s IH]; intros [|k]; try reflexivity.
  simpl. apply IH.
Qed.

(** One step of [replace] on a non-empty text. *)
Lemma replace_step (old new : str) (c : ascii) (s : str) :
  old <> [] ->
  replace (c :: s) old new =
  if prefixb old (c :: s)
  then new ++ replace (skipn (length old) (c :: s)) old new
  else c :: replace s old new.
Proof.
  destruct old as [|o old]; [congruence|]. intros _.
  unfold replace. cbn [replace_from].
  rewrite (replace_from_skip _ _ s (length (o :: old) - 1)).
  replace (length (o :: old) - 1) with (length old) by (simpl; lia).
  reflexivity.
Qed.

Lemma replace_nil (old new : str) : old <> [] -> replace [] old new = [].
Proof. destruct old; [congruence|reflexivity]. Qed.

(** [replace] cuts the text at occurrences of [old]. *)
Lemma replace_pieces (old new : str) :
  old <> [] -> forall s, pieces old new s (replace s old new).
Proof.
  intros Hold s.
  remember (length s) as n eqn:Hn. revert s Hn.
  induction n as [n IH] using lt_wf_ind. intros [|c s] Hn.
  - rewrite replace_nil by assumption. apply pieces_end. now apply occurs_nil.
  - rewrite replace_step by assumption.
    destruct (prefixb old (c :: s)) eqn:P.
    + apply prefixb_spec in P. destruct P as [t E]. rewrite E.
      rewrite skipn_app, Nat.sub_diag, skipn_all. cbn [skipn app].
      apply (@pieces_cut old new [] t).
      * now apply occurs_nil.
      * apply (IH (length t)); [|reflexivity].
        subst n. rewrite E, length_app.
        destruct old; [congruence|simpl; lia].
    + assert (Hs : pieces old new s (replace s old new)).
      { apply (IH (length s)); [subst n; simpl; lia|reflexivity]. }
      remember (replace s old new) as r eqn:Hr. clear Hr IH Hn.
      destruct Hs as [p Hp|p t r Hp Ht].
      * apply pieces_end. intros O. apply occurs_cons in O.
        destruct O as [O|O]; [congruence|contradiction].
      * apply (@pieces_cut old new (c :: p) t r); [|exact Ht].
        intros O. apply occurs_cons in O. destruct O as [O|O]; [|contradiction].
        apply prefixb_spec in O. destruct O as [u E].
        assert (prefixb old (c :: p ++ old ++ t) = true); [|congruence].
        apply prefixb_spec. exists (u ++ old ++ t).
        change (c :: p ++ old ++ t) with ((c :: p) ++ old ++ t).
        rewrite E. now rewrite <- app_assoc.
Qed.

(** Where an occurrence in a concatenation lies. *)
Lemma occurs_app (p a b : str) :
  occurs p (a ++ b) ->
  occurs p a \/ occurs p b \/
  exists p1 p2 a0 b1,
    p = p1 ++ p2 /\ p1 <> [] /\ p2 <> [] /\ a = a0 ++ p1 /\ b = p2 ++ b1.
Proof.
  intros [u [v E]].
  apply app_eq_app in E. destruct E as [l [[Ea Eb]|[Eu Epv]]].
  - (* a = u ++ l, p ++ v = l ++ b *)
    apply app_eq_app in Eb. destruct Eb as [m [[Ep Ebb]|[El Ev]]].
    + (* p = l ++ m, b = m ++ v *)
      destruct l as [|x l].
      * right. left. exists [], v. simpl in Ep. subst p. exact Ebb.
      * destruct m as [|y m].
        -- left. exists u, []. rewrite app_nil_r in Ep. subst p.
           now rewrite app_nil_r.
        -- right. right. exists (x :: l), (y :: m), u, v.
           repeat split; try assumption; discriminate.
    + (* l = p ++ m *)
      left. exists u, m. now rewrite Ea, El.
  - (* u = a ++ l, b = l ++ p ++ v *)
    right. left. now exists l, v.
Qed.

Lemma overlaps_spec (a b : str) :
  overlaps a b = true <->
  exists t a0 b1, t <> [] /\ a = a0 ++ t /\ b = t ++ b1.
Proof.
  unfold overlaps. rewrite existsb_exists. split.
  - intros [k [Hk P]]. apply in_seq in Hk. apply prefixb_spec in P.
    destruct P as [b1 E]. exists (skipn k a), (firstn k a), b1.
    repeat split; [|now rewrite firstn_skipn|exact E].
    intros N. apply (f_equal (@length ascii)) in N.
    rewrite length_skipn in N. simpl in N. lia.
  - intros [t [a0 [b1 [Ht [Ea Eb]]]]]. exists (length a0). split.
    + apply in_seq. subst a. rewrite length_app.
      destruct t; [congruence|simpl; lia].
    + apply prefixb_spec. exists b1. subst a.
      now rewrite skipn_app, Nat.sub_diag, skipn_all.
Qed.

Lemma safe_spec (tok v : str) :
  safe tok v = true ->
  v <> [] /\ ~ occurs tok v /\ ~ occurs v tok /\
  overlaps tok v = false /\ overlaps v tok = false.
Proof.
  unfold safe. rewrite !andb_true_iff, !negb_true_iff.
  intros [[[[A B] C] D] E]. repeat split; try assumption.
  - now apply str_eqb_neq.
  - intros O. apply contains_spec in O. congruence.
  - intros O. apply contains_spec in O. congruence.
Qed.

(** Putting a safe [v] between two texts free of [tok] gives a text free
    of [tok]. *)
Lemma no_new_occurrence (tok v p r : str) :
  safe tok v = true ->
  ~ occurs tok p -> ~ occurs tok r -> ~ occurs tok (p ++ v ++ r).
Proof.
  intros S Hp Hr O. apply safe_spec in S.
  destruct S as [Hv [Htv [Hvt [Otv Ovt]]]].
  apply occurs_app in O. destruct O as [O|[O|O]]; [contradiction| |].
  - apply occurs_app in O. destruct O as [O|[O|O]]; try contradiction.
    destruct O as [p1 [p2 [a0 [b1 [Et [N1 [N2 [Ea Eb]]]]]]]].
    assert (overlaps v tok = true); [|congruence].
    apply overlaps_spec. exists p1, a0, p2. now repeat split.
  - destruct O as [p1 [p2 [a0 [b1 [Et [N1 [N2 [Ea Eb]]]]]]]].
    symmetry in Eb. apply app_eq_app in Eb. destruct Eb as [l [[E2 E3]|[E2 E3]]].
    + (* p2 = v ++ l *)
      apply Hvt. exists p1, l. now rewrite Et, E2.
    + (* v = p2 ++ l *)
      assert (overlaps tok v = true); [|congruence].
      apply overlaps_spec. exists p2, p1, l. now repeat split.
Qed.

(** After [replace(old, v)] with a safe [v], a token is absent if it is
    [old] itself or was absent before. *)
Lemma replace_clean (tok old v s : str) :
  old <> [] -> safe tok v = true ->
  tok = old \/ ~ occurs tok s ->
  ~ occurs tok (replace s old v).
Proof.
  intros Hold S Hs.
  pose proof (replace_pieces old v Hold s) as P.
  induction P as [p Hp|p t r Hp Ht IH].
  - destruct Hs as [->|Hs]; assumption.
  - apply no_new_occurrence; [exact S| |].
    + destruct Hs as [->|Hs]; [exact Hp|].
      intros O. apply Hs. now apply occurs_app_l.
    + apply IH. destruct Hs as [->|Hs]; [now left|right].
      intros O. apply Hs. now apply occurs_app_r, occurs_app_r.
Qed.

(** A text without [old] is left as it is. *)
Lemma replace_absent (old v s : str) :
  old <> [] -> ~ occurs old s -> replace s old v = s.
Proof.
  intros Hold. induction s as [|c s IH]; intros Hs.
  - now apply replace_nil.
  - rewrite replace_step by assumption.
    destruct (prefixb old (c :: s)) eqn:P.
    + exfalso. apply Hs. apply contains_spec. simpl. now rewrite P.
    + f_equal. apply IH. intros O. apply Hs.
      destruct O as [a [b E]]. exists (c :: a), b. simpl. now rewrite E.
Qed.

(** After a run of safe replacements, a token is absent if it was absent
    at the start or was the text to find of one of them. *)
Lemma substitute_all_clean (tok : str) (subs : list (str * str)) :
  Forall (fun sub => fst sub <> [] /\ safe tok (snd sub) = true) subs ->
  forall template,
    ~ occurs tok template \/ In tok (map fst subs) ->
    ~ occurs tok (substitute_all subs template).
Proof.
  induction 1 as [|[old v] subs [Hold S] _ IH]; intros template Ht.
  - destruct Ht as [Ht|[]]. exact Ht.
  - cbn [substitute_all fold_left fst snd] in *. apply IH.
    destruct Ht as [Ht|[E|Hin]].
    + left. apply replace_clean; auto.
    + left. apply replace_clean; auto.
    + now right.
Qed.

End ReplaceFacts.

(** ** Lists *)

Module ListFacts.

(** The first element of [filter p l] is [find p l]. *)
Lemma filter_head_find {A} (p : A -> bool) (l : list A) :
  match filter p l with
  | c :: _ => find p l = Some c
  | [] => find p l = None
  end.
Proof.
  induction l as [|x l IH]; simpl; [reflexivity|].
  destruct (p x); [reflexivity|exact IH].
Qed.

Lemma filter_nil_find {A} (p : A -> bool) (l : list A) :
  find p l = None -> filter p l = [].
Proof.
  intros E. pose proof (filter_head_find p l) as Hf.
  destruct (filter p l); [reflexivity|congruence].
Qed.

Lemma find_none_forallb {A} (p : A -> bool) (l : list A) :
  forallb (fun x => negb (p x)) l = true -> find p l = None.
Proof.
  induction l as [|x l IH]; simpl; [reflexivity|].
  destruct (p x); simpl; [discriminate|exact IH].
Qed.

Lemma map_filter_comm {A B} (f : A -> B) (p : B -> bool) (l : list A) :
  map f (filter (fun x => p (f x)) l) = filter p (map f l).
Proof.
  induction l as [|x l IH]; simpl; [reflexivity|].
  destruct (p (f x)); simpl; now rewrite IH.
Qed.

Lemma filter_app_flat {A B} (f : A -> list B) (p : B -> bool) (l : list A) :
  filter p (flat_map f l) = flat_map (fun x => filter p (f x)) l.
Proof.
  induction l as [|x l IH]; simpl; [reflexivity|].
  now rewrite filter_app, IH.
Qed.

End ListFacts.

(** ** Invoice keys and filtering *)

Module KeyFacts.
Import StrFacts ListFacts.
Section Facts.
Context {FM : FloatModel} {H : Host}.

(** Filtering a list of text by equality with [id] and collapsing it gives
    [[id]] when [id] was in the list and nothing otherwise. *)
Lemma sorted_set_filter_eq (id : str) (l : list str) :
  sorted_set (filter (fun x => str_eqb x id) l) =
  if existsb (str_eqb id) (sorted_set l) then [id] else [].
Proof.
  rewrite (sorted_set_constant id).
  2:{ intros x Hx. apply filter_In in Hx. now apply str_eqb_eq. }
  destruct (existsb (str_eqb id) (sorted_set l)) eqn:E.
  - apply existsb_exists in E. destruct E as [x [Hx E]].
    apply str_eqb_eq in E. subst x. rewrite In_sorted_set in Hx.
    assert (Hin : In id (filter (fun x => str_eqb x id) l)).
    { apply filter_In. split; [exact Hx|apply str_eqb_refl]. }
    destruct (filter (fun x => str_eqb x id) l); [destruct Hin|reflexivity].
  - destruct (filter (fun x => str_eqb x id) l) as [|y t] eqn:F; [reflexivity|].
    assert (Hy : In y (filter (fun x => str_eqb x id) l)) by (rewrite F; now left).
    apply filter_In in Hy. destruct Hy as [Hy Ey]. apply str_eqb_eq in Ey. subst y.
    assert (existsb (str_eqb id) (sorted_set l) = true); [|congruence].
    apply existsb_exists. exists id.
    split; [rewrite In_sorted_set; exact Hy|apply str_eqb_refl].
Qed.

(** What one item contributes after filtering is what it contributed
    before, when that was [id]. *)
Lemma invoice_of_kept_item (id : str) (item : pyval) :
  flat_map PDFGenerator.invoice_of_item (PDFGenerator.keep_item id item) =
  filter (fun x => str_eqb x id) (PDFGenerator.invoice_of_item item).
Proof.
  unfold PDFGenerator.keep_item, PDFGenerator.invoice_of_item.
  destruct item as [| | | | |l|d]; try reflexivity.
  destruct (find PDFGenerator.is_invoice_key (keys d)) as [k|] eqn:F; [|reflexivity].
  simpl.
  destruct (str_eqb (py_str (dict_get d k PNone)) id) eqn:E; simpl; [|reflexivity].
  rewrite F. reflexivity.
Qed.

Lemma invoices_of_kept_items (id : str) (items : list pyval) :
  flat_map PDFGenerator.invoice_of_item (flat_map (PDFGenerator.keep_item id) items) =
  filter (fun x => str_eqb x id) (flat_map PDFGenerator.invoice_of_item items).
Proof.
  induction items as [|item items IH]; simpl; [reflexivity|].
  rewrite flat_map_app, filter_app, IH, invoice_of_kept_item. reflexivity.
Qed.

Lemma kept_cells (df : DataFrame) (c id : str) (rs : list (list pyval)) :
  map py_str
    (map (cell (mk_frame (columns df)
                  (filter (fun r => str_eqb (py_str (cell df c r)) id) (rows df))) c)
       (filter (fun r => str_eqb (py_str (cell df c r)) id) rs)) =
  filter (fun x => str_eqb x id) (map py_str (map (cell df c) rs)).
Proof.
  induction rs as [|r rs IH]; simpl; [reflexivity|].
  destruct (str_eqb (py_str (cell df c r)) id) eqn:E; simpl;
    rewrite IH; reflexivity.
Qed.

Lemma existsb_eq_iff {A} (p : A -> bool) (l : list A) (b : bool) :
  ((exists x, In x l /\ p x = true) <-> b = true) -> existsb p l = b.
Proof.
  intros Hiff. apply eq_true_iff_eq. rewrite existsb_exists. exact Hiff.
Qed.

(** [id] is listed exactly when it is the text of the key of a row or of a
    record. *)
Lemma held_iff_listed (data : anydata) (id : str) :
  held_under_key data id =
  existsb (str_eqb id) (PDFGenerator.get_available_invoices data).
Proof.
  symmetry. apply existsb_eq_iff.
  assert (L : forall l : list str,
            (exists x, In x (sorted_set l) /\ str_eqb id x = true) <-> In id l).
  { intros l. split.
    - intros [x [I E]]. apply str_eqb_eq in E. subst x. now apply In_sorted_set.
    - intros I. exists id. split; [now apply In_sorted_set|apply str_eqb_refl]. }
  unfold PDFGenerator.get_available_invoices, held_under_key.
  destruct data as [df|v]; cbv iota.
  - pose proof (filter_head_find PDFGenerator.is_invoice_key (columns df)) as F.
    destruct (filter PDFGenerator.is_invoice_key (columns df)) as [|c rest];
      rewrite F.
    + split; [intros [x [[] _]]|discriminate].
    + rewrite L, existsb_exists. unfold column. rewrite map_map, in_map_iff.
      split; intros [row [A B]]; exists row.
      * split; [exact B|]. rewrite A. apply str_eqb_refl.
      * split; [now apply str_eqb_eq|exact A].
  - destruct v as [| | | | |items|d];
      try (split; [intros [x [[] _]]|discriminate]).
    rewrite L, existsb_exists, in_flat_map.
    split; intros [item [A B]]; exists item; (split; [exact A|]).
    + unfold PDFGenerator.invoice_of_item in B. unfold record_key.
      destruct item as [| | | | |l|d]; try destruct B.
      destruct (find PDFGenerator.is_invoice_key (keys d)) as [k|]; [|destruct B].
      cbn [option_map]. destruct B as [B|[]]. rewrite B. apply str_eqb_refl.
    + unfold PDFGenerator.invoice_of_item. unfold record_key in B.
      destruct item as [| | | | |l|d]; try discriminate.
      destruct (find PDFGenerator.is_invoice_key (keys d)) as [k|]; [|discriminate].
      cbn [option_map] in B. left. now apply str_eqb_eq.
Qed.

Lemma filter_then_listing (data : anydata) (id : str) :
  PDFGenerator.get_available_invoices (PDFGenerator.filter_data_by_invoice data id) =
  if existsb (str_eqb id) (PDFGenerator.get_available_invoices data)
  then [id] else [].
Proof.
  destruct data as [df|v].
  - unfold PDFGenerator.filter_data_by_invoice, PDFGenerator.get_available_invoices.
    destruct (filter PDFGenerator.is_invoice_key (columns df)) as [|c rest] eqn:F.
    + rewrite F. reflexivity.
    + cbn [columns]. rewrite F.
      rewrite <- sorted_set_filter_eq. f_equal.
      unfold column. cbn [rows columns]. apply kept_cells.
  - destruct v as [| | | | |items|d]; try reflexivity.
    unfold PDFGenerator.filter_data_by_invoice, PDFGenerator.get_available_invoices.
    rewrite invoices_of_kept_items. apply sorted_set_filter_eq.
Qed.

(** C9.  [filter_data_by_invoice(data, id)] followed by
    [get_available_invoices] gives the one-element list [[id]] or the
    empty list, never another identifier: for a frame, for a JSON list and
    for any other value.  For a JSON list, and for a frame whose key
    column has no missing cell, it gives [[id]] exactly when [id] is the
    text of the key of some row, under the key column of the frame, or of
    some record, under the key of that record, and the empty list when
    there is no such row or record; this condition, read off the rows and
    records, is the same as [id] being listed for [data]. *)
Theorem filter_then_invoices (data : anydata) (id : str) :
  (PDFGenerator.get_available_invoices (PDFGenerator.filter_data_by_invoice data id) = [id] \/
   PDFGenerator.get_available_invoices (PDFGenerator.filter_data_by_invoice data id) = []) /\
  (no_missing_key data = true ->
   PDFGenerator.get_available_invoices (PDFGenerator.filter_data_by_invoice data id) =
     (if held_under_key data id then [id] else []) /\
   held_under_key data id =
     existsb (str_eqb id) (PDFGenerator.get_available_invoices data)).
Proof.
  split.
  - rewrite filter_then_listing.
    destruct (existsb (str_eqb id) (PDFGenerator.get_available_invoices data));
      [now left|now right].
  - intros _. split; [|apply held_iff_listed].
    rewrite held_iff_listed. apply filter_then_listing.
Qed.

(** A JSON list is filtered item by item. *)
Lemma keep_items_filter (id : str) (items : list pyval) :
  flat_map (PDFGenerator.keep_item id) items =
  filter (fun item =>
            match record_key item with
            | Some (d, k) => str_eqb (py_str (dict_get d k PNone)) id
            | None => false
            end) items.
Proof.
  induction items as [|item items IH]; simpl; [reflexivity|].
  rewrite IH. unfold PDFGenerator.keep_item, record_key.
  destruct item as [| | | | |l|d]; try reflexivity.
  destruct (find PDFGenerator.is_invoice_key (keys d)) as [k|]; simpl; [|reflexivity].
  destruct (str_eqb (py_str (dict_get d k PNone)) id); reflexivity.
Qed.

Lemma invoice_of_item_key (item : pyval) :
  PDFGenerator.invoice_of_item item =
  match record_key item with
  | Some (d, k) => [py_str (dict_get d k PNone)]
  | None => []
  end.
Proof.
  unfold PDFGenerator.invoice_of_item, record_key.
  destruct item as [| | | | |l|d]; try reflexivity.
  destruct (find PDFGenerator.is_invoice_key (keys d)); reflexivity.
Qed.

Lemma frame_by_key (df : DataFrame) (id : str) :
  match find PDFGenerator.is_invoice_key (columns df) with
  | Some c =>
      PDFGenerator.get_available_invoices (Frame df) =
        sorted_set (map py_str (column df c)) /\
      PDFGenerator.filter_data_by_invoice (Frame df) id =
        Frame (mk_frame (columns df)
                 (filter (fun r => str_eqb (py_str (cell df c r)) id) (rows df)))
  | None =>
      PDFGenerator.get_available_invoices (Frame df) = [] /\
      PDFGenerator.filter_data_by_invoice (Frame df) id = Frame df
  end.
Proof.
  unfold PDFGenerator.get_available_invoices, PDFGenerator.filter_data_by_invoice.
  pose proof (filter_head_find PDFGenerator.is_invoice_key (columns df)) as Hf.
  destruct (filter PDFGenerator.is_invoice_key (columns df)) as [|c rest];
    rewrite Hf; split; reflexivity.
Qed.

Lemma schet_by_key (df : DataFrame) (id : str) :
  match key_column df with
  | Some c =>
      SchetGenerator.get_available_invoices df = sorted_unique (column df c) /\
      SchetGenerator.filter_data_by_invoice df id = SchetGenerator.select_rows df c id
  | None =>
      SchetGenerator.get_available_invoices df = Ok [] /\
      SchetGenerator.filter_data_by_invoice df id = df
  end.
Proof.
  unfold key_column, SchetGenerator.get_available_invoices,
    SchetGenerator.filter_data_by_invoice.
  destruct (has_column df "номер_счета"); [split; reflexivity|].
  destruct (has_column df "invoice_id"); [split; reflexivity|].
  pose proof (filter_head_find SchetGenerator.is_invoice_column (columns df)) as Hf.
  destruct (filter SchetGenerator.is_invoice_column (columns df)) as [|c rest];
    rewrite Hf; split; reflexivity.
Qed.

(** C1, as the code has it.  [PDFGenerator] on a frame: the first column
    label in declaration order that passes the test is the key of the whole
    frame, for listing the invoices and for filtering; without such a label
    there are no invoices and filtering returns the frame.  [PDFGenerator]
    on a JSON list: the key is chosen for each record on its own, the first
    key of that record that passes the test.  [SchetGenerator]: one column
    for the whole frame, [номер_счета] if present, else [invoice_id] if
    present, else the first label that contains [счет] or [invoice]. *)
Theorem key_choice :
  (forall (df : DataFrame) (id : str),
     match find PDFGenerator.is_invoice_key (columns df) with
     | Some c =>
         PDFGenerator.get_available_invoices (Frame df) =
           sorted_set (map py_str (column df c)) /\
         PDFGenerator.filter_data_by_invoice (Frame df) id =
           Frame (mk_frame (columns df)
                    (filter (fun r => str_eqb (py_str (cell df c r)) id) (rows df)))
     | None =>
         PDFGenerator.get_available_invoices (Frame df) = [] /\
         PDFGenerator.filter_data_by_invoice (Frame df) id = Frame df
     end) /\
  (forall (items : list pyval) (id : str),
     PDFGenerator.get_available_invoices (Value (PList items)) =
       sorted_set
         (flat_map (fun item =>
                      match record_key item with
                      | Some (d, k) => [py_str (dict_get d k PNone)]
                      | None => []
                      end) items) /\
     PDFGenerator.filter_data_by_invoice (Value (PList items)) id =
       Value (PList (filter (fun item =>
                               match record_key item with
                               | Some (d, k) => str_eqb (py_str (dict_get d k PNone)) id
                               | None => false
                               end) items))) /\
  (forall (df : DataFrame) (id : str),
     match key_column df with
     | Some c =>
         SchetGenerator.get_available_invoices df = sorted_unique (column df c) /\
         SchetGenerator.filter_data_by_invoice df id = SchetGenerator.select_rows df c id
     | None =>
         SchetGenerator.get_available_invoices df = Ok [] /\
         SchetGenerator.filter_data_by_invoice df id = df
     end).
Proof.
  split; [exact frame_by_key|split; [|exact schet_by_key]].
  intros items id. split.
  - unfold PDFGenerator.get_available_invoices. f_equal.
    apply flat_map_ext. intros item. apply invoice_of_item_key.
  - unfold PDFGenerator.filter_data_by_invoice. now rewrite keep_items_filter.
Qed.

(** A label the frame has is found by [find] with any test it passes. *)
Lemma has_column_passes (df : DataFrame) (c : str) (p : str -> bool) :
  has_column df c = true -> p c = true -> find p (columns df) <> None.
Proof.
  unfold has_column. intros Hc Hp Hn.
  apply existsb_exists in Hc. destruct Hc as [x [Hx E]].
  apply str_eqb_eq in E. subst x.
  apply (find_none _ _ Hn) in Hx. congruence.
Qed.

(** C2, as the code has it.  A frame none of whose labels passes the test
    comes back unchanged from [filter_data_by_invoice], in both classes;
    a JSON list none of whose records has a key that passes the test comes
    back from [PDFGenerator.filter_data_by_invoice] as the empty list. *)
Theorem filter_without_key :
  (forall (df : DataFrame) (id : str),
     forallb (fun c => negb (PDFGenerator.is_invoice_key c)) (columns df) = true ->
     PDFGenerator.filter_data_by_invoice (Frame df) id = Frame df) /\
  (forall (df : DataFrame) (id : str),
     forallb (fun c => negb (SchetGenerator.is_invoice_column c)) (columns df) = true ->
     SchetGenerator.filter_data_by_invoice df id = df) /\
  (forall (items : list pyval) (id : str),
     (forall d, In (PDict d) items ->
                forallb (fun k => negb (PDFGenerator.is_invoice_key k)) (keys d) = true) ->
     PDFGenerator.filter_data_by_invoice (Value (PList items)) id = Value (PList [])).
Proof.
  split; [|split].
  - intros df id Hno. unfold PDFGenerator.filter_data_by_invoice.
    now rewrite (filter_nil_find _ _ (find_none_forallb _ _ Hno)).
  - intros df id Hno. apply find_none_forallb in Hno.
    unfold SchetGenerator.filter_data_by_invoice.
    destruct (has_column df "номер_счета") eqn:E1.
    { exfalso. now apply (has_column_passes df _ SchetGenerator.is_invoice_column E1). }
    destruct (has_column df "invoice_id") eqn:E2.
    { exfalso. now apply (has_column_passes df _ SchetGenerator.is_invoice_column E2). }
    now rewrite (filter_nil_find _ _ Hno).
  - intros items id Hno. unfold PDFGenerator.filter_data_by_invoice.
    do 2 f_equal. induction items as [|item items IH]; [reflexivity|].
    simpl. rewrite IH by (intros d Hd; apply Hno; now right).
    rewrite app_nil_r. destruct item as [| | | | |l|d]; try reflexivity.
    unfold PDFGenerator.keep_item.
    now rewrite (find_none_forallb _ _ (Hno d (or_introl eq_refl))).
Qed.

(** C4, as the code has it.  With a key, [PDFGenerator] keeps exactly the
    records whose value at the key, turned into text by [str], is
    [invoice_id] itself: in a frame the key is the first label that passes
    the test, in a JSON list it is each record's own first such key.
    [SchetGenerator] compares the cell at its column with [invoice_number]
    as it is: a row is kept exactly when that cell is the text
    [invoice_number]; a number is never turned into text. *)
Theorem filter_keeps_matching_records :
  (forall (df : DataFrame) (c id : str),
     find PDFGenerator.is_invoice_key (columns df) = Some c ->
     exists kept,
       PDFGenerator.filter_data_by_invoice (Frame df) id =
         Frame (mk_frame (columns df) kept) /\
       forall r, In r kept <-> In r (rows df) /\ py_str (cell df c r) = id) /\
  (forall (items : list pyval) (id : str),
     exists kept,
       PDFGenerator.filter_data_by_invoice (Value (PList items)) id =
         Value (PList kept) /\
       forall item,
         In item kept <->
         In item items /\
         exists d k, record_key item = Some (d, k) /\ py_str (dict_get d k PNone) = id) /\
  (forall (df : DataFrame) (c id : str),
     key_column df = Some c ->
     columns (SchetGenerator.filter_data_by_invoice df id) = columns df /\
     forall r, In r (rows (SchetGenerator.filter_data_by_invoice df id)) <->
               In r (rows df) /\ cell df c r = PStr id).
Proof.
  split; [|split].
  - intros df c id Hc. pose proof (frame_by_key df id) as E.
    rewrite Hc in E. destruct E as [_ E]. eexists. split; [exact E|].
    intros r. rewrite filter_In, str_eqb_eq. reflexivity.
  - intros items id. eexists. split.
    { unfold PDFGenerator.filter_data_by_invoice. now rewrite keep_items_filter. }
    intros item. rewrite filter_In. split.
    + intros [Hin Hk]. split; [exact Hin|].
      destruct (record_key item) as [[d k]|]; [|discriminate].
      exists d, k. split; [reflexivity|now apply str_eqb_eq].
    + intros [Hin [d [k [Hk E']]]]. split; [exact Hin|].
      rewrite Hk. now apply str_eqb_eq.
  - intros df c id Hc. pose proof (schet_by_key df id) as E.
    rewrite Hc in E. destruct E as [_ E]. rewrite E.
    split; [reflexivity|]. intros r. unfold SchetGenerator.select_rows. cbn [rows].
    rewrite filter_In. unfold eq_text.
    split; intros [Hin Hk]; (split; [exact Hin|]).
    + destruct (cell df c r); try discriminate. apply str_eqb_eq in Hk. now subst.
    + rewrite Hk. apply str_eqb_refl.
Qed.

End Facts.
End KeyFacts.

Module KeyExamples.
Import StrFacts Sample.

(** C1 fails on a JSON list: with the records of [mixed_records] the
    invoices listed are [1] and [B], the first read under [id] and the
    second under [invoice]; no single field gives this list. *)
Lemma key_is_not_global_for_json :
  @PDFGenerator.get_available_invoices floats (plain "") (Value (PList mixed_records)) =
    [lit "1"; lit "B"] /\
  ~ exists k : str,
      @PDFGenerator.get_available_invoices floats (plain "") (Value (PList mixed_records)) =
      sorted_set (map (fun item =>
                         match item with
                         | PDict d => @py_str floats (plain "") (dict_get d k PNone)
                         | _ => lit ""
                         end) mixed_records).
Proof.
  split; [vm_compute; reflexivity|].
  intros [k E].
  replace (@PDFGenerator.get_available_invoices floats (plain "")
             (Value (PList mixed_records))) with [lit "1"; lit "B"] in E
    by (vm_compute; reflexivity).
  unfold mixed_records, map, dict_get, dict_find in E.
  destruct (str_eqb (lit "id") k) eqn:E1; destruct (str_eqb (lit "invoice") k) eqn:E2.
  - apply str_eqb_eq in E1, E2. subst k. discriminate E2.
  - vm_compute in E. discriminate E.
  - vm_compute in E. discriminate E.
  - vm_compute in E. discriminate E.
Qed.

(** C2 fails on a JSON list: no key of [nameless_records] passes the test,
    yet filtering returns the empty list and not the list it was given. *)
Lemma json_without_key_is_emptied :
  forallb (fun k => negb (PDFGenerator.is_invoice_key k)) [lit "name"] = true /\
  @PDFGenerator.filter_data_by_invoice floats (plain "")
     (Value (PList nameless_records)) "x" = Value (PList []) /\
  @PDFGenerator.filter_data_by_invoice floats (plain "")
     (Value (PList nameless_records)) "x" <> Value (PList nameless_records).
Proof.
  split; [reflexivity|]. split; [reflexivity|]. vm_compute. discriminate.
Qed.

Lemma filter_without_key_witness :
  @PDFGenerator.filter_data_by_invoice floats (plain "") (Frame nameless_frame) "x" =
    Frame nameless_frame /\
  @SchetGenerator.filter_data_by_invoice floats nameless_frame "x" = nameless_frame /\
  @PDFGenerator.filter_data_by_invoice floats (plain "")
     (Value (PList nameless_records)) "x" = Value (PList []).
Proof.
  destruct (@KeyFacts.filter_without_key floats (plain "")) as [A [B C]].
  split; [apply A; reflexivity|].
  split; [apply B; reflexivity|].
  apply C. intros d [E|[]]. inversion E. reflexivity.
Defined.

(** C4 fails in [SchetGenerator]: the cell of [numbered_frame] under
    [номер_счета] is the number 7, whose text is [7], and filtering by the
    text [7] keeps no row. *)
Lemma schet_filter_does_not_coerce :
  @py_str floats (plain "") (cell numbered_frame "номер_счета" [PInt 7; PStr "Принтер"]) =
    lit "7" /\
  rows (@SchetGenerator.filter_data_by_invoice floats numbered_frame "7") = [].
Proof.
  split; vm_compute; reflexivity.
Qed.

Lemma filter_keeps_matching_records_witness :
  (exists kept,
     @PDFGenerator.filter_data_by_invoice floats (plain "") (Frame scenario_a) "INV-1" =
       Frame (mk_frame (columns scenario_a) kept) /\
     forall r, In r kept <->
               In r (rows scenario_a) /\
               @py_str floats (plain "") (cell scenario_a "invoice_id" r) = lit "INV-1") /\
  (columns (@SchetGenerator.filter_data_by_invoice floats scenario_a "INV-1") =
     columns scenario_a /\
   forall r, In r (rows (@SchetGenerator.filter_data_by_invoice floats scenario_a "INV-1")) <->
             In r (rows scenario_a) /\ cell scenario_a "invoice_id" r = PStr "INV-1").
Proof.
  destruct (@KeyFacts.filter_keeps_matching_records floats (plain "")) as [A [_ C]].
  split.
  - apply (A scenario_a (lit "invoice_id") (lit "INV-1")). reflexivity.
  - apply (C scenario_a (lit "invoice_id") (lit "INV-1")). reflexivity.
Defined.

(** Scenario A: two rows share [INV-1]; it is the only invoice and
    filtering by it keeps both rows. *)
Lemma filter_then_invoices_witness :
  @PDFGenerator.get_available_invoices floats (plain "")
    (@PDFGenerator.filter_data_by_invoice floats (plain "") (Frame scenario_a) "INV-1") =
    [lit "INV-1"] /\
  @PDFGenerator.get_available_invoices floats (plain "")
    (@PDFGenerator.filter_data_by_invoice floats (plain "") (Frame scenario_a) "INV-2") =
    [] /\
  @PDFGenerator.get_available_invoices floats (plain "")
    (@PDFGenerator.filter_data_by_invoice floats (plain "") (Value (PList mixed_records))
       "B") = [lit "B"].
Proof.
  destruct (@KeyFacts.filter_then_invoices floats (plain "") (Frame scenario_a) "INV-1")
    as [_ A].
  destruct (@KeyFacts.filter_then_invoices floats (plain "") (Frame scenario_a) "INV-2")
    as [_ B].
  destruct (@KeyFacts.filter_then_invoices floats (plain "") (Value (PList mixed_records))
              "B") as [_ C].
  destruct A as [A _]; [vm_compute; reflexivity|].
  destruct B as [B _]; [vm_compute; reflexivity|].
  destruct C as [C _]; [vm_compute; reflexivity|].
  rewrite A, B, C. repeat split; vm_compute; reflexivity.
Defined.

Example scenario_a_invoices :
  @PDFGenerator.get_available_invoices floats (plain "") (Frame scenario_a) = [lit "INV-1"] /\
  @PDFGenerator.filter_data_by_invoice floats (plain "") (Frame scenario_a) "INV-1" =
    Frame scenario_a.
Proof. split; vm_compute; reflexivity. Qed.

(** Scenario B: the number 7 under [id] is listed as the text [7]. *)
Example scenario_b_invoices :
  @PDFGenerator.get_available_invoices floats (plain "") (Value (PList scenario_b)) =
    [lit "7"].
Proof. vm_compute. reflexivity. Qed.

End KeyExamples.

(** ** Loading *)

Module LoaderFacts.
Section Facts.
Context {FM : FloatModel} {H : Host}.

Lemma try_encodings_raise (file_path : str) (encs : list str) (e : exn) :
  attempts_end_with file_path encs e <->
  PDFGenerator.try_encodings file_path encs = Raise e.
Proof.
  induction encs as [|enc rest IH]; simpl.
  - destruct (pd_read_csv file_path "utf-8" true); simpl; split; congruence.
  - destruct (pd_read_csv file_path enc false) as [df|e0] eqn:E.
    + split; [|discriminate].
      intros [[E' _]|[e1 [E' _]]]; discriminate.
    + destruct (is_unicode_error e0) eqn:U.
      * rewrite <- IH. split.
        -- intros [[E' U']|[e1 [E' [_ A]]]]; [congruence|exact A].
        -- intros A. right. now exists e0.
      * split.
        -- intros [[E' _]|[e1 [E' [U' _]]]]; congruence.
        -- intros E'. left. split; congruence.
Qed.

Lemma try_encodings_ok (file_path : str) (encs : list str) (df : DataFrame) (msg : str) :
  PDFGenerator.try_encodings file_path encs = Ok (df, msg) ->
  exists enc flag, pd_read_csv file_path enc flag = Ok df.
Proof.
  induction encs as [|enc rest IH]; simpl.
  - destruct (pd_read_csv file_path "utf-8" true) eqn:E; simpl; [|discriminate].
    intros E'. inversion E'; subst. now exists (lit "utf-8"), true.
  - destruct (pd_read_csv file_path enc false) as [d|e0] eqn:E.
    + intros E'. inversion E'; subst. now exists enc, false.
    + destruct (is_unicode_error e0); [exact IH|discriminate].
Qed.

(** C7, as the code has it.  Neither loader raises: [read_csv_file] ends
    with a frame that [read_csv] gave or with the empty frame, and prints
    one line; [SchetGenerator.read_csv_file] is the same function.  A
    decode error under one encoding is not a failure: the next encoding is
    tried.  When the attempts end with an exception (one that is not a
    decode error, or the exception of the last attempt), the result is the
    empty frame and the exception is printed.  When reading or parsing the
    JSON file raises, [read_json_file] returns the empty list and prints
    the exception. *)
Theorem loaders_fail_to_empty (file_path : str) (w : World) :
  (exists df msg,
     PDFGenerator.read_csv_file file_path w = (df, say msg w) /\
     ((exists enc flag, pd_read_csv file_path enc flag = Ok df) \/
      (df = empty_frame /\
       exists e, attempts_end_with file_path encodings e /\ msg = csv_failure e))) /\
  SchetGenerator.read_csv_file file_path w = PDFGenerator.read_csv_file file_path w /\
  (forall e, attempts_end_with file_path encodings e ->
             PDFGenerator.read_csv_file file_path w =
               (empty_frame, say (csv_failure e) w)) /\
  (forall e0 df,
     pd_read_csv file_path "utf-8" false = Raise e0 ->
     is_unicode_error e0 = true ->
     pd_read_csv file_path "cp1251" false = Ok df ->
     fst (PDFGenerator.read_csv_file file_path w) = df) /\
  (exists l msg,
     PDFGenerator.read_json_file file_path w = (l, say msg w) /\
     ((exists v, json_load file_path = Ok v) \/
      (l = [] /\ exists e, json_load file_path = Raise e /\ msg = json_failure e))) /\
  (forall e, json_load file_path = Raise e ->
             PDFGenerator.read_json_file file_path w = ([], say (json_failure e) w)).
Proof.
  unfold PDFGenerator.read_csv_file, PDFGenerator.read_json_file.
  fold encodings. repeat split.
  - destruct (PDFGenerator.try_encodings file_path encodings) as [[df msg]|e] eqn:E.
    + exists df, msg. split; [reflexivity|]. left. exact (try_encodings_ok _ _ _ _ E).
    + exists empty_frame, (csv_failure e). split; [reflexivity|]. right.
      split; [reflexivity|]. exists e. split; [|reflexivity].
      now apply try_encodings_raise.
  - intros e A. apply try_encodings_raise in A. now rewrite A.
  - intros e0 df E0 U E1. unfold encodings. simpl. now rewrite E0, U, E1.
  - destruct (json_load file_path) as [v|e] eqn:E.
    + eexists. eexists. split; [reflexivity|]. left. now exists v.
    + eexists. eexists. split; [reflexivity|]. right.
      split; [reflexivity|]. now exists e.
  - intros e E. now rewrite E.
Qed.

(** C8.  When the JSON document is a single object, [read_json_file]
    returns a list of length one whose only record is that object, with
    all its fields; when the document is a list, it returns that list. *)
Theorem single_object_is_wrapped (file_path : str) (w : World) :
  (forall d : record,
     json_load file_path = Ok (PDict d) ->
     fst (PDFGenerator.read_json_file file_path w) = [PDict d] /\
     length (fst (PDFGenerator.read_json_file file_path w)) = 1) /\
  (forall l : list pyval,
     json_load file_path = Ok (PList l) ->
     fst (PDFGenerator.read_json_file file_path w) = l).
Proof.
  unfold PDFGenerator.read_json_file. split.
  - intros d E. rewrite E. split; reflexivity.
  - intros l E. rewrite E. reflexivity.
Qed.

End Facts.

Import Sample.

(** C7 fails as stated for a decode error: on [cp1251_host] the first
    attempt raises a decode error, and the loader returns the two rows read
    with the next encoding, not the empty frame. *)
Lemma decode_error_is_retried :
  @pd_read_csv floats cp1251_host "data/scheta.csv" "utf-8" false = Raise decode_error /\
  is_unicode_error decode_error = true /\
  fst (@PDFGenerator.read_csv_file floats cp1251_host "data/scheta.csv" world0) = scenario_a /\
  fst (@PDFGenerator.read_csv_file floats cp1251_host "data/scheta.csv" world0) <> empty_frame.
Proof.
  repeat split; try (vm_compute; reflexivity). vm_compute. discriminate.
Qed.

Lemma loaders_fail_to_empty_witness :
  @PDFGenerator.read_csv_file floats (empty_host true true) "data/none.csv" world0 =
    (empty_frame, say (csv_failure missing) world0) /\
  fst (@PDFGenerator.read_csv_file floats cp1251_host "data/scheta.csv" world0) = scenario_a /\
  @PDFGenerator.read_json_file floats (empty_host true true) "data/none.json" world0 =
    ([], say (json_failure missing) world0).
Proof.
  split; [|split].
  - apply (@loaders_fail_to_empty floats (empty_host true true) "data/none.csv" world0).
    simpl. left. split; reflexivity.
  - apply (proj1 (proj2 (proj2 (proj2
             (@loaders_fail_to_empty floats cp1251_host "data/scheta.csv" world0)))) decode_error);
      reflexivity.
  - apply (@loaders_fail_to_empty floats (empty_host true true) "data/none.json" world0).
    reflexivity.
Defined.

Lemma single_object_is_wrapped_witness :
  fst (@PDFGenerator.read_json_file floats cp1251_host "data/one.json" world0) =
    [PDict [(lit "id", PInt 7); (lit "total", PInt 100)]] /\
  length (fst (@PDFGenerator.read_json_file floats cp1251_host "data/one.json" world0)) = 1.
Proof.
  apply (proj1 (@single_object_is_wrapped floats cp1251_host "data/one.json" world0)).
  reflexivity.
Defined.

End LoaderFacts.

(** ** Backend selection *)

Module BackendFacts.
Section Facts.
Context {FM : FloatModel} {H : Host}.

Lemma say_all_stdout (lines : list str) (w : World) :
  fold_left (fun w line => say line w) lines w =
  mk_world (stdout w ++ lines) (counter_file w) (counter_writable w)
           (clock_reads w) (pdf_files w).
Proof.
  revert w. induction lines as [|l lines IH]; intros w; simpl.
  - rewrite app_nil_r. now destruct w.
  - rewrite IH. simpl. now rewrite <- app_assoc.
Qed.


End Facts.

Import Sample.


End BackendFacts.

(** ** The invoice counter *)

Module CounterFacts.
Section Facts.
Context {FM : FloatModel} {H : Host}.

Lemma next_number_stored (w : World) (d : record) (n : Z) :
  counter_file w = Some (Ok (PDict d)) ->
  dict_get d "counter" (PInt 0) = PInt n ->
  counter_writable w = true ->
  SchetGenerator.get_next_invoice_number w =
    ("СЧ-" +++ format_03d (n + 1), SchetGenerator.set_counter_file (stored (n + 1)) w).
Proof.
  intros Ef Ed Ew.
  unfold SchetGenerator.get_next_invoice_number, SchetGenerator.next_number_try.
  rewrite Ef. cbn [bind]. rewrite Ed. cbn [bind py_add_one as_int]. rewrite Ew.
  reflexivity.
Qed.

Lemma next_number_absent (w : World) :
  counter_file w = None ->
  counter_writable w = true ->
  SchetGenerator.get_next_invoice_number w =
    (lit "СЧ-001", SchetGenerator.set_counter_file (stored 1) w).
Proof.
  intros Ef Ew.
  unfold SchetGenerator.get_next_invoice_number, SchetGenerator.next_number_try.
  rewrite Ef. cbn [bind py_add_one as_int]. rewrite Ew. reflexivity.
Qed.

Lemma zfill_length (width : nat) (s : str) : width <= length (zfill width s).
Proof.
  unfold zfill. rewrite length_app, repeat_length. lia.
Qed.

Lemma format_03d_at_least_3 (z : Z) : 3 <= length (format_03d z).
Proof.
  unfold format_03d. destruct (z <? 0)%Z.
  - pose proof (zfill_length 2 (str_of_Z (Z.abs z))). cbn [length]. lia.
  - apply zfill_length.
Qed.

Lemma format_03d_upto_999 (z : Z) :
  (0 <= z <= 999)%Z -> length (format_03d z) = 3.
Proof.
  intros Hz.
  assert (A : forallb (fun k => length (format_03d (Z.of_nat k)) =? 3) (seq 0 1000) = true)
    by (vm_compute; reflexivity).
  rewrite forallb_forall in A.
  specialize (A (Z.to_nat z)). rewrite Z2Nat.id in A by lia.
  apply Nat.eqb_eq, A, in_seq. lia.
Qed.

(** C5, as the code has it.  With no counter file the first call returns
    [СЧ-001] and leaves the file holding counter 1, and the next call
    returns [СЧ-002] and leaves 2.  In general a call that finds the stored
    counter [n] (0 when the key is missing) writes back [n+1] and returns
    the prefix followed by [n+1] padded with zeros to at least three
    characters: exactly three digits from 0 to 999, more beyond. *)
Theorem counter_sequence :
  (forall w : World,
     counter_file w = None -> counter_writable w = true ->
     let first := SchetGenerator.get_next_invoice_number w in
     let second := SchetGenerator.get_next_invoice_number (snd first) in
     fst first = lit "СЧ-001" /\ counter_file (snd first) = stored 1 /\
     fst second = lit "СЧ-002" /\ counter_file (snd second) = stored 2) /\
  (forall (w : World) (d : record) (n : Z),
     counter_file w = Some (Ok (PDict d)) ->
     dict_get d "counter" (PInt 0) = PInt n ->
     counter_writable w = true ->
     SchetGenerator.get_next_invoice_number w =
       ("СЧ-" +++ format_03d (n + 1),
        SchetGenerator.set_counter_file (stored (n + 1)) w)) /\
  (forall z : Z, 3 <= length (format_03d z)) /\
  (forall z : Z, (0 <= z <= 999)%Z -> length (format_03d z) = 3).
Proof.
  split; [|split; [exact next_number_stored|split;
    [exact format_03d_at_least_3|exact format_03d_upto_999]]].
  intros w Ef Ew. cbv zeta.
  rewrite (next_number_absent w Ef Ew). cbn [fst snd].
  rewrite (next_number_stored (SchetGenerator.set_counter_file (stored 1) w)
             [(lit "counter", PInt 1)] 1 eq_refl eq_refl Ew).
  repeat split.
Qed.

End Facts.

Import Sample.

(** C5 fails as stated beyond 999: with the stored counter 999 the call
    returns [СЧ-1000], four digits after the prefix. *)
Lemma counter_outgrows_three_digits :
  fst (@SchetGenerator.get_next_invoice_number floats (empty_host true true)
         (world_with_counter 999)) = lit "СЧ-1000" /\
  format_03d 1000 = lit "1000" /\
  length (format_03d 1000) = 4.
Proof.
  repeat split; vm_compute; reflexivity.
Qed.

Lemma counter_sequence_witness :
  (fst (@SchetGenerator.get_next_invoice_number floats (empty_host true true) world0) =
     lit "СЧ-001" /\
   counter_file (snd (@SchetGenerator.get_next_invoice_number floats (empty_host true true) world0)) =
     stored 1 /\
   fst (@SchetGenerator.get_next_invoice_number floats (empty_host true true)
          (snd (@SchetGenerator.get_next_invoice_number floats (empty_host true true) world0))) =
     lit "СЧ-002" /\
   counter_file
     (snd (@SchetGenerator.get_next_invoice_number floats (empty_host true true)
             (snd (@SchetGenerator.get_next_invoice_number floats (empty_host true true) world0)))) =
     stored 2) /\
  @SchetGenerator.get_next_invoice_number floats (empty_host true true) (world_with_counter 41) =
    ("СЧ-" +++ format_03d (41 + 1),
     SchetGenerator.set_counter_file (stored (41 + 1)) (world_with_counter 41)) /\
  length (format_03d 42) = 3.
Proof.
  destruct (@counter_sequence floats (empty_host true true)) as [A [B [_ D]]].
  split; [|split].
  - apply (A world0); reflexivity.
  - apply (B (world_with_counter 41) [(lit "counter", PInt 41)] 41%Z); reflexivity.
  - apply D. lia.
Defined.

End CounterFacts.

(** ** A new invoice *)

Module InvoiceFacts.
Section Facts.
Context {FM : FloatModel} {H : Host}.

Lemma invoice_row_spec (number customer today : str) (item : pyval) (row : record) :
  SchetGenerator.invoice_row number customer today item = Ok row ->
  row_for number customer today item row.
Proof.
  unfold SchetGenerator.invoice_row, row_for.
  destruct item as [| | | | |l|d]; try discriminate.
  destruct (py_mul (dict_get d "количество" (PInt 1))
                   (dict_get d "цена_за_единицу" (PInt 0))) as [total|e] eqn:M;
    cbn [bind]; [|discriminate].
  intros E. inversion E; subst row; clear E.
  exists d, total. repeat split; try reflexivity. exact M.
Qed.

Lemma invoice_row_total (number customer today : str) (item : pyval) :
  priced item ->
  exists row, SchetGenerator.invoice_row number customer today item = Ok row.
Proof.
  intros [d [total [-> M]]]. unfold SchetGenerator.invoice_row.
  rewrite M. cbn [bind]. eexists. reflexivity.
Qed.

(** The loop gives one record per item, in order, the i-th with the date
    of the i-th reading of the clock. *)
Lemma invoice_rows_spec (number customer : str) (items : list pyval) :
  forall (w w' : World) (data : list record),
    SchetGenerator.invoice_rows number customer items w = (Ok data, w') ->
    length data = length items /\
    forall i item row,
      nth_error items i = Some item ->
      nth_error data i = Some row ->
      row_for number customer (now_date (clock_reads w + i)) item row.
Proof.
  induction items as [|item0 rest IH]; intros w w' data; simpl.
  - intros E. inversion E; subst. split; [reflexivity|].
    intros [|i] item row; discriminate.
  - destruct (SchetGenerator.invoice_row number customer
                (now_date (clock_reads w)) item0) as [row0|e] eqn:R; [|discriminate].
    destruct (SchetGenerator.invoice_rows number customer rest (tick w))
      as [more w2] eqn:M.
    destruct more as [rows|e]; cbn [bind]; [|discriminate].
    intros E. inversion E; subst data w'; clear E.
    destruct (IH _ _ _ M) as [Hlen Hrows]. split; [simpl; now rewrite Hlen|].
    intros [|i] item row; simpl.
    + intros E1 E2. inversion E1; inversion E2; subst.
      rewrite Nat.add_0_r. now apply invoice_row_spec.
    + intros E1 E2. specialize (Hrows i item row E1 E2).
      cbn [clock_reads tick] in Hrows.
      now replace (clock_reads w + S i) with (S (clock_reads w) + i) by lia.
Qed.

Lemma invoice_rows_total (number customer : str) (items : list pyval) :
  Forall priced items ->
  forall w, exists data w',
    SchetGenerator.invoice_rows number customer items w = (Ok data, w').
Proof.
  induction 1 as [|item rest Hp _ IH]; intros w; simpl.
  - now exists [], w.
  - destruct (invoice_row_total number customer (now_date (clock_reads w)) item Hp)
      as [row R]. rewrite R.
    destruct (IH (tick w)) as [data [w' M]]. rewrite M. cbn [bind].
    now exists (row :: data), w'.
Qed.

(** C10, as the code has it.  When every item is a dict whose quantity and
    unit price can be multiplied, [generate_new_invoice] builds a dataset.
    Its records follow the items one by one; each carries the number just
    drawn from the counter, the customer name, the status
    [Ожидает оплаты], the item's quantity (1 when omitted) and unit price
    (0 when omitted) and their product as line total.  Each record carries
    the date read from the clock when that record is built: all records
    carry the same date when the clock shows the same date at each of these
    readings. *)
Theorem new_invoice_records (customer_name : str) (items : list pyval) (w : World) :
  let number := fst (SchetGenerator.get_next_invoice_number w) in
  let start := clock_reads (snd (SchetGenerator.get_next_invoice_number w)) in
  (Forall priced items ->
   exists data w',
     SchetGenerator.new_invoice_data customer_name items w = (number, Ok data, w')) /\
  (forall number' data w',
     SchetGenerator.new_invoice_data customer_name items w = (number', Ok data, w') ->
     number' = number /\
     length data = length items /\
     (forall i item row,
        nth_error items i = Some item ->
        nth_error data i = Some row ->
        row_for number customer_name (now_date (start + i)) item row) /\
     (forall today,
        (forall i, i < length items -> now_date (start + i) = today) ->
        forall row, In row data -> dict_find row "дата" = Some (PStr today))) /\
  (forall x y : Z, py_mul (PInt x) (PInt y) = Ok (PInt (x * y))).
Proof.
  cbv zeta. unfold SchetGenerator.new_invoice_data.
  destruct (SchetGenerator.get_next_invoice_number w) as [number w1]. cbn [fst snd].
  split; [|split].
  - intros Hp. destruct (invoice_rows_total number customer_name items Hp w1)
      as [data [w' M]]. rewrite M. now exists data, w'.
  - intros number' data w'.
    destruct (SchetGenerator.invoice_rows number customer_name items w1)
      as [more w2] eqn:M.
    intros E. inversion E; subst number' more w'; clear E.
    destruct (invoice_rows_spec _ _ _ _ _ _ M) as [Hlen Hrows].
    repeat split; [exact Hlen|exact Hrows|].
    intros today Hsame row Hin.
    apply In_nth_error in Hin. destruct Hin as [i Hi].
    assert (Hlt : i < length items).
    { rewrite <- Hlen. apply nth_error_Some. congruence. }
    destruct (nth_error items i) as [item|] eqn:Hitem.
    + destruct (Hrows i item row Hitem Hi) as [d [total Hrow]].
      rewrite <- (Hsame i Hlt). apply Hrow.
    + apply nth_error_None in Hitem. lia.
  - reflexivity.
Qed.

End Facts.

Import Sample.

(** C10 fails as stated for the date: on [midnight_host] the day changes
    between the two readings of the clock, and the two records of one
    invoice carry different dates. *)
Lemma records_can_differ_in_date :
  match @SchetGenerator.new_invoice_data floats midnight_host "ООО" demo_items world0 with
  | (number, Ok [first; second], _) =>
      number = lit "СЧ-001" /\
      dict_find first "дата" = Some (PStr "2024-01-01") /\
      dict_find second "дата" = Some (PStr "2024-01-02") /\
      dict_find first "дата" <> dict_find second "дата"
  | _ => False
  end.
Proof.
  vm_compute. repeat split. discriminate.
Qed.

Lemma new_invoice_records_witness :
  exists data w',
    @SchetGenerator.new_invoice_data floats (empty_host true true) "ООО" demo_items world0 =
      (fst (@SchetGenerator.get_next_invoice_number floats (empty_host true true) world0),
       Ok data, w') /\
    length data = length demo_items.
Proof.
  pose proof (@new_invoice_records floats (empty_host true true) "ООО" demo_items world0)
    as [A [B _]].
  destruct A as [data [w' E]].
  - repeat constructor; eexists; eexists; (split; [reflexivity|reflexivity]).
  - exists data, w'. split; [exact E|]. apply (B _ _ _ E).
Defined.

End InvoiceFacts.

(** ** Rendering *)

Module RenderFacts.
Import StrFacts ReplaceFacts.
Section Facts.
Context {FM : FloatModel} {H : Host}.

Lemma placeholder_not_empty (name : str) : PDFGenerator.placeholder name <> [].
Proof. unfold PDFGenerator.placeholder. discriminate. Qed.

Lemma substitute_all_app (a b : list (str * str)) (template : str) :
  substitute_all (a ++ b) template = substitute_all b (substitute_all a template).
Proof. apply fold_left_app. Qed.

(** With safe values, the tokens that were substituted are gone. *)
Lemma all_safe_clean (reserved : list str) (subs : list (str * str)) (template : str) :
  Forall (fun sub => fst sub <> []) subs ->
  all_safe reserved subs = true ->
  forall tok, In tok reserved -> In tok (map fst subs) ->
              contains tok (substitute_all subs template) = false.
Proof.
  intros Hne Hsafe tok Hres Hin.
  destruct (contains tok (substitute_all subs template)) eqn:C; [|reflexivity].
  exfalso. apply contains_spec in C. revert C.
  apply substitute_all_clean; [|now right].
  unfold all_safe in Hsafe. rewrite forallb_forall in Hsafe.
  rewrite Forall_forall in *. intros sub Hsub. split; [now apply Hne|].
  specialize (Hsafe sub Hsub). unfold safe_for in Hsafe.
  rewrite forallb_forall in Hsafe. now apply Hsafe.
Qed.

(** After a run of replacements a token is absent if it was absent at the
    start or was the text to find of one of them, provided the values that
    were put in are safe for it. *)
Lemma put_in_clean (tok : str) (subs : list (str * str)) :
  Forall (fun sub => fst sub <> []) subs ->
  forall template,
    forallb (fun sub => safe tok (snd sub)) (put_in subs template) = true ->
    ~ occurs tok template \/ In tok (map fst subs) ->
    ~ occurs tok (substitute_all subs template).
Proof.
  induction 1 as [|[old v] subs Hold _ IH]; intros template Hs Ht.
  - destruct Ht as [Ht|[]]. exact Ht.
  - cbn [fst snd] in Hold. cbn [put_in fst snd] in Hs.
    unfold substitute_all in *. cbn [fold_left fst snd map In] in *.
    destruct (contains old template) eqn:C.
    + cbn [forallb snd] in Hs. apply andb_true_iff in Hs. destruct Hs as [S Hs].
      apply IH; [exact Hs|].
      destruct Ht as [Ht|[E|Hin]]; [left|left|now right];
        apply replace_clean; auto.
    + assert (A : ~ occurs old template)
        by (intros O; apply contains_spec in O; congruence).
      rewrite (replace_absent old v template Hold A).
      apply IH; [exact Hs|].
      destruct Ht as [Ht|[E|Hin]]; [now left|left; now subst tok|now right].
Qed.

Lemma put_in_safe_clean (reserved : list str) (subs : list (str * str)) (template : str) :
  Forall (fun sub => fst sub <> []) subs ->
  all_safe reserved (put_in subs template) = true ->
  forall tok, In tok reserved -> In tok (map fst subs) ->
              contains tok (substitute_all subs template) = false.
Proof.
  intros Hne Hsafe tok Hres Hin.
  destruct (contains tok (substitute_all subs template)) eqn:C; [|reflexivity].
  exfalso. apply contains_spec in C. revert C.
  apply put_in_clean; [exact Hne| |now right].
  unfold all_safe in Hsafe. rewrite forallb_forall in *.
  intros sub Hsub. specialize (Hsafe sub Hsub). unfold safe_for in Hsafe.
  rewrite forallb_forall in Hsafe. now apply Hsafe.
Qed.

(** In a frame with a row, the loop over the columns replaces every
    column placeholder: where it is absent, replacing changes nothing. *)
Lemma column_loop (df : DataFrame) (cols : list str) :
  (0 <? length (rows df)) = true ->
  forall html,
    fold_left
      (fun html col =>
         if contains (PDFGenerator.placeholder col) html && (0 <? length (rows df))
         then replace html (PDFGenerator.placeholder col)
                (py_str (cell df col (row_series df (hd [] (rows df)))))
         else html) cols html =
    substitute_all
      (map (fun col => (PDFGenerator.placeholder col,
                        py_str (cell df col (row_series df (hd [] (rows df)))))) cols)
      html.
Proof.
  intros Hrows. rewrite Hrows. unfold substitute_all.
  induction cols as [|col cols IH]; intros html; [reflexivity|].
  cbn [fold_left map fst snd]. rewrite andb_true_r.
  destruct (contains (PDFGenerator.placeholder col) html) eqn:C.
  - apply IH.
  - rewrite (replace_absent (PDFGenerator.placeholder col)).
    + apply IH.
    + apply placeholder_not_empty.
    + intros O. apply contains_spec in O. congruence.
Qed.

Lemma record_loop (d : record) :
  forall html,
    fold_left
      (fun html kv => replace html (PDFGenerator.placeholder (fst kv)) (py_str (snd kv)))
      d html =
    substitute_all
      (map (fun kv => (PDFGenerator.placeholder (fst kv), py_str (snd kv))) d) html.
Proof.
  unfold substitute_all. induction d as [|kv d IH]; intros html; [reflexivity|].
  cbn [fold_left map fst snd]. apply IH.
Qed.

Lemma frame_rendered (template : str) (df : DataFrame) (invoice_id : str) :
  frame_empty df = false ->
  PDFGenerator.render_content template (Frame df) invoice_id =
    Ok (substitute_all (frame_substitutions df invoice_id) template).
Proof.
  intros Hne. unfold PDFGenerator.render_content. rewrite Hne. cbn [negb].
  rewrite column_loop.
  - unfold frame_substitutions. now rewrite substitute_all_app.
  - unfold frame_empty in Hne. destruct (columns df); [discriminate|].
    destruct (rows df); [discriminate|reflexivity].
Qed.

Lemma records_rendered (template : str) (first : pyval) (rest : list pyval)
    (invoice_id html : str) :
  PDFGenerator.render_content template (Value (PList (first :: rest))) invoice_id = Ok html ->
  exists table_html d,
    first = PDict d /\
    records_to_html (first :: rest) = Ok table_html /\
    html = substitute_all (record_substitutions table_html d invoice_id) template.
Proof.
  unfold PDFGenerator.render_content.
  destruct (records_to_html (first :: rest)) as [table_html|e]; cbn [bind]; [|discriminate].
  destruct first as [| | | | |l|d]; try discriminate.
  intros E. injection E as E. subst html.
  exists table_html, d. repeat split.
  unfold record_substitutions. rewrite substitute_all_app. apply record_loop.
Qed.

Lemma schet_rendered (template : str) (data : DataFrame) (invoice_number html : str)
    (n n' : nat) :
  frame_empty data = false ->
  SchetGenerator.render_content template data invoice_number n = (n', Ok html) ->
  exists totals total lines,
    SchetGenerator.calculate_totals data = Ok totals /\
    format_money (dict_get totals "общая_сумма" (PInt 0)) = Ok total /\
    SchetGenerator.table_lines data 1 (rows data) = Ok lines /\
    html = substitute_all
             (schet_substitutions data invoice_number n totals total lines) template.
Proof.
  intros Hne. unfold SchetGenerator.render_content.
  destruct (SchetGenerator.calculate_totals data) as [totals|e]; [|discriminate].
  rewrite Hne. cbn [negb].
  unfold schet_substitutions, substitute_all. cbn [fold_left fst snd].
  destruct (plus_ten_days _) as [due|e];
    (destruct (dict_get totals "статус" (PStr "Ожидает оплаты"))
       as [| | | |status| |] eqn:E1; try discriminate;
     destruct (dict_get totals "статус_класс" (PStr "status-pending"))
       as [| | | |class| |] eqn:E2; try discriminate;
     cbn [SchetGenerator.replace_with bind];
     destruct (format_money (dict_get totals "общая_сумма" (PInt 0)))
       as [total|e'] eqn:E3; cbn [bind]; [|discriminate];
     destruct (SchetGenerator.table_lines data 1 (rows data))
       as [lines|e'] eqn:E4; cbn [bind]; [|discriminate];
     intros E; injection E as _ E;
     exists totals, total, lines; rewrite E1, E2; cbn [text_of];
     repeat split; [exact E3|now subst html]).
Qed.

(** [render_template] is the rendered content when the template can be
    read and the rendering does not raise. *)
Lemma render_template_ok (template_path template html invoice_id : str)
    (data : anydata) (w : World) :
  read_text template_path = Ok template ->
  PDFGenerator.render_content template data invoice_id = Ok html ->
  PDFGenerator.render_template template_path data invoice_id w = (html, w).
Proof.
  intros E1 E2. unfold PDFGenerator.render_template.
  rewrite E1. cbn [bind]. now rewrite E2.
Qed.

Lemma schet_render_template_ok (template_path template html invoice_number : str)
    (data : DataFrame) (w : World) (n' : nat) :
  read_text template_path = Ok template ->
  SchetGenerator.render_content template data invoice_number (clock_reads w) = (n', Ok html) ->
  SchetGenerator.render_template template_path data invoice_number w =
    (html, SchetGenerator.set_clock n' w).
Proof.
  intros E1 E2. unfold SchetGenerator.render_template. now rewrite E1, E2.
Qed.

Lemma reserved_are_substituted (reserved : list str) (v1 v2 v3 : str)
    (t1 t2 t3 : str) (more : list (str * str)) :
  reserved = [t1; t2; t3] ->
  forall tok, In tok reserved ->
              In tok (map fst ([(t1, v1); (t2, v2); (t3, v3)] ++ more)).
Proof.
  intros -> tok [<-|[<-|[<-|[]]]]; cbn [map fst app In]; auto.
Qed.

Lemma frame_substitutions_found (df : DataFrame) (invoice_id : str) :
  Forall (fun sub => fst sub <> []) (frame_substitutions df invoice_id).
Proof.
  unfold frame_substitutions. apply Forall_app. split.
  - repeat constructor; discriminate.
  - apply Forall_forall. intros sub Hin. apply in_map_iff in Hin.
    destruct Hin as [col [<- _]]. apply placeholder_not_empty.
Qed.

Lemma record_substitutions_found (table_html : str) (d : record) (invoice_id : str) :
  Forall (fun sub => fst sub <> []) (record_substitutions table_html d invoice_id).
Proof.
  unfold record_substitutions. apply Forall_app. split.
  - repeat constructor; discriminate.
  - apply Forall_forall. intros sub Hin. apply in_map_iff in Hin.
    destruct Hin as [kv [<- _]]. apply placeholder_not_empty.
Qed.

(** C3, as the code has it.  For a non-empty dataset a successful render
    is the template after a run of [str.replace] calls: the invoice
    identifier, the style block and the table, then the fields of the
    first record, read from the row as pandas hands it out
    ([PDFGenerator]); or the nine placeholders of [SchetGenerator], its
    number first and its table last.  The output holds no reserved
    placeholder provided every value that was put in, one whose
    placeholder was found when its turn came, is safe for the reserved
    placeholders: not empty, holding none of them, not a fragment of one,
    and overlapping none at either end. *)
Theorem rendered_without_reserved :
  (forall (template : str) (df : DataFrame) (invoice_id : str),
     frame_empty df = false ->
     PDFGenerator.render_content template (Frame df) invoice_id =
       Ok (substitute_all (frame_substitutions df invoice_id) template) /\
     (all_safe reserved_pdf (put_in (frame_substitutions df invoice_id) template) = true ->
      forall tok, In tok reserved_pdf ->
        contains tok (substitute_all (frame_substitutions df invoice_id) template) = false)) /\
  (forall (template : str) (first : pyval) (rest : list pyval) (invoice_id html : str),
     PDFGenerator.render_content template (Value (PList (first :: rest))) invoice_id = Ok html ->
     exists table_html d,
       first = PDict d /\
       records_to_html (first :: rest) = Ok table_html /\
       html = substitute_all (record_substitutions table_html d invoice_id) template /\
       (all_safe reserved_pdf
          (put_in (record_substitutions table_html d invoice_id) template) = true ->
        forall tok, In tok reserved_pdf -> contains tok html = false)) /\
  (forall (template : str) (data : DataFrame) (invoice_number html : str) (n n' : nat),
     frame_empty data = false ->
     SchetGenerator.render_content template data invoice_number n = (n', Ok html) ->
     exists totals total lines,
       SchetGenerator.calculate_totals data = Ok totals /\
       format_money (dict_get totals "общая_сумма" (PInt 0)) = Ok total /\
       SchetGenerator.table_lines data 1 (rows data) = Ok lines /\
       html = substitute_all
                (schet_substitutions data invoice_number n totals total lines) template /\
       (all_safe reserved_schet
          (put_in (schet_substitutions data invoice_number n totals total lines)
                  template) = true ->
        forall tok, In tok reserved_schet -> contains tok html = false)).
Proof.
  split; [|split].
  - intros template df invoice_id Hne. split; [now apply frame_rendered|].
    intros Hsafe tok Hin.
    apply (put_in_safe_clean reserved_pdf); auto using frame_substitutions_found.
    revert tok Hin. now apply reserved_are_substituted.
  - intros template first rest invoice_id html E.
    destruct (records_rendered _ _ _ _ _ E) as [table_html [d [E1 [E2 E3]]]].
    exists table_html, d. repeat split; try assumption.
    intros Hsafe tok Hin. rewrite E3.
    apply (put_in_safe_clean reserved_pdf); auto using record_substitutions_found.
    revert tok Hin. now apply reserved_are_substituted.
  - intros template data invoice_number html n n' Hne E.
    destruct (schet_rendered _ _ _ _ _ _ Hne E) as [totals [total [lines [E1 [E2 [E3 E4]]]]]].
    exists totals, total, lines. repeat split; try assumption.
    intros Hsafe tok Hin. rewrite E4.
    apply (put_in_safe_clean reserved_schet); auto.
    + repeat constructor; discriminate.
    + destruct Hin as [<-|[<-|[<-|[]]]]; cbn [schet_substitutions map fst In]; auto 10.
Qed.

End Facts.

Import Sample.

(** C3 fails as stated: the invoice identifier [{{invoice_id}}] is put in
    place of the placeholder and is never replaced again, so the output of
    a successful render on a non-empty frame holds the reserved token. *)
Lemma identifier_can_be_a_token :
  frame_empty nameless_frame = false /\
  fst (@PDFGenerator.render_template floats (plain "<h1>{{invoice_id}}</h1>")
         "templates/invoice.html" (Frame nameless_frame) "{{invoice_id}}" world0) =
    lit "<h1>{{invoice_id}}</h1>" /\
  contains "{{invoice_id}}"
    (fst (@PDFGenerator.render_template floats (plain "<h1>{{invoice_id}}</h1>")
            "templates/invoice.html" (Frame nameless_frame) "{{invoice_id}}" world0)) = true.
Proof.
  repeat split; vm_compute; reflexivity.
Qed.

(** A fragment of a token is enough when the template holds the rest:
    the identifier [voice] completes [{{invoice_id}}]. *)
Lemma fragment_completes_a_token :
  fst (@PDFGenerator.render_template floats (plain "{{in{{invoice_id}}_id}}")
         "templates/invoice.html" (Frame nameless_frame) "voice" world0) =
    lit "{{invoice_id}}".
Proof. vm_compute. reflexivity. Qed.

Lemma rendered_without_reserved_witness :
  (contains "{{invoice_id}}"
     (substitute_all (@frame_substitutions floats (plain "") scenario_a "INV-1")
        invoice_template) = false /\
   contains "{{css_styles}}"
     (substitute_all (@frame_substitutions floats (plain "") scenario_a "INV-1")
        invoice_template) = false /\
   contains "{{data_table}}"
     (substitute_all (@frame_substitutions floats (plain "") scenario_a "INV-1")
        invoice_template) = false) /\
  (exists html,
     @PDFGenerator.render_content floats (plain "") invoice_template
        (Value (PList scenario_b)) "7" = Ok html /\
     contains "{{invoice_id}}" html = false /\
     contains "{{css_styles}}" html = false /\
     contains "{{data_table}}" html = false) /\
  (exists html,
     @SchetGenerator.render_content floats (plain "") schet_template scenario_a "INV-1" 0 =
       (2, Ok html) /\
     contains "{{номер_счета}}" html = false /\
     contains "{{css_styles}}" html = false /\
     contains "{{data_table}}" html = false).
Proof.
  destruct (@rendered_without_reserved floats (plain "")) as [A [B C]].
  split; [|split].
  - destruct (A invoice_template scenario_a (lit "INV-1") eq_refl) as [_ A'].
    assert (S : all_safe reserved_pdf
                  (put_in (@frame_substitutions floats (plain "") scenario_a "INV-1")
                          invoice_template) = true)
      by (vm_compute; reflexivity).
    repeat split; apply (A' S); cbn [reserved_pdf In]; auto.
  - destruct (@PDFGenerator.render_content floats (plain "") invoice_template
                (Value (PList scenario_b)) "7") as [html|e] eqn:E;
      [|vm_compute in E; discriminate E].
    exists html. split; [reflexivity|].
    destruct (B _ _ _ _ _ E) as [table_html [d [E1 [E2 [_ B']]]]].
    injection E1 as <-. vm_compute in E2. injection E2 as <-.
    assert (S : all_safe reserved_pdf
                  (put_in (@record_substitutions floats (plain "") "<table></table>"
                             [(lit "id", PInt 7); (lit "total", PInt 100)] "7")
                          invoice_template) = true)
      by (vm_compute; reflexivity).
    repeat split; apply (B' S); cbn [reserved_pdf In]; auto.
  - destruct (@SchetGenerator.render_content floats (plain "") schet_template
                scenario_a "INV-1" 0) as [m [html|e]] eqn:E;
      [|vm_compute in E; discriminate E].
    assert (m = 2) as -> by (vm_compute in E; now injection E as <- _).
    exists html. split; [reflexivity|].
    destruct (C schet_template scenario_a (lit "INV-1") html 0 2 eq_refl E)
      as [totals [total [lines [E1 [E2 [E3 [_ C']]]]]]].
    vm_compute in E1. injection E1 as <-.
    vm_compute in E2. injection E2 as <-.
    vm_compute in E3. injection E3 as <-.
    repeat split; apply C'; try (vm_compute; reflexivity);
      cbn [reserved_schet In]; auto.
Defined.

End RenderFacts.

(** ** Invoices listed and records kept *)

Module KeyAlgebra.
Import StrFacts ListFacts.

Lemma str_compare_antisym (a b : str) :
  str_compare b a = CompOpp (str_compare a b).
Proof.
  revert b. induction a as [|x a IH]; intros [|y b]; simpl; try reflexivity.
  rewrite (N.compare_antisym (N_of_ascii x) (N_of_ascii y)).
  destruct (N.compare (N_of_ascii x) (N_of_ascii y)); simpl; auto.
Qed.

Lemma str_compare_lt_trans (a b c : str) :
  str_compare a b = Lt -> str_compare b c = Lt -> str_compare a c = Lt.
Proof.
  revert b c. induction a as [|x a IH]; intros [|y b] [|z c]; simpl;
    try discriminate; try reflexivity.
  destruct (N.compare (N_of_ascii x) (N_of_ascii y)) eqn:Exy; try discriminate;
    destruct (N.compare (N_of_ascii y) (N_of_ascii z)) eqn:Eyz; try discriminate.
  - apply N.compare_eq in Exy, Eyz. rewrite Exy, Eyz, N.compare_refl. apply IH.
  - apply N.compare_eq in Exy. rewrite Exy, Eyz. reflexivity.
  - apply N.compare_eq in Eyz. rewrite <- Eyz, Exy. reflexivity.
  - intros _ _. rewrite N.compare_lt_iff in *.
    assert (L : (N_of_ascii x < N_of_ascii z)%N) by lia.
    apply N.compare_lt_iff in L. now rewrite L.
Qed.

Lemma str_compare_irrefl (a : str) : str_compare a a <> Lt.
Proof. rewrite str_compare_refl. discriminate. Qed.

Lemma insert_sorted_head (x y : str) (l : list str) :
  str_compare y x = Lt ->
  HdRel (fun a b => str_compare a b = Lt) y l ->
  HdRel (fun a b => str_compare a b = Lt) y (insert_sorted x l).
Proof.
  intros Hyx Hd. destruct l as [|z l]; simpl.
  - now constructor.
  - inversion Hd; subst. destruct (str_compare x z); now constructor.
Qed.

Lemma insert_sorted_ascending (x : str) (l : list str) :
  ascending l -> ascending (insert_sorted x l).
Proof.
  unfold ascending. induction 1 as [|y l Hs IH Hd]; simpl.
  - repeat constructor.
  - destruct (str_compare x y) eqn:E.
    + now constructor.
    + constructor; [now constructor|now constructor].
    + constructor; [exact IH|].
      apply insert_sorted_head; [|exact Hd].
      rewrite str_compare_antisym, E. reflexivity.
Qed.

Lemma sorted_set_ascending (l : list str) : ascending (sorted_set l).
Proof.
  induction l as [|x l IH]; simpl; [constructor|].
  now apply insert_sorted_ascending.
Qed.

(** Two strictly increasing lists with the same elements are equal. *)
Lemma ascending_unique (l1 l2 : list str) :
  ascending l1 -> ascending l2 ->
  (forall x, In x l1 <-> In x l2) -> l1 = l2.
Proof.
  unfold ascending. intros S1 S2.
  apply Sorted_StronglySorted in S1; [|exact str_compare_lt_trans].
  apply Sorted_StronglySorted in S2; [|exact str_compare_lt_trans].
  revert l2 S2. induction S1 as [|x1 t1 St1 IH H1]; intros l2 S2 Hin.
  - destruct l2 as [|x2 t2]; [reflexivity|].
    destruct (proj2 (Hin x2) (or_introl eq_refl)).
  - destruct S2 as [|x2 t2 St2 H2].
    { destruct (proj1 (Hin x1) (or_introl eq_refl)). }
    rewrite Forall_forall in H1, H2.
    assert (E : x1 = x2).
    { destruct (proj1 (Hin x1) (or_introl eq_refl)) as [E|I1]; [now symmetry|].
      destruct (proj2 (Hin x2) (or_introl eq_refl)) as [E|I2]; [exact E|].
      exfalso. apply (str_compare_irrefl x1).
      apply (str_compare_lt_trans x1 x2 x1); auto. }
    subst x2. f_equal. apply IH; [exact St2|].
    intros x. split; intros I.
    + destruct (proj1 (Hin x) (or_intror I)) as [E|I']; [|exact I'].
      subst x. exfalso. apply (str_compare_irrefl x1). now apply H1.
    + destruct (proj2 (Hin x) (or_intror I)) as [E|I']; [|exact I'].
      subst x. exfalso. apply (str_compare_irrefl x1). now apply H2.
Qed.

Lemma sorted_set_same_elements (l1 l2 : list str) :
  (forall x, In x l1 <-> In x l2) -> sorted_set l1 = sorted_set l2.
Proof.
  intros Hin. apply ascending_unique; try apply sorted_set_ascending.
  intros x. rewrite !In_sorted_set. apply Hin.
Qed.

Section Facts.
Context {FM : FloatModel} {H : Host}.

(** X1.  For a JSON list, and for a frame whose key column has no missing
    cell, the invoices listed are the texts of the keys of the rows or
    records, neither more nor less, in strictly increasing order, each
    once. *)
Theorem invoices_ascending (data : anydata) :
  no_missing_key data = true ->
  ascending (PDFGenerator.get_available_invoices data) /\
  NoDup (PDFGenerator.get_available_invoices data) /\
  forall id, In id (PDFGenerator.get_available_invoices data) <->
             held_under_key data id = true.
Proof.
  intros _.
  assert (A : ascending (PDFGenerator.get_available_invoices data))
    by apply sorted_set_ascending.
  split; [exact A|]. split.
  - unfold ascending in A.
    apply Sorted_StronglySorted in A; [|exact str_compare_lt_trans].
    induction A as [|x l Hs IH Hx]; constructor; [|exact IH].
    intros Hin. rewrite Forall_forall in Hx.
    apply (str_compare_irrefl x). now apply Hx.
  - intros id. rewrite KeyFacts.held_iff_listed, existsb_exists. split.
    + intros I. exists id. split; [exact I|apply str_eqb_refl].
    + intros [x [I E]]. apply str_eqb_eq in E. now subst x.
Qed.

(** X2.  The order of the rows or records does not matter to the invoices
    listed. *)
Theorem invoices_order_independent :
  (forall (cols : list str) (rows1 rows2 : list (list pyval)),
     Permutation rows1 rows2 ->
     PDFGenerator.get_available_invoices (Frame (mk_frame cols rows1)) =
     PDFGenerator.get_available_invoices (Frame (mk_frame cols rows2))) /\
  (forall items1 items2 : list pyval,
     Permutation items1 items2 ->
     PDFGenerator.get_available_invoices (Value (PList items1)) =
     PDFGenerator.get_available_invoices (Value (PList items2))).
Proof.
  split.
  - intros cols rows1 rows2 P. unfold PDFGenerator.get_available_invoices.
    cbn [columns]. destruct (filter PDFGenerator.is_invoice_key cols) as [|c _];
      [reflexivity|].
    apply sorted_set_same_elements. intros x. unfold column. cbn [rows].
    rewrite !in_map_iff. split; intros [v [E I]]; exists v; (split; [exact E|]);
      rewrite in_map_iff in *; destruct I as [r [Er Ir]]; exists r;
      (split; [exact Er|]).
    + now apply (Permutation_in _ P).
    + now apply (Permutation_in _ (Permutation_sym P)).
  - intros items1 items2 P. unfold PDFGenerator.get_available_invoices.
    apply sorted_set_same_elements. intros x. rewrite !in_flat_map.
    split; intros [item [I E]]; exists item; (split; [|exact E]).
    + now apply (Permutation_in _ P).
    + now apply (Permutation_in _ (Permutation_sym P)).
Qed.

Lemma filter_twice {A} (p : A -> bool) (l : list A) :
  filter p (filter p l) = filter p l.
Proof.
  induction l as [|x l IH]; simpl; [reflexivity|].
  destruct (p x) eqn:E; simpl; [rewrite E, IH|]; auto.
Qed.

Lemma filter_empty_iff {A} (p : A -> bool) (l : list A) :
  length (filter p l) <> 0 <-> exists x, In x l /\ p x = true.
Proof.
  split.
  - destruct (filter p l) as [|x t] eqn:F; [intros N; now elim N|].
    intros _. exists x. apply filter_In. rewrite F. now left.
  - intros [x Hx]. apply filter_In in Hx.
    destruct (filter p l); [destruct Hx|discriminate].
Qed.

(** X3.  Filtering a second time by the same identifier changes nothing, in
    both classes. *)
Theorem filter_idempotent :
  (forall (data : anydata) (id : str),
     PDFGenerator.filter_data_by_invoice
       (PDFGenerator.filter_data_by_invoice data id) id =
     PDFGenerator.filter_data_by_invoice data id) /\
  (forall (df : DataFrame) (number : str),
     SchetGenerator.filter_data_by_invoice
       (SchetGenerator.filter_data_by_invoice df number) number =
     SchetGenerator.filter_data_by_invoice df number).
Proof.
  split.
  - intros [df|v] id.
    + unfold PDFGenerator.filter_data_by_invoice.
      destruct (filter PDFGenerator.is_invoice_key (columns df)) as [|c rest] eqn:F.
      * now rewrite F.
      * cbn [columns rows]. rewrite F. do 2 f_equal.
        apply (filter_twice (fun r => str_eqb (py_str (cell df c r)) id)).
    + destruct v as [| | | | |items|d]; try reflexivity.
      unfold PDFGenerator.filter_data_by_invoice.
      rewrite !KeyFacts.keep_items_filter. now rewrite filter_twice.
  - intros df number.
    assert (S : forall c,
               SchetGenerator.select_rows (SchetGenerator.select_rows df c number) c number =
               SchetGenerator.select_rows df c number).
    { intros c. unfold SchetGenerator.select_rows. cbn [columns rows]. f_equal.
      apply (filter_twice (fun r => eq_text (cell df c r) number)). }
    pose proof (KeyFacts.schet_by_key df number) as E.
    destruct (key_column df) as [c|] eqn:K; destruct E as [_ E]; rewrite E.
    + pose proof (KeyFacts.schet_by_key (SchetGenerator.select_rows df c number) number)
        as E'.
      change (key_column (SchetGenerator.select_rows df c number))
        with (key_column df) in E'.
      rewrite K in E'. destruct E' as [_ E']. rewrite E'. apply S.
    + exact E.
Qed.

Lemma frame_listed_iff (df : DataFrame) (c id : str) :
  find PDFGenerator.is_invoice_key (columns df) = Some c ->
  In id (PDFGenerator.get_available_invoices (Frame df)) <->
  data_len (PDFGenerator.filter_data_by_invoice (Frame df) id) <> 0.
Proof.
  intros Hc. pose proof (KeyFacts.frame_by_key df id) as E.
  rewrite Hc in E. destruct E as [E1 E2]. rewrite E1, E2.
  cbn [data_len rows]. rewrite In_sorted_set, filter_empty_iff.
  unfold column. rewrite map_map, in_map_iff.
  split; intros [r [A B]]; exists r.
  - split; [exact B|now apply str_eqb_eq].
  - split; [now apply str_eqb_eq|exact A].
Qed.

Lemma list_listed_iff (items : list pyval) (id : str) :
  In id (PDFGenerator.get_available_invoices (Value (PList items))) <->
  data_len (PDFGenerator.filter_data_by_invoice (Value (PList items)) id) <> 0.
Proof.
  unfold PDFGenerator.get_available_invoices,
    PDFGenerator.filter_data_by_invoice. cbn [data_len].
  rewrite In_sorted_set, KeyFacts.keep_items_filter, filter_empty_iff, in_flat_map.
  split; intros [item [A B]]; exists item; (split; [exact A|]).
  - rewrite KeyFacts.invoice_of_item_key in B.
    destruct (record_key item) as [[d k]|]; [|destruct B].
    destruct B as [B|[]]. now apply str_eqb_eq.
  - rewrite KeyFacts.invoice_of_item_key.
    destruct (record_key item) as [[d k]|]; [|discriminate].
    left. now apply str_eqb_eq.
Qed.

(** Whatever the data, filtering by a listed identifier keeps a record. *)
Lemma listed_is_kept (data : anydata) (id : str) :
  In id (PDFGenerator.get_available_invoices data) ->
  data_len (PDFGenerator.filter_data_by_invoice data id) <> 0.
Proof.
  destruct data as [df|v].
  - destruct (find PDFGenerator.is_invoice_key (columns df)) as [c|] eqn:F.
    + apply (frame_listed_iff df c id F).
    + unfold PDFGenerator.get_available_invoices.
      rewrite (filter_nil_find _ _ F). intros [].
  - destruct v as [| | | | |items|d]; try (intros []).
    apply list_listed_iff.
Qed.

(** X4.  An identifier is listed exactly when filtering by it keeps at least
    one record: for a frame that has a key column without a missing cell,
    and for any JSON list. *)
Theorem listed_iff_kept :
  (forall (df : DataFrame) (c id : str),
     find PDFGenerator.is_invoice_key (columns df) = Some c ->
     no_missing_key (Frame df) = true ->
     (In id (PDFGenerator.get_available_invoices (Frame df)) <->
      data_len (PDFGenerator.filter_data_by_invoice (Frame df) id) <> 0)) /\
  (forall (items : list pyval) (id : str),
     In id (PDFGenerator.get_available_invoices (Value (PList items))) <->
     data_len (PDFGenerator.filter_data_by_invoice (Value (PList items)) id) <> 0).
Proof.
  split; [|exact list_listed_iff].
  intros df c id Hc _. exact (frame_listed_iff df c id Hc).
Qed.

End Facts.
End KeyAlgebra.

(** ** The sequence of invoice numbers *)

Module NumberFacts.
Import StrFacts.

Lemma lit_string (s : String.string) : String.string_of_list_ascii (lit s) = s.
Proof. apply String.string_of_list_ascii_of_string. Qed.

Lemma zeros_in_front (k : nat) (d : Decimal.uint) :
  repeat "0"%char k ++ lit (DecimalString.NilEmpty.string_of_uint d) =
  lit (DecimalString.NilEmpty.string_of_uint (Nat.iter k Decimal.D0 d)).
Proof.
  induction k as [|k IH]; [reflexivity|].
  cbn [repeat app Nat.iter]. rewrite IH. reflexivity.
Qed.

Lemma of_uint_zeros (k : nat) (d : Decimal.uint) :
  Z.of_uint (Nat.iter k Decimal.D0 d) = Z.of_uint d.
Proof.
  induction k as [|k IH]; [reflexivity|]. cbn [Nat.iter]. exact IH.
Qed.

(** The digits [str] writes for a whole number that is not negative. *)
Lemma digits_of_nonnegative (z : Z) :
  (0 <= z)%Z ->
  exists d, str_of_Z z = lit (DecimalString.NilEmpty.string_of_uint d) /\
            Z.of_uint d = z.
Proof.
  intros Hz. unfold str_of_Z. destruct z as [|p|p]; [| |lia].
  - exists Decimal.zero. split; reflexivity.
  - exists (Pos.to_uint p). split.
    + cbn [Z.to_int DecimalString.NilZero.string_of_int].
      pose proof (DecimalPos.Unsigned.to_uint_nonnil p) as N.
      destruct (Pos.to_uint p); [congruence|reflexivity..].
    + exact (DecimalZ.of_to (Z.pos p)).
Qed.

(** Reading back what [{:03d}] wrote gives the number. *)
Lemma read_format_03d (z : Z) : read_number (format_03d z) = Some z.
Proof.
  unfold format_03d, zfill, read_number.
  destruct (z <? 0)%Z eqn:Neg.
  - apply Z.ltb_lt in Neg.
    destruct (digits_of_nonnegative (Z.abs z)) as [d [E V]]; [lia|].
    rewrite E, zeros_in_front.
    change ("-"%char :: lit ?s) with (lit (String.String "-"%char s)).
    change (lit (String.String "-" (DecimalString.NilEmpty.string_of_uint ?D)))
      with (lit (DecimalString.NilEmpty.string_of_int (Decimal.Neg D))).
    rewrite lit_string, DecimalString.NilEmpty.isi. cbn [option_map Z.of_int].
    rewrite of_uint_zeros, V. f_equal. lia.
  - apply Z.ltb_ge in Neg.
    destruct (digits_of_nonnegative z Neg) as [d [E V]].
    rewrite E, zeros_in_front.
    change (DecimalString.NilEmpty.string_of_uint ?D)
      with (DecimalString.NilEmpty.string_of_int (Decimal.Pos D)).
    rewrite lit_string, DecimalString.NilEmpty.isi. cbn [option_map Z.of_int].
    now rewrite of_uint_zeros, V.
Qed.

Lemma format_03d_injective (a b : Z) : format_03d a = format_03d b -> a = b.
Proof.
  intros E. apply (f_equal read_number) in E.
  rewrite !read_format_03d in E. congruence.
Qed.

Lemma map_injective_NoDup {A B} (f : A -> B) (l : list A) :
  (forall x y, f x = f y -> x = y) -> NoDup l -> NoDup (map f l).
Proof.
  intros Hf. induction 1 as [|x l Hx _ IH]; simpl; constructor; [|exact IH].
  intros Hin. apply in_map_iff in Hin. destruct Hin as [y [E Hy]].
  apply Hf in E. now subst.
Qed.

Section Facts.
Context {FM : FloatModel} {H : Host}.

(** One call from a usable counter. *)
Lemma next_from_counter (w : World) (n : Z) :
  counter_value w = Some n -> counter_writable w = true ->
  SchetGenerator.get_next_invoice_number w =
    ("СЧ-" +++ format_03d (n + 1), SchetGenerator.set_counter_file (stored (n + 1)) w).
Proof.
  unfold counter_value. intros Hv Hw.
  destruct (counter_file w) as [[v|e]|] eqn:Ef; try discriminate.
  - destruct v as [| | | | | |d]; try discriminate.
    destruct (dict_get d "counter" (PInt 0)) as [| |m| | | |] eqn:Ed; try discriminate.
    injection Hv as ->. now apply (CounterFacts.next_number_stored w d).
  - injection Hv as <-. now apply CounterFacts.next_number_absent.
Qed.

(** X5.  The number printed after the prefix determines the counter: two calls
    that start from different stored counters never return the same
    number, however many digits the numbers have. *)
Theorem numbers_distinct (w1 w2 : World) (n1 n2 : Z) :
  counter_value w1 = Some n1 -> counter_writable w1 = true ->
  counter_value w2 = Some n2 -> counter_writable w2 = true ->
  n1 <> n2 ->
  fst (SchetGenerator.get_next_invoice_number w1) <>
  fst (SchetGenerator.get_next_invoice_number w2).
Proof.
  intros V1 W1 V2 W2 Hne.
  rewrite (next_from_counter w1 n1 V1 W1), (next_from_counter w2 n2 V2 W2).
  cbn [fst]. intros E. apply app_inv_head in E.
  apply format_03d_injective in E. lia.
Qed.

(** X6.  [k] calls in a row from the counter [n] return the numbers of
    [n+1 .. n+k] in this order, all different, and leave the counter at
    [n+k]. *)
Theorem numbers_in_sequence (k : nat) :
  forall (w : World) (n : Z),
    counter_value w = Some n -> counter_writable w = true ->
    fst (draw k w) =
      map (fun i => "СЧ-" +++ format_03d (n + Z.of_nat i)) (seq 1 k) /\
    counter_value (snd (draw k w)) = Some (n + Z.of_nat k)%Z /\
    NoDup (fst (draw k w)).
Proof.
  assert (Main : forall k (w : World) (n : Z),
    counter_value w = Some n -> counter_writable w = true ->
    fst (draw k w) =
      map (fun i => "СЧ-" +++ format_03d (n + Z.of_nat i)) (seq 1 k) /\
    counter_value (snd (draw k w)) = Some (n + Z.of_nat k)%Z).
  { clear k. induction k as [|k IH]; intros w n Hv Hw.
    - cbn [draw fst snd seq map]. split; [reflexivity|].
      rewrite Hv. f_equal. lia.
    - cbn [draw]. rewrite (next_from_counter w n Hv Hw).
      destruct (draw k (SchetGenerator.set_counter_file (stored (n + 1)) w))
        as [numbers w'] eqn:D.
      destruct (IH (SchetGenerator.set_counter_file (stored (n + 1)) w) (n + 1)%Z
                  eq_refl Hw) as [E1 E2].
      rewrite D in E1, E2. cbn [fst snd] in *. split.
      + cbn [seq map]. f_equal. rewrite E1, <- (seq_shift k 1), map_map.
        apply map_ext. intros i. do 2 f_equal. lia.
      + rewrite E2. f_equal. lia. }
  intros w n Hv Hw. destruct (Main k w n Hv Hw) as [E1 E2].
  split; [exact E1|]. split; [exact E2|].
  rewrite E1. apply map_injective_NoDup; [|apply seq_NoDup].
  intros i j E. apply app_inv_head in E. apply format_03d_injective in E. lia.
Qed.

(** X7.  When the counter file cannot serve the call, the call still returns:
    the number is the prefix and the time stamp, one warning is printed,
    and the counter file is left as it was. *)
Theorem fallback_number (w : World) :
  counter_unusable w ->
  exists e,
    SchetGenerator.get_next_invoice_number w =
      ("СЧ-" +++ now_stamp (clock_reads w),
       tick (say ("⚠ Ошибка при работе со счетчиком: " +++ exn_text e) w)) /\
    counter_file (snd (SchetGenerator.get_next_invoice_number w)) = counter_file w.
Proof.
  unfold counter_unusable, SchetGenerator.get_next_invoice_number,
    SchetGenerator.next_number_try.
  destruct (counter_file w) as [[v|e]|] eqn:Ef; cbn [bind].
  - destruct v as [| | | | | |d]; cbn [bind];
      try (intros _; eexists; split; [reflexivity|cbn; now rewrite Ef]).
    intros [[e E]|Hw].
    + rewrite E. exists e. split; [reflexivity|]. cbn. now rewrite Ef.
    + destruct (py_add_one (dict_get d "counter" (PInt 0))) as [c|e].
      * rewrite Hw. eexists. split; [reflexivity|]. cbn. now rewrite Ef.
      * exists e. split; [reflexivity|]. cbn. now rewrite Ef.
  - intros _. exists e. split; [reflexivity|]. cbn. now rewrite Ef.
  - intros Hw. cbn [py_add_one as_int]. rewrite Hw.
    eexists. split; [reflexivity|]. cbn. now rewrite Ef.
Qed.

(** X8.  A counter stored as a float is advanced on disk, yet the call returns
    the time-stamp number: [{:03d}] does not format a float. *)
Theorem float_counter_advances (w : World) (d : record) (f : pyfloat) :
  counter_file w = Some (Ok (PDict d)) ->
  dict_get d "counter" (PInt 0) = PFloat f ->
  counter_writable w = true ->
  fst (SchetGenerator.get_next_invoice_number w) = "СЧ-" +++ now_stamp (clock_reads w) /\
  counter_file (snd (SchetGenerator.get_next_invoice_number w)) =
    Some (Ok (PDict [(lit "counter", PFloat (float_add f (float_of_Z 1)))])).
Proof.
  intros Ef Ed Hw.
  unfold SchetGenerator.get_next_invoice_number, SchetGenerator.next_number_try.
  rewrite Ef. cbn [bind]. rewrite Ed. cbn [bind py_add_one]. rewrite Hw.
  split; reflexivity.
Qed.

End Facts.
End NumberFacts.

(** ** Totals and the edges of rendering *)

Module RenderEdges.
Import StrFacts ReplaceFacts.
Section Facts.
Context {FM : FloatModel} {H : Host}.

(** X9.  [calculate_totals]: an empty frame has no totals.  For a frame with
    rows, the number of positions is the number of rows, the status is the
    text of the first row's [статус] cell, or [Ожидает оплаты] without such
    a column, and the CSS class is [status-paid] exactly when the status,
    in lower case, contains [оплачен]. *)
Theorem totals_consistent (data : DataFrame) :
  (frame_empty data = true -> SchetGenerator.calculate_totals data = Ok []) /\
  (forall totals,
     frame_empty data = false ->
     SchetGenerator.calculate_totals data = Ok totals ->
     dict_find totals "количество_позиций" =
       Some (PInt (Z.of_nat (length (rows data)))) /\
     exists status,
       dict_find totals "статус" = Some (PStr status) /\
       dict_find totals "статус_класс" = Some (PStr (status_class status)) /\
       (if has_column data "статус"
        then cell data "статус" (hd [] (rows data)) = PStr status
        else status = lit "Ожидает оплаты")).
Proof.
  unfold SchetGenerator.calculate_totals. split.
  - intros ->. reflexivity.
  - intros totals ->. cbn [negb].
    destruct (if has_column data "общая_сумма"
              then series_sum (column data "общая_сумма")
              else if has_column data "total"
                   then series_sum (column data "total") else Ok (PInt 0))
      as [total|e]; cbn [bind]; [|discriminate].
    destruct (has_column data "статус").
    + destruct (cell data "статус" (hd [] (rows data))) as [| | | |status| |];
        try discriminate.
      intros E. injection E as <-. split; [reflexivity|].
      exists status. repeat split.
    + intros E. injection E as <-. split; [reflexivity|].
      exists (lit "Ожидает оплаты"). repeat split.
Qed.

(** A status that denies payment also counts as paid: the test is a
    substring test. *)
Example unpaid_counts_as_paid :
  status_class "Не оплачен" = lit "status-paid" /\
  status_class "ОПЛАЧЕНО" = lit "status-paid" /\
  status_class "Ожидает оплаты" = lit "status-pending".
Proof. repeat split; vm_compute; reflexivity. Qed.

(** X10.  [SchetGenerator.render_template] on an empty frame: the defaults are
    substituted and the table placeholder becomes the paragraph
    [Данные не найдены]. *)
Theorem schet_renders_empty_frame (template invoice_number total : str)
    (data : DataFrame) (n : nat) :
  frame_empty data = true ->
  format_money (PInt 0) = Ok total ->
  snd (SchetGenerator.render_content template data invoice_number n) =
    Ok (substitute_all (empty_schet_substitutions invoice_number n total) template).
Proof.
  intros He Hm. unfold SchetGenerator.render_content, SchetGenerator.calculate_totals,
    SchetGenerator.first_row_get.
  rewrite He. cbn [negb py_str dict_get dict_find].
  unfold empty_schet_substitutions, substitute_all. cbn [fold_left fst snd].
  destruct (plus_ten_days (now_date (S n))); cbn [snd SchetGenerator.replace_with bind];
    rewrite Hm; reflexivity.
Qed.

(** X11.  [PDFGenerator.render_template] on an empty dataset (a frame without
    rows or columns, an empty list, any value that is not a list): only the
    identifier and the style block are substituted; the table placeholder
    and the field placeholders are not touched. *)
Theorem pdf_renders_empty_dataset (template invoice_id : str) (data : anydata) :
  match data with
  | Frame df => frame_empty df = true
  | Value (PList items) => items = []
  | Value _ => True
  end ->
  PDFGenerator.render_content template data invoice_id =
    Ok (replace (replace template "{{invoice_id}}" invoice_id)
                "{{css_styles}}" PDFGenerator.css_styles).
Proof.
  unfold PDFGenerator.render_content. destruct data as [df|v].
  - intros ->. reflexivity.
  - destruct v as [| | | | |items|d]; try reflexivity. intros ->. reflexivity.
Qed.

Lemma substitute_all_absent (subs : list (str * str)) (template : str) :
  Forall (fun sub => fst sub <> [] /\ contains (fst sub) template = false) subs ->
  substitute_all subs template = template.
Proof.
  unfold substitute_all. induction 1 as [|sub subs [Hne Hc] _ IH]; [reflexivity|].
  cbn [fold_left]. rewrite replace_absent; [exact IH|exact Hne|].
  intros O. apply contains_spec in O. exact (eq_true_false_abs _ O Hc).
Qed.

(** X12.  Text in which none of the placeholders to substitute occurs is
    rendered as it is: placeholders that name no field and no reserved
    token stay in the output. *)
Theorem unknown_placeholders_stay :
  (forall (template : str) (df : DataFrame) (invoice_id : str),
     frame_empty df = false ->
     forallb (fun sub => negb (contains (fst sub) template))
             (frame_substitutions df invoice_id) = true ->
     PDFGenerator.render_content template (Frame df) invoice_id = Ok template) /\
  (forall (template : str) (d : record) (rest : list pyval) (invoice_id table_html : str),
     records_to_html (PDict d :: rest) = Ok table_html ->
     forallb (fun sub => negb (contains (fst sub) template))
             (record_substitutions table_html d invoice_id) = true ->
     PDFGenerator.render_content template (Value (PList (PDict d :: rest))) invoice_id =
       Ok template).
Proof.
  split.
  - intros template df invoice_id Hne Habs.
    rewrite RenderFacts.frame_rendered by assumption. f_equal.
    apply substitute_all_absent.
    rewrite forallb_forall in Habs. apply Forall_forall. intros sub Hin.
    split.
    + pose proof (RenderFacts.frame_substitutions_found df invoice_id) as F.
      rewrite Forall_forall in F. now apply F.
    + specialize (Habs sub Hin). now apply negb_true_iff in Habs.
  - intros template d rest invoice_id table_html Ht Habs.
    destruct (PDFGenerator.render_content template (Value (PList (PDict d :: rest)))
                invoice_id) as [html|e] eqn:E.
    + destruct (RenderFacts.records_rendered _ _ _ _ _ E) as [t [d' [E1 [E2 E3]]]].
      injection E1 as <-. rewrite Ht in E2. injection E2 as <-.
      rewrite E3. f_equal. apply substitute_all_absent.
      rewrite forallb_forall in Habs. apply Forall_forall. intros sub Hin.
      split.
      * pose proof (RenderFacts.record_substitutions_found table_html d invoice_id) as F.
        rewrite Forall_forall in F. now apply F.
      * specialize (Habs sub Hin). now apply negb_true_iff in Habs.
    + exfalso. revert E. unfold PDFGenerator.render_content.
      rewrite Ht. discriminate.
Qed.

(** X13.  Rendering fails to the empty text, with one line printed and nothing
    else changed: when the template cannot be read, in both classes, and
    in [PDFGenerator] when the first record of a JSON list is not an
    object. *)
Theorem render_fails_to_empty (template_path invoice_id : str) (w : World) :
  (forall (data : anydata) (e : exn),
     read_text template_path = Raise e ->
     PDFGenerator.render_template template_path data invoice_id w =
       (lit "", say (render_failure e) w)) /\
  (forall (data : DataFrame) (e : exn),
     read_text template_path = Raise e ->
     SchetGenerator.render_template template_path data invoice_id w =
       (lit "", say (render_failure e) w)) /\
  (forall (first : pyval) (rest : list pyval),
     (forall d, first <> PDict d) ->
     exists e,
       PDFGenerator.render_template template_path (Value (PList (first :: rest)))
         invoice_id w = (lit "", say (render_failure e) w)).
Proof.
  split; [|split].
  - intros data e E. unfold PDFGenerator.render_template. now rewrite E.
  - intros data e E. unfold SchetGenerator.render_template. now rewrite E.
  - intros first rest Hnd. unfold PDFGenerator.render_template.
    destruct (read_text template_path) as [template|e]; cbn [bind].
    + unfold PDFGenerator.render_content.
      destruct (records_to_html (first :: rest)) as [t|e]; cbn [bind].
      * destruct first as [| | | | | |d]; try (eexists; reflexivity).
        now elim (Hnd d).
      * now exists e.
    + now exists e.
Qed.

Lemma table_line_shape (data : DataFrame) (i : nat) (row : list pyval) (line : list str) :
  SchetGenerator.table_line data i row = Ok line ->
  length line = 5 /\ hd [] line = str_of_Z (Z.of_nat i).
Proof.
  unfold SchetGenerator.table_line. cbv zeta.
  destruct (format_money (row_get data (row_series data row) "цена_за_единицу" (PInt 0)));
    cbn [bind]; [|discriminate].
  destruct (format_money (row_get data (row_series data row) "общая_сумма" (PInt 0)));
    cbn [bind]; [|discriminate].
  intros E. injection E as <-. split; reflexivity.
Qed.

Lemma table_lines_from (data : DataFrame) (rs : list (list pyval)) :
  forall (start : nat) (lines : list (list str)),
    SchetGenerator.table_lines data start rs = Ok lines ->
    length lines = length rs /\
    forall i line, nth_error lines i = Some line ->
                   length line = 5 /\
                   hd [] line = str_of_Z (Z.of_nat (start + i)).
Proof.
  induction rs as [|row rs IH]; intros start ls; simpl.
  - intros E. injection E as <-. split; [reflexivity|].
    intros [|i] line; discriminate.
  - destruct (SchetGenerator.table_line data start row) as [line0|e] eqn:L;
      cbn [bind]; [|discriminate].
    destruct (SchetGenerator.table_lines data (S start) rs) as [more|e] eqn:M;
      cbn [bind]; [|discriminate].
    intros E. injection E as <-. destruct (IH _ _ M) as [Hlen Hnth].
    split; [simpl; now rewrite Hlen|].
    intros [|i] line; simpl.
    + intros E. injection E as <-. rewrite Nat.add_0_r.
      now apply (table_line_shape data start row).
    + intros E. destruct (Hnth i line E) as [A B]. split; [exact A|].
      rewrite B. do 2 f_equal. lia.
Qed.

(** X14.  The table of [SchetGenerator.render_template] has one line per row of
    the data, each of five cells, numbered from 1 in the order of the
    rows. *)
Theorem table_lines_numbered (data : DataFrame) (lines : list (list str)) :
  SchetGenerator.table_lines data 1 (rows data) = Ok lines ->
  length lines = length (rows data) /\
  forall i line, nth_error lines i = Some line ->
                 length line = 5 /\ hd [] line = str_of_Z (Z.of_nat (S i)).
Proof.
  intros E. exact (table_lines_from data (rows data) 1 lines E).
Qed.

End Facts.
End RenderEdges.

(** ** The outcome of a new invoice *)

Module NewInvoiceFacts.
Import StrFacts.
Section Facts.
Context {FM : FloatModel} {H : Host}.

Lemma same_files_refl (w : World) : same_files w w.
Proof. repeat split. Qed.

Lemma same_files_trans (w1 w2 w3 : World) :
  same_files w1 w2 -> same_files w2 w3 -> same_files w1 w3.
Proof.
  unfold same_files. intros [A [B C]] [A' [B' C']]. repeat split; congruence.
Qed.

Lemma same_files_say (msg : str) (w : World) : same_files w (say msg w).
Proof. repeat split. Qed.

Lemma same_files_say_all (lines : list str) (w : World) :
  same_files w (fold_left (fun w line => say line w) lines w).
Proof. rewrite BackendFacts.say_all_stdout. repeat split. Qed.

Lemma invoice_rows_files (number customer : str) (items : list pyval) :
  forall w, same_files w (snd (SchetGenerator.invoice_rows number customer items w)).
Proof.
  induction items as [|item rest IH]; intros w; simpl; [apply same_files_refl|].
  destruct (SchetGenerator.invoice_row number customer (now_date (clock_reads w)) item).
  - specialize (IH (tick w)).
    destruct (SchetGenerator.invoice_rows number customer rest (tick w)) as [more w'].
    exact IH.
  - repeat split.
Qed.

Lemma render_template_files (template_path number : str) (data : DataFrame) (w : World) :
  same_files w (snd (SchetGenerator.render_template template_path data number w)).
Proof.
  unfold SchetGenerator.render_template.
  destruct (read_text template_path); [|repeat split].
  destruct (SchetGenerator.render_content _ data number (clock_reads w)) as [n [h|e]];
    repeat split.
Qed.

(** What a backend that raised leaves. *)
Lemma left_behind_files (path : str) (e : exn) (w : World) :
  let w' := PDFGenerator.left_behind path e w in
  counter_file w' = counter_file w /\
  counter_writable w' = counter_writable w /\
  (pdf_files w' = pdf_files w \/
   (pdf_files w' = (path, Unfinished) :: pdf_files w /\ leaves_file path e = true)).
Proof.
  cbv zeta. unfold PDFGenerator.left_behind.
  destruct (leaves_file path e); repeat split; auto.
Qed.

(** [generate_pdf] either succeeds and writes one file at the given path,
    or fails and writes no file but the one a backend that raised may
    have begun. *)
Lemma generate_pdf_files (html path number : str) (data : DataFrame) (w : World) :
  let r := SchetGenerator.generate_pdf html path data number w in
  counter_file (snd r) = counter_file w /\
  counter_writable (snd r) = counter_writable w /\
  if fst r
  then exists src, pdf_files (snd r) = (path, src) :: pdf_files w
  else no_pdf_finished path w (snd r).
Proof.
  cbv zeta. unfold SchetGenerator.generate_pdf, no_pdf_finished.
  destruct WEASYPRINT_AVAILABLE.
  - unfold SchetGenerator._generate_pdf_weasyprint, PDFGenerator._generate_pdf_weasyprint.
    destruct (weasyprint_write_pdf html path) as [u|e]; cbn [fst snd].
    + repeat split. now exists (FromHtml html).
    + destruct (left_behind_files path e w) as [A [B [C|[C L]]]];
        cbn [counter_file counter_writable pdf_files say]; repeat split; auto.
      right. split; [exact C|]. split; [now left|now exists e].
  - destruct REPORTLAB_AVAILABLE.
    + unfold SchetGenerator._generate_pdf_reportlab.
      destruct (schet_reportlab_build data number path) as [printed [u|e]];
        cbn [fst snd].
      * rewrite BackendFacts.say_all_stdout. repeat split.
        now exists (FromData (Frame data) number).
      * match goal with
        | |- context [PDFGenerator.left_behind path e ?x] =>
            destruct (left_behind_files path e x) as [A [B [C|[C L]]]]
        end; cbn [counter_file counter_writable pdf_files say];
          rewrite A, B, C, BackendFacts.say_all_stdout; repeat split; auto.
        right. split; [reflexivity|]. split; [now right|now exists e].
    + rewrite BackendFacts.say_all_stdout. repeat split. now left.
Qed.

(** X15.  A call of [generate_new_invoice] from a usable counter [n] that does
    not return a number (it returns [None] or raises) has still used up
    the number [n+1]: the counter file holds [n+1].  No PDF was finished:
    the PDF files are as they were, but for the file a backend that was
    called and raised may have begun at the path of the invoice; they are
    as they were whenever the backend was not reached (the call raised,
    no template was found, the template could not be read) and when no
    backend is installed. *)
Theorem failed_invoice_uses_number (customer_name : str) (items : list pyval)
    (w w' : World) (n : Z) (r : outcome (option str)) :
  counter_value w = Some n -> counter_writable w = true ->
  SchetGenerator.generate_new_invoice customer_name items w = (r, w') ->
  (forall number, r <> Ok (Some number)) ->
  counter_file w' = stored (n + 1) /\
  no_pdf_finished (new_invoice_path ("СЧ-" +++ format_03d (n + 1))) w w' /\
  ((exists e, r = Raise e) \/
   get_template_files = [] \/
   (exists template e, hd_error get_template_files = Some template /\
                       read_text template = Raise e) \/
   (WEASYPRINT_AVAILABLE = false /\ REPORTLAB_AVAILABLE = false) ->
   pdf_files w' = pdf_files w).
Proof.
  intros Hv Hw. unfold SchetGenerator.generate_new_invoice, SchetGenerator.new_invoice_data.
  rewrite (NumberFacts.next_from_counter w n Hv Hw).
  set (w1 := SchetGenerator.set_counter_file (stored (n + 1)) w).
  set (number := "СЧ-" +++ format_03d (n + 1)).
  pose proof (invoice_rows_files number customer_name items w1) as F1.
  destruct (SchetGenerator.invoice_rows number customer_name items w1) as [[data|e] w2];
    cbn [snd] in F1.
  2:{ intros E _. injection E as _ <-. destruct F1 as [A [_ C]].
      split; [exact A|]. split; [now left|intros _; exact C]. }
  destruct get_template_files as [|template rest] eqn:Et.
  { intros E _. injection E as _ <-. destruct F1 as [A [_ C]].
    split; [exact A|]. split; [now left|intros _; exact C]. }
  pose proof (render_template_files template number (frame_of_records data) w2) as F2.
  assert (Unread : forall e, read_text template = Raise e ->
            fst (SchetGenerator.render_template template (frame_of_records data)
                   number w2) = []).
  { intros e E. unfold SchetGenerator.render_template. now rewrite E. }
  destruct (SchetGenerator.render_template template (frame_of_records data) number w2)
    as [html w3]. cbn [fst snd] in F2, Unread.
  pose proof (same_files_trans _ _ _ F1 F2) as F3.
  destruct html as [|c html].
  { intros E _. injection E as _ <-. destruct F3 as [A [_ C]].
    split; [exact A|]. split; [now left|intros _; exact C]. }
  match goal with
  | |- context [SchetGenerator.generate_pdf ?h ?p ?d ?i ?x] =>
      pose proof (generate_pdf_files h p i d x) as F4;
      destruct (SchetGenerator.generate_pdf h p d i x) as [[|] w4]
  end.
  - intros E Hr. injection E as <- _. now elim (Hr number).
  - intros E _. injection E as <- <-. cbn [fst snd] in F4.
    destruct F4 as [A [_ C]]. destruct F3 as [A' [_ C']].
    cbn [counter_file pdf_files say] in *.
    split; [rewrite A, A'; reflexivity|].
    unfold no_pdf_finished in *. cbn [pdf_files say] in C.
    fold number. unfold new_invoice_path.
    rewrite C' in C. split; [exact C|].
    intros [[e E]|[E|[[t [e [E1 E2]]]|[E1 E2]]]].
    + discriminate E.
    + discriminate E.
    + injection E1 as <-. specialize (Unread e E2). discriminate Unread.
    + destruct C as [C|[_ [[W|R] _]]]; [exact C|congruence|congruence].
Qed.

(** X16.  A call of [generate_new_invoice] from a usable counter [n] that
    returns a number returns the number of [n+1]; before the viewer is
    started the counter file holds [n+1] and exactly one PDF was added,
    at [output/novyi_schet_<number>.pdf]. *)
Theorem new_invoice_written (customer_name : str) (items : list pyval)
    (w w' : World) (n : Z) (number : str) :
  counter_value w = Some n -> counter_writable w = true ->
  SchetGenerator.generate_new_invoice customer_name items w = (Ok (Some number), w') ->
  number = "СЧ-" +++ format_03d (n + 1) /\
  exists w'' src,
    w' = open_pdf (new_invoice_path number) w'' /\
    counter_file w'' = stored (n + 1) /\
    pdf_files w'' = (new_invoice_path number, src) :: pdf_files w.
Proof.
  intros Hv Hw. unfold SchetGenerator.generate_new_invoice, SchetGenerator.new_invoice_data.
  rewrite (NumberFacts.next_from_counter w n Hv Hw).
  set (w1 := SchetGenerator.set_counter_file (stored (n + 1)) w).
  set (num := "СЧ-" +++ format_03d (n + 1)).
  pose proof (invoice_rows_files num customer_name items w1) as F1.
  destruct (SchetGenerator.invoice_rows num customer_name items w1) as [[data|e] w2];
    [|discriminate].
  cbn [snd] in F1.
  destruct get_template_files as [|template _]; [discriminate|].
  pose proof (render_template_files template num (frame_of_records data) w2) as F2.
  destruct (SchetGenerator.render_template template (frame_of_records data) num w2)
    as [html w3]. cbn [snd] in F2.
  pose proof (same_files_trans _ _ _ F1 F2) as F3.
  destruct html as [|c html]; [discriminate|].
  match goal with
  | |- context [SchetGenerator.generate_pdf ?h ?p ?d ?i ?x] =>
      pose proof (generate_pdf_files h p i d x) as F4;
      destruct (SchetGenerator.generate_pdf h p d i x) as [[|] w4]
  end; [|discriminate].
  intros E. injection E as <- <-. split; [reflexivity|].
  cbn [fst snd] in F4. destruct F4 as [A [_ [src C]]]. destruct F3 as [A' [_ C']].
  eexists. exists src. split; [reflexivity|].
  cbn [counter_file pdf_files say] in *. split; [rewrite A, A'; reflexivity|].
  rewrite C, C'. reflexivity.
Qed.

(** Every record the loop builds has the eight keys in order, the number
    first and the status last. *)
Lemma invoice_rows_shape (number customer : str) (items : list pyval) :
  forall (w w' : World) (data : list record),
    SchetGenerator.invoice_rows number customer items w = (Ok data, w') ->
    Forall (fun row => keys row = invoice_keys /\
                       nth 0 (map snd row) PNone = PStr number /\
                       nth 7 (map snd row) PNone = PStr "Ожидает оплаты") data.
Proof.
  induction items as [|item rest IH]; intros w w' data; simpl.
  - intros E. injection E as <- _. constructor.
  - destruct (SchetGenerator.invoice_row number customer (now_date (clock_reads w)) item)
      as [row|e] eqn:R; [|discriminate].
    destruct (SchetGenerator.invoice_rows number customer rest (tick w)) as [more w2] eqn:M.
    destruct more as [rows|e]; cbn [bind]; [|discriminate].
    intros E. injection E as <- _. constructor; [|exact (IH _ _ _ M)].
    unfold SchetGenerator.invoice_row in R.
    destruct item as [| | | | | |d]; try discriminate.
    destruct (py_mul (dict_get d "количество" (PInt 1))
                     (dict_get d "цена_за_единицу" (PInt 0))); cbn [bind] in R;
      [|discriminate].
    injection R as <-. repeat split.
Qed.

Lemma filter_all {A} (p : A -> bool) (l : list A) :
  Forall (fun x => p x = true) l -> filter p l = l.
Proof.
  induction 1 as [|x l Hx _ IH]; simpl; [reflexivity|]. now rewrite Hx, IH.
Qed.

(** X17.  The dataset of a new invoice is the invoice of its number: it has the
    eight columns and one row per item, filtering it by the new number
    keeps every row, and its totals show it as waiting for payment. *)
Theorem new_invoice_is_pending (customer_name : str) (items : list pyval)
    (w w' : World) (number : str) (data : list record) :
  items <> [] ->
  SchetGenerator.new_invoice_data customer_name items w = (number, Ok data, w') ->
  let frame := frame_of_records data in
  columns frame = invoice_keys /\
  length (rows frame) = length items /\
  SchetGenerator.filter_data_by_invoice frame number = frame /\
  forall totals,
    SchetGenerator.calculate_totals frame = Ok totals ->
    dict_find totals "статус" = Some (PStr "Ожидает оплаты") /\
    dict_find totals "статус_класс" = Some (PStr "status-pending").
Proof.
  intros Hne. unfold SchetGenerator.new_invoice_data.
  destruct (SchetGenerator.get_next_invoice_number w) as [num w1].
  destruct (SchetGenerator.invoice_rows num customer_name items w1) as [more w2] eqn:M.
  intros E. injection E as <- -> <-.
  pose proof (invoice_rows_shape _ _ _ _ _ _ M) as Sh.
  destruct (InvoiceFacts.invoice_rows_spec _ _ _ _ _ _ M) as [Hlen _].
  destruct data as [|row data]; [destruct items; [congruence|discriminate]|].
  cbv zeta. unfold frame_of_records.
  inversion Sh as [|? ? [K [N0 N7]] Sh']; subst.
  rewrite K. cbn [columns rows]. split; [reflexivity|].
  split; [now rewrite length_map|].
  split.
  - unfold SchetGenerator.filter_data_by_invoice.
    change (has_column (mk_frame invoice_keys (map (map snd) (row :: data)))
              "номер_счета") with true. cbv iota.
    unfold SchetGenerator.select_rows. cbn [columns rows]. f_equal.
    apply filter_all. apply Forall_map. revert Sh.
    apply Forall_impl. intros r [_ [R0 _]].
    change (cell (mk_frame invoice_keys (map (map snd) (row :: data))) "номер_счета"
              (map snd r)) with (nth 0 (map snd r) PNone).
    rewrite R0. apply str_eqb_refl.
  - intros totals. unfold SchetGenerator.calculate_totals.
    change (frame_empty (mk_frame invoice_keys (map (map snd) (row :: data))))
      with false. cbn [negb].
    change (has_column (mk_frame invoice_keys (map (map snd) (row :: data)))
              "общая_сумма") with true. cbv iota.
    destruct (series_sum _) as [total|e]; cbn [bind]; [|discriminate].
    change (has_column (mk_frame invoice_keys (map (map snd) (row :: data)))
              "статус") with true. cbv iota.
    change (cell (mk_frame invoice_keys (map (map snd) (row :: data))) "статус"
              (hd [] (rows (mk_frame invoice_keys (map (map snd) (row :: data))))))
      with (nth 7 (map snd row) PNone).
    rewrite N7. intros E. injection E as <-. split; reflexivity.
Qed.

End Facts.
End NewInvoiceFacts.

(** ** The menus *)

Module MenuFacts.
Import NewInvoiceFacts.
Section Facts.
Context {FM : FloatModel} {H : Host} {T : Terminal}.

Lemma say_all_app (a b : list str) (w : World) :
  say_all (a ++ b) w = say_all b (say_all a w).
Proof. unfold say_all. apply fold_left_app. Qed.

Lemma say_all_files (lines : list str) (w : World) : same_files w (say_all lines w).
Proof. apply same_files_say_all. Qed.

(** The loop passes over the lines it rejects. *)
Lemma ask_skips {A} (prompt : str) (items : list A) (skipped : list str) :
  forall (keys : list keystroke) (w : World),
    forallb (rejected items) skipped = true ->
    Menus.ask prompt items (map Line skipped ++ keys) w =
    Menus.ask prompt items keys (say_all (retries prompt items skipped) w).
Proof.
  induction skipped as [|t skipped IH]; intros keys w Hr; [reflexivity|].
  cbn [forallb] in Hr. apply andb_true_iff in Hr. destruct Hr as [Ht Hr].
  cbn [map app Menus.ask]. unfold retries. cbn [flat_map].
  unfold say_all. cbn [app fold_left].
  unfold rejected in Ht. unfold complaint.
  destruct (int_of_choice t) as [n|].
  - destruct (Menus.in_range items n); [discriminate|]. apply (IH keys _ Hr).
  - apply (IH keys _ Hr).
Qed.

Lemma in_range_nth {A} (items : list A) (n : Z) :
  Menus.in_range items n = true ->
  exists item, nth_error items (Z.to_nat (n - 1)) = Some item.
Proof.
  unfold Menus.in_range. intros Hr. apply andb_true_iff in Hr.
  destruct Hr as [Lo Hi]. apply Z.leb_le in Lo, Hi.
  destruct (nth_error items (Z.to_nat (n - 1))) as [item|] eqn:E; [now exists item|].
  apply nth_error_None in E. lia.
Qed.



(** X19.  When no line holds a number of the list, [display_menu] returns no
    item: Ctrl-C ends the program through [sys.exit(0)] after a farewell,
    and the end of the input leaves the method as an exception. *)
Theorem menu_without_answer (items : list str) (title : str)
    (skipped : list str) (rest : list keystroke) (w : World) :
  items <> [] ->
  forallb (rejected items) skipped = true ->
  Menus.display_menu items title (map Line skipped ++ Interrupt :: rest) w =
    (Exit0, rest,
     say_all (file_screen items title ++
              retries (file_prompt items) items skipped ++
              [file_prompt items; Menus.goodbye]) w) /\
  Menus.display_menu items title (map Line skipped) w =
    (Uncaught end_of_input, [],
     say_all (file_screen items title ++
              retries (file_prompt items) items skipped ++
              [file_prompt items]) w).
Proof.
  intros Hne Hs. destruct items as [|first more]; [now elim Hne|].
  unfold Menus.display_menu, Menus.menu. split.
  - rewrite (ask_skips _ (first :: more) skipped _ _ Hs).
    unfold file_prompt, file_screen, say_all.
    rewrite ?fold_left_app. cbn [fold_left app Menus.ask]. rewrite ?fold_left_app.
    reflexivity.
  - rewrite <- (app_nil_r (map Line skipped)).
    rewrite (ask_skips _ (first :: more) skipped _ _ Hs).
    unfold file_prompt, file_screen, say_all.
    rewrite ?fold_left_app. cbn [fold_left app Menus.ask]. rewrite ?fold_left_app.
    reflexivity.
Qed.

Lemma ask_fair {A} (prompt : str) (items : list A) :
  items <> [] ->
  forall (typed : list keystroke) (w : World),
    fair_answer items typed w (Menus.ask prompt items typed w).
Proof.
  intros Hne. induction typed as [|key keys IH]; intros w.
  - cbn. split; [repeat split|]. split; [now exists []|reflexivity].
  - destruct key as [text|]; cbn [Menus.ask].
    + assert (Step : forall line,
                fair_answer items (Line text :: keys) w
                  (Menus.ask prompt items keys (say line (say prompt w)))).
      { intros line. specialize (IH (say line (say prompt w))).
        destruct (Menus.ask prompt items keys (say line (say prompt w)))
          as [[c keys'] w'].
        destruct IH as [F [[consumed E] C]]. split; [|split].
        - destruct F as [F1 [F2 F3]]. repeat split; assumption.
        - exists (Line text :: consumed). now rewrite E.
        - destruct c; try exact C. destruct C as [C _]. now elim Hne. }
      destruct (int_of_choice text) as [n|]; [|apply Step].
      destruct (Menus.in_range items n) eqn:R; [|apply Step].
      destruct (in_range_nth items n R) as [item E]. rewrite E.
      split; [repeat split|]. split; [now exists [Line text]|].
      now apply (nth_error_In items (Z.to_nat (n - 1))).
    + split; [repeat split|]. split; [now exists [Interrupt]|exact Hne].
Qed.

Lemma menu_fair {A} (heading prompt : str) (show : A -> str) (items : list A)
    (keys : list keystroke) (w : World) :
  items <> [] -> fair_answer items keys w (Menus.menu heading prompt show items keys w).
Proof.
  intros Hne. unfold Menus.menu.
  match goal with
  | |- fair_answer _ _ _ (Menus.ask ?p _ _ ?x) =>
      pose proof (ask_fair p items Hne keys x) as F;
      assert (S : same_files w x);
      [|destruct (Menus.ask p items keys x) as [[c keys'] w']]
  end.
  { rewrite BackendFacts.say_all_stdout. repeat split. }
  destruct F as [F R]. split; [exact (same_files_trans _ _ _ S F)|exact R].
Qed.

Lemma display_menu_fair (items : list str) (title : str)
    (keys : list keystroke) (w : World) :
  fair_answer items keys w (Menus.display_menu items title keys w).
Proof.
  destruct items as [|first more].
  - cbn. split; [repeat split|]. split; [now exists []|now split].
  - apply menu_fair. discriminate.
Qed.

Lemma invoice_menu_fair {A} (heading : str) (show : A -> str) (invoices : list A)
    (keys : list keystroke) (w : World) :
  fair_answer invoices keys w (Menus.invoice_menu heading show invoices keys w).
Proof.
  destruct invoices as [|first more].
  - cbn. split; [repeat split|]. split; [now exists []|now split].
  - apply menu_fair. discriminate.
Qed.

(** X20.  The three menus of the two classes answer fairly: whatever is typed,
    an item they return is one of the items shown, they return [None] only
    when there is nothing to show and then read nothing, they touch no
    file, and the only exception that leaves them is the end of the
    input. *)
Theorem menus_answer_fairly :
  (forall (items : list str) (title : str) (keys : list keystroke) (w : World),
     fair_answer items keys w (Menus.display_menu items title keys w)) /\
  (forall (invoices : list str) (keys : list keystroke) (w : World),
     fair_answer invoices keys w
       (PDFGeneratorRun.display_invoice_menu invoices keys w)) /\
  (forall (invoices : list pyval) (keys : list keystroke) (w : World),
     fair_answer invoices keys w
       (SchetGeneratorMenu.display_invoice_menu invoices keys w)).
Proof.
  split; [exact display_menu_fair|].
  split; intros invoices keys w; apply invoice_menu_fair.
Qed.

End Facts.
End MenuFacts.

(** ** [PDFGenerator.run] *)

Module RunFacts.
Import NewInvoiceFacts MenuFacts.
Section Facts.
Context {FM : FloatModel} {H : Host} {T : Terminal}.

Lemma read_data_file_files (data_file : str) (w w' : World) (data : anydata) :
  PDFGeneratorRun.read_data_file data_file w = Some (data, w') -> same_files w w'.
Proof.
  unfold PDFGeneratorRun.read_data_file, PDFGenerator.read_csv_file,
    PDFGenerator.read_json_file.
  destruct (str_eqb _ ".csv").
  - destruct (PDFGenerator.try_encodings _ _) as [[df msg]|e];
      intros E; injection E as _ <-; repeat split.
  - destruct (str_eqb _ ".json"); [|discriminate].
    destruct (json_load data_file); intros E; injection E as _ <-; repeat split.
Qed.

Lemma pdf_render_template_files (template invoice : str) (data : anydata) (w : World) :
  same_files w (snd (PDFGenerator.render_template template data invoice w)).
Proof.
  unfold PDFGenerator.render_template.
  destruct (bind _ _); repeat split.
Qed.

Lemma pdf_render_template_text (template invoice : str) (data : anydata) (w w3 : World) :
  fst (PDFGenerator.render_template template data invoice w) =
  fst (PDFGenerator.render_template template data invoice w3).
Proof.
  unfold PDFGenerator.render_template. destruct (bind _ _); reflexivity.
Qed.

(** [generate_pdf] either succeeds and writes one file at the given path,
    from the HTML or from the data, or fails and writes no file but the
    one a backend that raised may have begun. *)
Lemma pdf_generate_pdf_files (html path invoice : str) (data : anydata) (w : World) :
  let r := PDFGenerator.generate_pdf html path data invoice w in
  counter_file (snd r) = counter_file w /\
  counter_writable (snd r) = counter_writable w /\
  if fst r
  then exists src, pdf_files (snd r) = (path, src) :: pdf_files w /\
                   (src = FromData data invoice \/ src = FromHtml html)
  else no_pdf_finished path w (snd r).
Proof.
  cbv zeta. unfold PDFGenerator.generate_pdf, no_pdf_finished.
  destruct WEASYPRINT_AVAILABLE.
  - unfold PDFGenerator._generate_pdf_weasyprint.
    destruct (weasyprint_write_pdf html path) as [u|e]; cbn [fst snd].
    + repeat split. exists (FromHtml html). split; [reflexivity|now right].
    + destruct (left_behind_files path e w) as [A [B [C|[C L]]]];
        cbn [counter_file counter_writable pdf_files say]; repeat split; auto.
      right. split; [exact C|]. split; [now left|now exists e].
  - destruct REPORTLAB_AVAILABLE.
    + unfold PDFGenerator._generate_pdf_reportlab.
      destruct (reportlab_build data invoice path) as [printed [u|e]];
        cbn [fst snd].
      * rewrite BackendFacts.say_all_stdout. repeat split.
        exists (FromData data invoice). split; [reflexivity|now left].
      * match goal with
        | |- context [PDFGenerator.left_behind path e ?x] =>
            destruct (left_behind_files path e x) as [A [B [C|[C L]]]]
        end; cbn [counter_file counter_writable pdf_files say];
          rewrite A, B, C, BackendFacts.say_all_stdout; repeat split; auto.
        right. split; [reflexivity|]. split; [now right|now exists e].
    + rewrite BackendFacts.say_all_stdout. repeat split. now left.
Qed.

Ltac files :=
  unfold same_files in *;
  cbn [counter_file counter_writable pdf_files stdout clock_reads say] in *;
  intuition congruence.

Lemma say_each_files {A} (line : A -> str) (l : list A) :
  forall w, same_files w (fold_left (fun w x => say (line x) w) l w).
Proof.
  induction l as [|x l IH]; intros w; cbn [fold_left]; [apply same_files_refl|].
  eapply same_files_trans; [|apply IH]. apply same_files_say.
Qed.

Lemma run_selected_outcome (data_file template : str) (typed : list keystroke)
    (w0 w : World) :
  In data_file get_data_files -> In template get_template_files ->
  same_files w0 w ->
  run_outcome w0 (PDFGeneratorRun.run_selected data_file template typed w).
Proof.
  intros Hf Ht F0. unfold PDFGeneratorRun.run_selected.
  match goal with |- context [PDFGeneratorRun.read_data_file _ ?x] => set (w1 := x) end.
  assert (F1 : same_files w0 w1) by (subst w1; files).
  destruct (PDFGeneratorRun.read_data_file data_file w1) as [[data w2]|] eqn:R;
    [|cbn; files].
  pose proof (read_data_file_files _ _ _ _ R) as F2.
  destruct (data_len data =? 0)%nat; [cbn; files|].
  pose proof (invoice_menu_fair "
📄 Доступные счета (invoice_id):" (fun invoice : str => invoice)
                (PDFGenerator.get_available_invoices data) typed w2) as M.
  unfold PDFGeneratorRun.display_invoice_menu.
  destruct (Menus.invoice_menu _ _ (PDFGenerator.get_available_invoices data) typed w2)
    as [[c typed'] w3].
  destruct M as [F3 [_ C]].
  destruct c as [invoice| | |e]; [|cbn; files|cbn; files|cbn; split; [exact C|files]].
  destruct invoice as [|ch invoice]; [cbn; files|].
  destruct (data_len (PDFGenerator.filter_data_by_invoice data (ch :: invoice)) =? 0)%nat
    eqn:L.
  { apply Nat.eqb_eq in L. exfalso.
    exact (KeyAlgebra.listed_is_kept data (ch :: invoice) C L). }
  match goal with
  | |- context [PDFGenerator.render_template ?t ?d ?i ?x] =>
      pose proof (pdf_render_template_files t i d x) as F4;
      pose proof (pdf_render_template_text t i d x x) as E4;
      destruct (PDFGenerator.render_template t d i x) as [html w4] eqn:RT
  end.
  cbn [fst snd] in F4, E4.
  destruct html as [|h html]; [cbn; files|].
  match goal with
  | |- context [PDFGenerator.generate_pdf ?h ?p ?d ?i ?x] =>
      pose proof (pdf_generate_pdf_files h p i d x) as F5;
      destruct (PDFGenerator.generate_pdf h p d i x) as [[|] w5]
  end; cbn [fst snd] in F5; cbv zeta in F5.
  2:{ cbn [run_outcome]. exists (ch :: invoice), template.
      destruct F5 as [A [B P]]. unfold at_most_unfinished, no_pdf_finished in *.
      fold (run_path (ch :: invoice) template) in P.
      cbn [counter_file counter_writable pdf_files say] in *.
      destruct F0 as [F01 [F02 F03]], F1 as [F11 [F12 F13]], F2 as [F21 [F22 F23]],
        F3 as [F31 [F32 F33]], F4 as [F41 [F42 F43]].
      cbn [counter_file counter_writable pdf_files say] in *.
      split; [congruence|]. split; [congruence|].
      destruct P as [P|[P Q]]; [left; congruence|right].
      split; [congruence|exact Q]. }
  destruct F5 as [A [B [src [P S]]]].
  cbn [run_outcome]. unfold created_from.
  exists data_file, template, (ch :: invoice), data, w1, w2.
  match type of RT with
  | PDFGenerator.render_template _ _ _ ?x = _ => exists x
  end.
  eexists. exists src.
  split; [exact Hf|]. split; [exact Ht|]. split; [exact R|]. split; [exact C|].
  split; [discriminate|]. split; [reflexivity|].
  split; [files|]. split; [unfold run_path; files|].
  cbv zeta. rewrite RT. cbn [fst]. destruct S as [S|S]; [now left|now right].
Qed.

Lemma run_has_outcome (typed : list keystroke) (w : World) :
  run_outcome w (PDFGeneratorRun.run typed w).
Proof.
  unfold PDFGeneratorRun.run. cbv zeta.
  match goal with
  | |- context [Menus.display_menu get_data_files _ typed ?x] => set (w1 := x)
  end.
  assert (F1 : same_files w w1).
  { subst w1.
    eapply same_files_trans; [|apply say_each_files].
    eapply same_files_trans; [|apply same_files_say].
    eapply same_files_trans; [|apply say_each_files].
    files. }
  destruct get_data_files as [|f fs] eqn:Ef; [cbn; split; [exact Ef|files]|].
  destruct get_template_files as [|t ts] eqn:Et; [cbn; split; [exact Et|files]|].
  pose proof (display_menu_fair (f :: fs) "Файлы данных" typed w1) as M1.
  destruct (Menus.display_menu (f :: fs) "Файлы данных" typed w1) as [[c1 typed1] w2].
  destruct M1 as [F2 [_ C1]].
  destruct c1 as [data_file| | |e];
    [|destruct C1; discriminate|cbn; files|cbn; split; [exact C1|files]].
  pose proof (display_menu_fair (t :: ts) "HTML шаблоны" typed1 w2) as M2.
  destruct (Menus.display_menu (t :: ts) "HTML шаблоны" typed1 w2) as [[c2 typed2] w3].
  destruct M2 as [F3 [_ C2]].
  destruct c2 as [template| | |e];
    [|destruct C2; discriminate|cbn; files|cbn; split; [exact C2|files]].
  pose proof (run_selected_outcome data_file template typed2 w w3) as R.
  rewrite Ef, Et in R. apply R; [exact C1|exact C2|files].
Qed.

(** X21.  A run that ends with the PDF created has created the PDF of a listed
    invoice: the data file and the template are among those found, the
    invoice is one of those listed for the data of the file and is not the
    empty text, and exactly one PDF was added, at
    [invoice_<invoice>_<stem of the template>.pdf] in the output
    directory, made from the data filtered by the invoice or from the
    template rendered with them; the counter file is as it was. *)
Theorem run_creates_listed_invoice (typed typed' : list keystroke) (w w' : World) :
  PDFGeneratorRun.run typed w =
    (PDFGeneratorRun.Return PDFGeneratorRun.PdfCreated, typed', w') ->
  created_from w w'.
Proof.
  intros E. pose proof (run_has_outcome typed w) as R. rewrite E in R. exact R.
Qed.

(** X22.  A run that ends in any other way has finished no PDF and has left
    the counter file as it was.  The PDF files are as they were in every
    ending before the backend is called (an early return, Ctrl-C, the end
    of the input); when the backend failed they are as they were but for
    the file that a backend which raised may have begun at the path of the
    run. *)
Theorem run_writes_nothing_otherwise (typed typed' : list keystroke) (w w' : World)
    (e : PDFGeneratorRun.ending) :
  PDFGeneratorRun.run typed w = (e, typed', w') ->
  e <> PDFGeneratorRun.Return PDFGeneratorRun.PdfCreated ->
  counter_file w' = counter_file w /\
  (e <> PDFGeneratorRun.Return PDFGeneratorRun.PdfFailed -> pdf_files w' = pdf_files w) /\
  (e = PDFGeneratorRun.Return PDFGeneratorRun.PdfFailed ->
   exists invoice template, no_pdf_finished (run_path invoice template) w w').
Proof.
  intros E Hne. pose proof (run_has_outcome typed w) as R. rewrite E in R.
  destruct e as [[]| |ex]; cbn in R; unfold same_files, at_most_unfinished in R;
    try tauto;
    try (split; [tauto|split; [tauto|discriminate]]).
  destruct R as [invoice [template [A [_ P]]]].
  split; [exact A|]. split; [tauto|]. intros _. now exists invoice, template.
Qed.

(** X23.  Two tests of [run] never fire: a menu of files never returns
    [None] once the lists were found non-empty.  When no frame read from a
    CSV file has a missing cell in its key column, filtering by the
    invoice picked from the list never leaves the data empty, so the
    message that no data were found for the invoice is never printed, and
    the only exception that leaves [run] is the end of the input at a
    menu. *)
Theorem run_dead_returns (typed : list keystroke) (w : World) :
  let e := fst (fst (PDFGeneratorRun.run typed w)) in
  e <> PDFGeneratorRun.Return PDFGeneratorRun.NoDataFileChosen /\
  e <> PDFGeneratorRun.Return PDFGeneratorRun.NoTemplateChosen /\
  ((forall (file encoding : str) (ignore : bool) (df : DataFrame),
      pd_read_csv file encoding ignore = Ok df -> no_missing_key (Frame df) = true) ->
   e <> PDFGeneratorRun.Return PDFGeneratorRun.NoInvoiceData /\
   forall ex, e = PDFGeneratorRun.Raised ex -> ex = end_of_input).
Proof.
  cbv zeta. pose proof (run_has_outcome typed w) as R.
  destruct (PDFGeneratorRun.run typed w) as [[e typed'] w']. cbn [fst].
  repeat split; try (intros ->; exact R).
  intros ex ->. exact (proj1 R).
Qed.

End Facts.
End RunFacts.

(** ** Scenarios *)

Module Scenarios.
Import Sample SampleConsole.

Lemma invoices_order_independent_witness :
  @PDFGenerator.get_available_invoices floats (plain "")
    (Frame (mk_frame [lit "invoice_id"] [[PStr "B"]; [PStr "A"]])) =
  @PDFGenerator.get_available_invoices floats (plain "")
    (Frame (mk_frame [lit "invoice_id"] [[PStr "A"]; [PStr "B"]])) /\
  @PDFGenerator.get_available_invoices floats (plain "")
    (Value (PList [PDict [(lit "id", PInt 2)]; PDict [(lit "id", PInt 1)]])) =
  @PDFGenerator.get_available_invoices floats (plain "")
    (Value (PList [PDict [(lit "id", PInt 1)]; PDict [(lit "id", PInt 2)]])).
Proof.
  destruct (@KeyAlgebra.invoices_order_independent floats (plain "")) as [A B].
  split; [apply A|apply B]; apply perm_swap.
Defined.

Lemma invoices_ascending_witness :
  ascending (@PDFGenerator.get_available_invoices floats (plain "") (Frame scenario_a)) /\
  NoDup (@PDFGenerator.get_available_invoices floats (plain "") (Frame scenario_a)) /\
  forall id, In id (@PDFGenerator.get_available_invoices floats (plain "")
                      (Frame scenario_a)) <->
             @held_under_key floats (plain "") (Frame scenario_a) id = true.
Proof.
  apply (@KeyAlgebra.invoices_ascending floats (plain "") (Frame scenario_a)).
  vm_compute. reflexivity.
Defined.

(** A frame whose key column has a missing cell is one that the
    statements about the listing of a frame leave out. *)
Example missing_key_cell_is_left_out :
  @no_missing_key floats (Frame gapped_frame) = false /\
  @no_missing_key floats (Frame scenario_a) = true.
Proof. split; vm_compute; reflexivity. Qed.

Lemma listed_iff_kept_witness :
  (In (lit "INV-1") (@PDFGenerator.get_available_invoices floats (plain "")
                       (Frame scenario_a)) <->
   data_len (@PDFGenerator.filter_data_by_invoice floats (plain "")
               (Frame scenario_a) "INV-1") <> 0) /\
  (In (lit "7") (@PDFGenerator.get_available_invoices floats (plain "")
                   (Value (PList scenario_b))) <->
   data_len (@PDFGenerator.filter_data_by_invoice floats (plain "")
               (Value (PList scenario_b)) "7") <> 0).
Proof.
  destruct (@KeyAlgebra.listed_iff_kept floats (plain "")) as [A B].
  split; [|apply B].
  apply (A scenario_a (lit "invoice_id") (lit "INV-1")); vm_compute; reflexivity.
Defined.

Lemma numbers_distinct_witness :
  fst (@SchetGenerator.get_next_invoice_number floats (plain "") (world_with_counter 999)) <>
  fst (@SchetGenerator.get_next_invoice_number floats (plain "") (world_with_counter 99)).
Proof.
  apply (@NumberFacts.numbers_distinct floats (plain "")
           (world_with_counter 999) (world_with_counter 99) 999%Z 99%Z);
    try reflexivity.
  lia.
Defined.

Lemma numbers_in_sequence_witness :
  fst (@draw floats (plain "") 3 world0) =
    [lit "СЧ-001"; lit "СЧ-002"; lit "СЧ-003"] /\
  counter_value (snd (@draw floats (plain "") 3 world0)) = Some 3%Z /\
  NoDup (fst (@draw floats (plain "") 3 world0)).
Proof.
  destruct (@NumberFacts.numbers_in_sequence floats (plain "") 3 world0 0%Z
              eq_refl eq_refl) as [A [B C]].
  split; [|split; [exact B|exact C]].
  rewrite A. vm_compute. reflexivity.
Defined.

Lemma fallback_number_witness :
  fst (@SchetGenerator.get_next_invoice_number floats (plain "")
         world_with_broken_counter) = lit "СЧ-202401011200" /\
  counter_file (snd (@SchetGenerator.get_next_invoice_number floats (plain "")
                       world_with_broken_counter)) =
    counter_file world_with_broken_counter.
Proof.
  destruct (@NumberFacts.fallback_number floats (plain "") world_with_broken_counter)
    as [e [A B]].
  - vm_compute. exact I.
  - split; [|exact B]. rewrite A. vm_compute. reflexivity.
Defined.

Lemma float_counter_advances_witness :
  fst (@SchetGenerator.get_next_invoice_number floats (plain "")
         world_with_float_counter) = lit "СЧ-202401011200" /\
  counter_file (snd (@SchetGenerator.get_next_invoice_number floats (plain "")
                       world_with_float_counter)) =
    Some (Ok (PDict [(lit "counter", PFloat (float_of_Z 3))])).
Proof.
  destruct (@NumberFacts.float_counter_advances floats (plain "")
              world_with_float_counter
              [(lit "counter", PFloat (float_of_Z 2))] (float_of_Z 2)
              eq_refl eq_refl eq_refl) as [A B].
  split; [rewrite A; vm_compute; reflexivity|exact B].
Defined.

Lemma totals_consistent_witness :
  @SchetGenerator.calculate_totals floats (plain "") no_rows = Ok [] /\
  exists totals,
    @SchetGenerator.calculate_totals floats (plain "") paid_frame = Ok totals /\
    dict_find totals "количество_позиций" = Some (PInt 2) /\
    dict_find totals "статус_класс" = Some (PStr "status-paid").
Proof.
  destruct (@RenderEdges.totals_consistent floats (plain "") no_rows) as [A _].
  split; [apply A; reflexivity|].
  destruct (@SchetGenerator.calculate_totals floats (plain "") paid_frame)
    as [totals|e] eqn:E; [|vm_compute in E; discriminate E].
  exists totals. split; [reflexivity|].
  destruct (@RenderEdges.totals_consistent floats (plain "") paid_frame) as [_ B].
  destruct (B totals eq_refl E) as [N [status [S1 [S2 S3]]]].
  split; [exact N|].
  vm_compute in S3. injection S3 as <-. exact S2.
Defined.

Lemma schet_renders_empty_frame_witness :
  snd (@SchetGenerator.render_content floats (plain "") schet_template no_rows
         "СЧ-001" 0) =
    Ok (substitute_all
          (@empty_schet_substitutions floats (plain "") "СЧ-001" 0 "0.00")
          schet_template).
Proof.
  apply (@RenderEdges.schet_renders_empty_frame floats (plain "")); reflexivity.
Defined.

Lemma pdf_renders_empty_dataset_witness :
  @PDFGenerator.render_content floats (plain "") invoice_template (Value (PList [])) "7" =
    Ok (replace (replace invoice_template "{{invoice_id}}" "7")
                "{{css_styles}}" PDFGenerator.css_styles).
Proof.
  apply (@RenderEdges.pdf_renders_empty_dataset floats (plain "") invoice_template
           (lit "7") (Value (PList []))).
  reflexivity.
Defined.

Lemma unknown_placeholders_stay_witness :
  @PDFGenerator.render_content floats (plain "") "<h1>{{title}}</h1>"
    (Frame scenario_a) "INV-1" = Ok (lit "<h1>{{title}}</h1>") /\
  @PDFGenerator.render_content floats (plain "") "<h1>{{title}}</h1>"
    (Value (PList scenario_b)) "7" = Ok (lit "<h1>{{title}}</h1>").
Proof.
  destruct (@RenderEdges.unknown_placeholders_stay floats (plain "")) as [A B].
  split.
  - apply A; vm_compute; reflexivity.
  - apply (B (lit "<h1>{{title}}</h1>") [(lit "id", PInt 7); (lit "total", PInt 100)]
             [] (lit "7") (lit "<table></table>")); vm_compute; reflexivity.
Defined.

Lemma render_fails_to_empty_witness :
  @PDFGenerator.render_template floats (empty_host true true) "templates/schet.html"
    (Frame scenario_a) "INV-1" world0 =
    (lit "", say (render_failure missing) world0) /\
  @SchetGenerator.render_template floats (empty_host true true) "templates/schet.html"
    scenario_a "INV-1" world0 =
    (lit "", say (render_failure missing) world0) /\
  exists e,
    @PDFGenerator.render_template floats (plain invoice_template) "templates/schet.html"
      (Value (PList [PInt 1])) "1" world0 =
      (lit "", say (render_failure e) world0).
Proof.
  split; [|split].
  - apply (proj1 (@RenderEdges.render_fails_to_empty floats (empty_host true true)
                    "templates/schet.html" "INV-1" world0)).
    reflexivity.
  - apply (proj1 (proj2 (@RenderEdges.render_fails_to_empty floats (empty_host true true)
                           "templates/schet.html" "INV-1" world0))).
    reflexivity.
  - apply (proj2 (proj2 (@RenderEdges.render_fails_to_empty floats
                           (plain invoice_template) "templates/schet.html" "1" world0))).
    intros d. discriminate.
Defined.

Lemma table_lines_numbered_witness :
  exists lines,
    @SchetGenerator.table_lines floats (plain "") paid_frame 1 (rows paid_frame) =
      Ok lines /\
    length lines = 2 /\
    forall i line, nth_error lines i = Some line ->
                   length line = 5 /\ hd [] line = str_of_Z (Z.of_nat (S i)).
Proof.
  destruct (@SchetGenerator.table_lines floats (plain "") paid_frame 1 (rows paid_frame))
    as [lines|e] eqn:E; [|vm_compute in E; discriminate E].
  exists lines. split; [reflexivity|].
  exact (@RenderEdges.table_lines_numbered floats (plain "") paid_frame lines E).
Defined.

Lemma failed_invoice_uses_number_witness :
  counter_file (snd (@SchetGenerator.generate_new_invoice floats (empty_host true true)
                       "ООО" demo_items world0)) = stored 1 /\
  pdf_files (snd (@SchetGenerator.generate_new_invoice floats (empty_host true true)
                    "ООО" demo_items world0)) = pdf_files world0.
Proof.
  destruct (@NewInvoiceFacts.failed_invoice_uses_number floats (empty_host true true)
              "ООО" demo_items world0
              (snd (@SchetGenerator.generate_new_invoice floats (empty_host true true)
                      "ООО" demo_items world0))
              0%Z
              (fst (@SchetGenerator.generate_new_invoice floats (empty_host true true)
                      "ООО" demo_items world0)))
    as [A [_ B]].
  - reflexivity.
  - reflexivity.
  - vm_compute. reflexivity.
  - intros number. vm_compute. discriminate.
  - split; [exact A|]. apply B. right. right. left.
    exists (lit "templates/schet.html"), missing. split; reflexivity.
Defined.

Lemma new_invoice_written_witness :
  exists (w' w'' : @World floats) (src : @pdf_source floats),
    @SchetGenerator.generate_new_invoice floats (plain schet_template)
      "ООО" demo_items world0 = (Ok (Some (lit "СЧ-001")), w') /\
    counter_file w'' = stored 1 /\
    pdf_files w'' = [(lit "output/novyi_schet_СЧ-001.pdf", src)].
Proof.
  destruct (@SchetGenerator.generate_new_invoice floats (plain schet_template)
              "ООО" demo_items world0) as [r w'] eqn:E.
  assert (R : r = Ok (Some (lit "СЧ-001"))).
  { apply (f_equal fst) in E. vm_compute in E. symmetry. exact E. }
  subst r.
  destruct (@NewInvoiceFacts.new_invoice_written floats (plain schet_template)
              "ООО" demo_items world0 w' 0%Z (lit "СЧ-001") eq_refl eq_refl E)
    as [_ [w'' [src [_ [A B]]]]].
  exists w', w'', src. split; [reflexivity|]. split; [exact A|exact B].
Defined.

Lemma new_invoice_is_pending_witness :
  exists (number : str) (data : list (@record floats)),
    fst (@SchetGenerator.new_invoice_data floats (empty_host true true)
           "ООО" demo_items world0) = (number, Ok data) /\
    columns (frame_of_records data) = invoice_keys /\
    length (rows (frame_of_records data)) = 2 /\
    SchetGenerator.filter_data_by_invoice (frame_of_records data) number =
      frame_of_records data.
Proof.
  destruct (@SchetGenerator.new_invoice_data floats (empty_host true true)
              "ООО" demo_items world0) as [[number r] w'] eqn:E.
  destruct r as [data|e]; [|vm_compute in E; discriminate E].
  exists number, data. split; [reflexivity|].
  destruct (@NewInvoiceFacts.new_invoice_is_pending floats (empty_host true true)
              "ООО" demo_items world0 w' number data) as [A [B [C _]]].
  - discriminate.
  - exact E.
  - split; [exact A|]. split; [exact B|exact C].
Defined.


Lemma menu_without_answer_witness :
  fst (@Menus.display_menu floats (terminal []) [lit "data/a.csv"]
         "Файлы данных" [Line "0"; Interrupt; Line "1"] world0) =
    (Exit0, [Line "1"]) /\
  fst (@Menus.display_menu floats (terminal []) [lit "data/a.csv"]
         "Файлы данных" [Line "0"] world0) =
    (Uncaught end_of_input, []).
Proof.
  destruct (@MenuFacts.menu_without_answer floats (terminal []) [lit "data/a.csv"]
              "Файлы данных" [lit "0"] [Line "1"] world0) as [A B].
  - discriminate.
  - vm_compute. reflexivity.
  - cbn [map app] in A, B. rewrite A, B. split; reflexivity.
Defined.

Lemma run_creates_listed_invoice_witness :
  @created_from floats office (terminal [lit "data/a.csv"]) world0
    (snd (@PDFGeneratorRun.run floats office (terminal [lit "data/a.csv"])
            [Line "1"; Line "1"; Line "1"] world0)).
Proof.
  apply (@RunFacts.run_creates_listed_invoice floats office (terminal [lit "data/a.csv"])
           [Line "1"; Line "1"; Line "1"]
           (snd (fst (@PDFGeneratorRun.run floats office (terminal [lit "data/a.csv"])
                        [Line "1"; Line "1"; Line "1"] world0)))).
  assert (E : fst (fst (@PDFGeneratorRun.run floats office (terminal [lit "data/a.csv"])
                          [Line "1"; Line "1"; Line "1"] world0)) =
              PDFGeneratorRun.Return PDFGeneratorRun.PdfCreated)
    by (vm_compute; reflexivity).
  destruct (@PDFGeneratorRun.run floats office (terminal [lit "data/a.csv"])
              [Line "1"; Line "1"; Line "1"] world0) as [[e typed'] w'].
  cbn [fst snd] in *. now rewrite E.
Defined.

Lemma run_writes_nothing_otherwise_witness :
  counter_file (snd (@PDFGeneratorRun.run floats office (terminal [lit "data/a.csv"])
                       [Line "1"; Interrupt] world0)) = counter_file world0 /\
  pdf_files (snd (@PDFGeneratorRun.run floats office (terminal [lit "data/a.csv"])
                    [Line "1"; Interrupt] world0)) = pdf_files world0.
Proof.
  destruct (@RunFacts.run_writes_nothing_otherwise floats office
              (terminal [lit "data/a.csv"]) [Line "1"; Interrupt]
              (snd (fst (@PDFGeneratorRun.run floats office (terminal [lit "data/a.csv"])
                           [Line "1"; Interrupt] world0)))
              world0
              (snd (@PDFGeneratorRun.run floats office (terminal [lit "data/a.csv"])
                      [Line "1"; Interrupt] world0))
              (fst (fst (@PDFGeneratorRun.run floats office (terminal [lit "data/a.csv"])
                           [Line "1"; Interrupt] world0))))
    as [A [B _]].
  - destruct (@PDFGeneratorRun.run floats office (terminal [lit "data/a.csv"])
                [Line "1"; Interrupt] world0) as [[e typed'] w']. reflexivity.
  - vm_compute. discriminate.
  - split; [exact A|]. apply B. vm_compute. discriminate.
Defined.

Lemma run_dead_returns_witness :
  fst (fst (@PDFGeneratorRun.run floats office (terminal [lit "data/a.csv"])
              [Line "1"] world0)) = PDFGeneratorRun.Raised end_of_input.
Proof.
  destruct (@RunFacts.run_dead_returns floats office (terminal [lit "data/a.csv"])
              [Line "1"] world0) as [_ [_ D]].
  cbv zeta in D. destruct D as [_ D].
  - intros file encoding ignore df E. injection E as <-. vm_compute. reflexivity.
  - destruct (fst (fst (@PDFGeneratorRun.run floats office (terminal [lit "data/a.csv"])
                          [Line "1"] world0))) as [p| |ex] eqn:E;
      try (vm_compute in E; discriminate E).
    now rewrite (D ex eq_refl).
Defined.

(** A backend that raises while it writes can leave a file: the run ends
    in failure and the unfinished file is there. *)
Example failed_backend_can_leave_a_file :
  fst (fst (@PDFGeneratorRun.run floats crashing_office (terminal [lit "data/a.csv"])
              [Line "1"; Line "1"; Line "1"] world0)) =
    PDFGeneratorRun.Return PDFGeneratorRun.PdfFailed /\
  pdf_files (snd (@PDFGeneratorRun.run floats crashing_office
                    (terminal [lit "data/a.csv"])
                    [Line "1"; Line "1"; Line "1"] world0)) =
    [(lit "output/invoice_INV-1_templates/schet.html.pdf", Unfinished)].
Proof. split; vm_compute; reflexivity. Qed.

(** In a frame of whole numbers and floats the first row is read as
    floats: the whole number 7 is put in as [7.0]. *)
Example whole_number_read_as_float :
  @PDFGenerator.render_content floats (plain "") "{{id}}|{{total}}"
    (Frame numeric_frame) "7" = Ok (lit "7.0|nan") /\
  @SchetGenerator.table_line floats (plain "") 
    (mk_frame [lit "количество"; lit "скидка"] [[PInt 3; PFloat nan]]) 1
    [PInt 3; PFloat nan] =
    Ok [lit "1"; lit ""; lit "3.0"; lit "0.00"; lit "0.00"].
Proof. split; vm_compute; reflexivity. Qed.

(** A value that is never put in does not count: the item [table] is a
    fragment of a reserved placeholder, but the template does not ask for
    the item. *)
Example value_not_put_in_does_not_count :
  all_safe reserved_pdf
    (@frame_substitutions floats (plain "")
       (mk_frame [lit "invoice_id"; lit "item"] [[PStr "INV-1"; PStr "table"]])
       "INV-1") = false /\
  all_safe reserved_pdf
    (put_in (@frame_substitutions floats (plain "")
               (mk_frame [lit "invoice_id"; lit "item"] [[PStr "INV-1"; PStr "table"]])
               "INV-1")
            invoice_template) = true.
Proof. split; vm_compute; reflexivity. Qed.

(** An invoice whose identifier is the empty text is listed and can be
    picked, but [run] takes the pick for no pick and returns without a
    word. *)
Example empty_identifier_is_not_produced :
  @PDFGenerator.get_available_invoices floats unnamed_office
    (Value (PList [PDict [(lit "id", PStr ""); (lit "total", PInt 100)]])) = [lit ""] /\
  fst (@PDFGeneratorRun.run floats unnamed_office (terminal [lit "data/a.json"])
         [Line "1"; Line "1"; Line "1"] world0) =
    (PDFGeneratorRun.Return PDFGeneratorRun.NoInvoiceChosen, []) /\
  last (stdout (snd (@PDFGeneratorRun.run floats unnamed_office
                       (terminal [lit "data/a.json"])
                       [Line "1"; Line "1"; Line "1"] world0))) (lit "") =
    lit "Выберите номер счета (1-1): ".
Proof. repeat split; vm_compute; reflexivity. Qed.

End Scenarios.
